(** * chi-311-quality: the resilient ingestion fetcher ([src/fetch.py])

    A shallow embedding of [fetch_api], of the helpers it calls
    ([_sample_columns], [_try_page], [_page_iter_no_where]) and of its
    caller [main], followed by the properties of the fetcher stated in the
    specification and by further properties of [fetch_api] and [main].

    The remote source, the clock and the library routines whose result is
    left open ([pd.to_datetime], [strftime], [repr]) are collected in the
    class [Externals]; every definition and theorem is parametric in it.
    Requests are effects: a computation threads the state of the remote
    source and emits the trace of the exchanges it made, each tagged with
    the place of [fetch_api] that issued it.  The two [while True] loops
    take fuel.

    Scope.  The remote source always answers a request with an HTTP
    response whose body, on success, decodes to a list of flat objects;
    connection failures and timeouts raised by [requests.get] itself are
    not modelled.  A frame is its columns with their [dtype.kind] and its
    rows; the conversions pandas applies to non-date values are not
    modelled.  Calls into pandas are taken to return: an exception that
    pandas raises on a value it cannot convert or compare is not modelled.
    Timestamps are integers on one time line.  Strings hold Python text in
    UTF-8, and a character is a code point.  The command line of [main] is
    taken as parsed, and its file-system calls succeed. *)

From stdpp Require Import base option list gmap strings pretty sorting.
From Stdlib Require Import ZArith Lia.

Open Scope Z_scope.

#[local] Set Warnings "-clear-no-such-hyp".

(** ** JSON rows as returned by [r.json()] *)

Inductive value :=
  | VStr (s : string)
  | VNum (n : Z)
  | VBool (b : bool)
  | VNull.

(** One decoded JSON object: a Python [dict] from field name to value. *)
Abbreviation record := (gmap string value).

(** ** The fragment of pandas used by the fetcher *)

Module pd.

(** A cell of a frame: the object that came out of the JSON decoder, or a
    timestamp (nanoseconds since the epoch, UTC) after [to_datetime];
    [Timestamp None] is [NaT].  A key missing from a row reads as [NaN]. *)
Inductive cell :=
  | Obj (v : value)
  | Timestamp (t : option Z).

Abbreviation NaT := (Timestamp None).
Abbreviation row := (gmap string cell).
Abbreviation Series := (list (option cell)).

(** [dtype.kind]: ['M'] for datetime columns, anything else otherwise. *)
Inductive kind := kind_M | kind_other.

Record DataFrame := mkDataFrame {
  dtypes : gmap string kind;
  rows : list row
}.

Definition columns (df : DataFrame) : gset string := dom (dtypes df).

(** [pd.DataFrame()] *)
Definition empty_frame : DataFrame := mkDataFrame ∅ [].

(** [pd.DataFrame(rows)] for a list of dicts: one row per dict, one
    column per key seen in any of them. *)
Definition of_records (rs : list record) : DataFrame :=
  mkDataFrame
    (gset_to_gmap kind_other (⋃ ((λ r : record, dom r) <$> rs)))
    ((λ r : record, Obj <$> r) <$> rs).

(** [len(df)] *)
Definition len (df : DataFrame) : nat := length (rows df).

(** [df.empty]: true when either axis has length zero. *)
Definition empty (df : DataFrame) : bool :=
  bool_decide (columns df = ∅) || bool_decide (rows df = []).

(** [df[c]] *)
Definition getitem (c : string) (df : DataFrame) : Series :=
  (λ r : row, r !! c) <$> rows df.

(** [df[c] = s] for a datetime series [s]; assignment aligns on the row
    labels, a label missing from [s] reads as [NaT]. *)
Definition setitem_datetime (c : string) (s : list (option Z))
    (df : DataFrame) : DataFrame :=
  mkDataFrame (<[c := kind_M]> (dtypes df))
    (imap (λ i (r : row), <[c := Timestamp (default None (s !! i))]> r)
          (rows df)).

(** [s.notna()], element by element *)
Definition notna_cell (o : option cell) : bool :=
  match o with
  | Some (Obj VNull) | Some NaT | None => false
  | Some _ => true
  end.

Definition notna (s : Series) : list bool := notna_cell <$> s.

(** [s >= since_dt] on a datetime series, element by element: [NaT]
    compares false. *)
Definition ge_cell (since_dt : Z) (o : option cell) : bool :=
  match o with
  | Some (Timestamp (Some t)) => bool_decide (since_dt ≤ t)
  | _ => false
  end.

Definition ge (since_dt : Z) (s : Series) : list bool := ge_cell since_dt <$> s.

(** [b.any()] *)
Definition any (b : list bool) : bool := existsb id b.

(** [a | b] *)
Definition or_ (a b : list bool) : list bool := zip_with orb a b.

(** [df[mask]]: boolean indexing keeps the rows whose mask entry is true. *)
Definition select (mask : list bool) (df : DataFrame) : DataFrame :=
  mkDataFrame (dtypes df) ((filter (λ p, Is_true p.2) (zip (rows df) mask)).*1).

(** [pd.concat(frames, ignore_index=True)]: rows in order, columns the
    union; a column stays datetime only if every frame that has it agrees. *)
Definition concat (frames : list DataFrame) : DataFrame :=
  mkDataFrame
    (foldr (λ df acc,
              union_with (λ a b, match a, b with
                                 | kind_M, kind_M => Some kind_M
                                 | _, _ => Some kind_other
                                 end) (dtypes df) acc) ∅ frames)
    (mjoin (rows <$> frames)).

End pd.

(** ** HTTP exchanges *)

Record request := mkRequest {
  timeout : Z;
  x_app_token : option string;
  p_where : option string;
  p_limit : Z;
  p_offset : option Z;
  p_order : option string
}.

Record response := mkResponse {
  status_code : Z;
  reason : string;
  url : string;
  text : string;
  json : list record
}.

(** Where in [fetch_api] a request is issued. *)
Inductive stage := SchemaProbe | FilterProbe | FilteredPage | BlindPage.

#[global] Instance stage_eq_dec : EqDecision stage.
Proof. solve_decision. Defined.

Record event := mkEvent {
  ev_stage : stage;
  ev_request : request;
  ev_response : response
}.

Inductive exn :=
  | HTTPError (r : response)
  | SystemExit (msg : string)
  | OverflowError.

Inductive outcome (A : Type) :=
  | Ok (a : A)
  | Raise (e : exn)
  | OutOfFuel.
Arguments Ok {A} a.
Arguments Raise {A} e.
Arguments OutOfFuel {A}.

(** What lies outside the repository. *)
Class Externals := {
  Remote : Type;
  (** [requests.get(API_URL, ...)] against the current state of the source *)
  requests_get : Remote → request → response * Remote;
  (** [pd.to_datetime(s, errors="coerce", utc=True)] *)
  to_datetime : pd.Series → list (option Z);
  (** [datetime.now(timezone.utc)], in nanoseconds *)
  now : Z;
  (** [dt.strftime("%Y-%m-%dT%H:%M:%SZ")] *)
  strftime : Z → string;
  (** [repr] of a list of strings, as an f-string renders it *)
  repr : list string → string
}.

(** ** Python helpers *)

(** [needle in haystack] for strings *)
Definition str_in (needle haystack : string) : bool :=
  match String.index 0 needle haystack with Some _ => true | None => false end.

(** Strings hold Python text in UTF-8.  A character is a byte that is not
    a continuation byte ([10xxxxxx]), followed by its continuation bytes. *)
Definition continuation (a : Ascii.ascii) : bool :=
  (128 <=? Ascii.nat_of_ascii a)%nat && (Ascii.nat_of_ascii a <? 192)%nat.

(** [s[:n]]: the first [n] characters of [s], all of [s] if it has fewer. *)
Fixpoint str_take (n : nat) (s : string) : string :=
  match s with
  | EmptyString => EmptyString
  | String a s' =>
      if continuation a then String a (str_take n s')
      else match n with
           | O => EmptyString
           | S n' => String a (str_take n' s')
           end
  end.

(** [sorted(cols)] *)
Definition sorted (cols : gset string) : list string :=
  merge_sort (λ a b, Is_true (String.leb a b)) (elements cols).

(** [sep.join(l)] *)
Definition join (sep : string) (l : list string) : string := String.concat sep l.

Definition nl : string := String (Ascii.ascii_of_nat 10) "".

Definition API_URL : string :=
  "https://data.cityofchicago.org/resource/v6vf-nfxy.json".

Definition DATE_FIELD_CANDIDATES : list string :=
  [ "requested_datetime"; "last_modified_date"; "closed_date"; "created_date";
    "creation_date"; "open_date"; "sr_created_date"; "date_created" ].

(** ** The effect monad: remote state in, trace and outcome out *)

Record run (R A : Type) := mkRun {
  trace : list event;
  remote : R;
  result : outcome A
}.
Arguments mkRun {R A} _ _ _.
Arguments trace {R A} _.
Arguments remote {R A} _.
Arguments result {R A} _.

(** A run that happened after the exchanges [tr]. *)
Definition prepend {R A} (tr : list event) (r : run R A) : run R A :=
  mkRun (tr ++ trace r) (remote r) (result r).

Section fetch.
Context `{Externals}.

Definition M (A : Type) : Type := Remote → run Remote A.

#[global] Instance M_ret : MRet M := λ A a s, mkRun [] s (Ok a).

#[global] Instance M_bind : MBind M := λ A B f m s,
  let r := m s in
  match result r with
  | Ok a => prepend (trace r) (f a (remote r))
  | Raise e => mkRun (trace r) (remote r) (Raise e)
  | OutOfFuel => mkRun (trace r) (remote r) OutOfFuel
  end.

Definition raise {A} (e : exn) : M A := λ s, mkRun [] s (Raise e).

Definition out_of_fuel {A} : M A := λ s, mkRun [] s OutOfFuel.

(** [try: body except SystemExit as e: handler(str(e))] *)
Definition try_except_SystemExit {A} (body : M A) (handler : string → M A)
    : M A := λ s,
  let r := body s in
  match result r with
  | Raise (SystemExit msg) => prepend (trace r) (handler msg (remote r))
  | _ => r
  end.

(** [try: body except requests.HTTPError as e: handler(e)] *)
Definition try_except_HTTPError {A} (body : M A) (handler : response → M A)
    : M A := λ s,
  let r := body s in
  match result r with
  | Raise (HTTPError resp) => prepend (trace r) (handler resp (remote r))
  | _ => r
  end.

(** [requests.get(API_URL, params=..., headers=..., timeout=...)] *)
Definition get (st : stage) (q : request) : M response := λ s,
  let '(r, s') := requests_get s q in
  mkRun [mkEvent st q r] s' (Ok r).

(** [r.raise_for_status()]: 4xx and 5xx raise [HTTPError]. *)
Definition http_error (r : response) : bool :=
  bool_decide (400 ≤ status_code r) && bool_decide (status_code r < 600).

Definition raise_for_status (r : response) : M unit :=
  if http_error r then raise (HTTPError r) else mret ().

(** The message of the [HTTPError] that [raise_for_status] raises: what a
    run that dies of it reports. *)
Definition http_error_msg (r : response) : string :=
  pretty (status_code r)
  +:+ (if bool_decide (status_code r < 500) then " Client Error: "
       else " Server Error: ")
  +:+ reason r +:+ " for url: " +:+ url r.

(** Truth value of an optional string: [None] and [""] are false. *)
Definition truthy (s : option string) : bool :=
  match s with
  | Some s => bool_decide (s ≠ "")
  | None => false
  end.

(** ** [_sample_columns] (lines 24-29) *)
Definition _sample_columns (headers : option string) : M (gset string) :=
  r ← get SchemaProbe (mkRequest 60 headers None 1 None None);
  _ ← raise_for_status r;
  let rows := match json r with [] => [∅] | rows => rows end in
  mret (match rows with
        | r0 :: _ => dom r0
        | [] => ∅
        end).

(** The diagnostic that [_try_page] puts in its [SystemExit]. *)
Definition http_diagnostic (r : response) : string :=
  "HTTP " +:+ pretty (status_code r) +:+ " from Socrata." +:+ nl
  +:+ "URL: " +:+ url r +:+ nl
  +:+ "Message: " +:+ str_take 800 (text r).

(** ** [_try_page] (lines 31-43) *)
Definition _try_page (where_expr order_col : string) (chunk : Z)
    (headers : option string) : M (list record) :=
  r ← get FilterProbe
        (mkRequest 120 headers (Some where_expr) chunk (Some 0) (Some order_col));
  _ ← try_except_HTTPError (raise_for_status r)
        (λ _, raise (SystemExit (http_diagnostic r)));
  mret (json r).

(** ** [_page_iter_no_where] (lines 45-60)

    The generator is a state machine: [Fresh] before the first [next],
    [Yielded] while suspended at its [yield].  [next] runs it to the next
    [yield] ([Some]) or to its end ([None], i.e. [StopIteration]). *)
Inductive generator :=
  | Fresh (start_offset : Z)
  | Yielded (offset : Z) (rows : list record).

Definition _page_iter_no_where (order_col : option string) (chunk : Z)
    (headers : option string) (g : generator)
    : M (option (list record * generator)) :=
  let iteration (offset : Z) : M (option (list record * generator)) :=
    r ← get BlindPage
          (mkRequest 120 headers None chunk (Some offset)
             (if truthy order_col then order_col else None));
    _ ← raise_for_status r;
    let rows := json r in
    if bool_decide (rows = []) then mret None
    else mret (Some (rows, Yielded offset rows)) in
  match g with
  | Fresh start_offset => iteration start_offset
  | Yielded offset rows =>
      let offset := offset + Z.of_nat (length rows) in
      if bool_decide (Z.of_nat (length rows) < chunk) then mret None
      else iteration offset
  end.

(** ** [fetch_api] (lines 62-198) *)

(** Lines 78-89: the date columns to consider. *)
Definition choose_date_cols (created_field : option string)
    (cols : gset string) : M (list string) :=
  if truthy created_field then
    let created_field := default "" created_field in
    if bool_decide (created_field ∉ cols) then
      raise (SystemExit ("--created-field '" +:+ created_field
                         +:+ "' not found in dataset columns: "
                         +:+ repr (sorted cols)))
    else mret [created_field]
  else
    let date_cols_to_try :=
      filter (λ c, c ∈ cols) DATE_FIELD_CANDIDATES in
    if bool_decide (date_cols_to_try = []) then
      raise (SystemExit ("No suitable date column found. Checked: "
                         +:+ join ", " DATE_FIELD_CANDIDATES
                         +:+ ". Dataset columns: " +:+ repr (sorted cols)))
    else mret date_cols_to_try.

(** Lines 91-93: the cutoff, fixed once per fetch.  [since_dt_of] is the
    instant that the subtraction of line 92 denotes; line 92 itself is
    [cutoff]: [timedelta] takes at most 999999999 days, and the difference
    has to be a date of the years 1 to 9999, or [OverflowError] is
    raised. *)
Definition day_ns : Z := 86400 * 1000000000.
Definition since_dt_of (days_back : Z) : Z := now - days_back * day_ns.

(** 0001-01-01T00:00:00Z, and the first instant after 9999-12-31. *)
Definition datetime_min : Z := -719162 * day_ns.
Definition datetime_end : Z := 2932897 * day_ns.

Definition cutoff_overflows (days_back : Z) : bool :=
  negb (bool_decide (Z.abs days_back ≤ 999999999)
        && bool_decide (datetime_min ≤ since_dt_of days_back)
        && bool_decide (since_dt_of days_back < datetime_end)).

Definition cutoff (days_back : Z) : M Z :=
  if cutoff_overflows days_back then raise OverflowError
  else mret (since_dt_of days_back).

(** Line 110: does the diagnostic look like a type mismatch? *)
Definition type_mismatch (msg : string) : bool :=
  str_in "type-mismatch" msg || str_in "Type mismatch" msg || str_in "op$>=" msg.

(** Lines 96-120: server-side negotiation.  The result is
    [(working_where, working_order, first_rows)], or [None] when the loop
    runs off the end of the candidates. *)
Fixpoint negotiate (date_cols_to_try : list string) (since_str : string)
    (chunk : Z) (headers : option string)
    : M (option (string * string * list record)) :=
  match date_cols_to_try with
  | [] => mret None
  | dc :: rest =>
      try_except_SystemExit
        (let where_expr := dc +:+ " >= '" +:+ since_str +:+ "'" in
         first_rows ← _try_page where_expr dc (Z.min 5 chunk) headers;
         mret (Some (where_expr, dc, first_rows)))
        (λ msg,
           if type_mismatch msg then
             try_except_SystemExit
               (let cast_where :=
                  dc +:+ "::floating_timestamp >= '" +:+ since_str +:+ "'" in
                first_rows ← _try_page cast_where (dc +:+ "::floating_timestamp")
                               (Z.min 5 chunk) headers;
                mret (Some (cast_where, dc +:+ "::floating_timestamp", first_rows)))
               (λ _, negotiate rest since_str chunk headers)
           else negotiate rest since_str chunk headers)
  end.

(** Lines 131-142: the [while True] of the server-filtered pager. *)
Fixpoint filtered_loop (fuel : nat) (working_where working_order : string)
    (chunk : Z) (headers : option string) (offset : Z)
    (frames : list pd.DataFrame) : M (list pd.DataFrame) :=
  match fuel with
  | O => out_of_fuel
  | S fuel =>
      r ← get FilteredPage
            (mkRequest 120 headers (Some working_where) chunk (Some offset)
               (Some working_order));
      _ ← raise_for_status r;
      let rows := json r in
      if bool_decide (rows = []) then mret frames
      else
        let frames := frames ++ [pd.of_records rows] in
        let offset := offset + Z.of_nat (length rows) in
        if bool_decide (Z.of_nat (length rows) < chunk) then mret frames
        else filtered_loop fuel working_where working_order chunk headers
               offset frames
  end.

(** Lines 122-145: the server-filtered pager. *)
Definition server_filtered (fuel : nat) (working_where working_order : string)
    (first_rows : list record) (chunk : Z) (headers : option string)
    : M pd.DataFrame :=
  let '(frames, start_offset) :=
    if bool_decide (first_rows ≠ [])
    then ([pd.of_records first_rows], Z.of_nat (length first_rows))
    else ([], 0) in
  frames ← filtered_loop fuel working_where working_order chunk headers
             start_offset frames;
  mret (if bool_decide (frames ≠ []) then pd.concat frames else pd.empty_frame).

(** Lines 163-170: parse every candidate column of the page, and note
    whether any row is at or after the cutoff. *)
Definition parse_candidates (date_cols_to_try : list string) (since_dt : Z)
    (page_df : pd.DataFrame) : pd.DataFrame * bool :=
  foldl (λ (st : pd.DataFrame * bool) c,
           let page_df := st.1 in
           let any_newer := st.2 in
           if bool_decide (c ∈ pd.columns page_df) then
             let page_df :=
               pd.setitem_datetime c (to_datetime (pd.getitem c page_df)) page_df in
             if pd.any (pd.notna (pd.getitem c page_df))
                && pd.any (pd.ge since_dt (pd.getitem c page_df))
             then (page_df, true)
             else (page_df, any_newer)
           else (page_df, any_newer))
        (page_df, false) date_cols_to_try.

(** Lines 173-177: the mask of rows newer in any candidate column. *)
Definition mask_newer (date_cols_to_try : list string) (since_dt : Z)
    (page_df : pd.DataFrame) : option (list bool) :=
  foldl (λ (mask_newer : option (list bool)) c,
           if bool_decide (c ∈ pd.columns page_df)
              && match pd.dtypes page_df !! c with
                 | Some pd.kind_M => true
                 | _ => false
                 end
           then
             let cond := pd.ge since_dt (pd.getitem c page_df) in
             Some (match mask_newer with
                   | None => cond
                   | Some m => pd.or_ m cond
                   end)
           else mask_newer)
        None date_cols_to_try.

(** Lines 160-183: what one page contributes: [(kept, any_newer)]. *)
Definition process_page (date_cols_to_try : list string) (since_dt : Z)
    (rows : list record) : pd.DataFrame * bool :=
  let page_df := pd.of_records rows in
  let '(page_df, any_newer) := parse_candidates date_cols_to_try since_dt page_df in
  let kept :=
    match mask_newer date_cols_to_try since_dt page_df with
    | Some m => pd.select m page_df
    | None => page_df
    end in
  (kept, any_newer).

(** Lines 158-196: the [for rows in _page_iter_no_where(...)] loop. *)
Fixpoint fallback_loop (fuel : nat) (date_cols_to_try : list string)
    (since_dt : Z) (order_col : option string) (chunk : Z)
    (headers : option string) (max_pages : Z) (g : generator)
    (pages_scanned : Z) (kept_frames : list pd.DataFrame)
    : M (list pd.DataFrame) :=
  match fuel with
  | O => out_of_fuel
  | S fuel =>
      nxt ← _page_iter_no_where order_col chunk headers g;
      match nxt with
      | None => mret kept_frames
      | Some (rows, g) =>
          let pages_scanned := pages_scanned + 1 in
          let '(kept, any_newer) := process_page date_cols_to_try since_dt rows in
          let kept_frames :=
            if negb (pd.empty kept) then kept_frames ++ [kept] else kept_frames in
          if negb any_newer && bool_decide (kept_frames ≠ []) then
            mret kept_frames
          else if bool_decide (max_pages ≤ pages_scanned) then
            mret kept_frames
          else
            fallback_loop fuel date_cols_to_try since_dt order_col chunk headers
              max_pages g pages_scanned kept_frames
      end
  end.

(** Lines 147-198: the fallback blind pager. *)
Definition fallback (fuel : nat) (date_cols_to_try : list string)
    (cols : gset string) (since_dt : Z) (chunk : Z) (headers : option string)
    (max_pages : Z) : M pd.DataFrame :=
  let order_col := head (filter (λ dc, dc ∈ cols) date_cols_to_try) in
  kept_frames ←
    fallback_loop fuel date_cols_to_try since_dt order_col chunk headers
      max_pages (Fresh 0) 0 [];
  mret (if bool_decide (kept_frames ≠ []) then pd.concat kept_frames
        else pd.empty_frame).

Definition fetch_api (fuel : nat) (days_back chunk : Z)
    (app_token created_field : option string) (max_pages : Z)
    : M pd.DataFrame :=
  let headers := if truthy app_token then app_token else None in
  cols ← _sample_columns headers;
  date_cols_to_try ← choose_date_cols created_field cols;
  since_dt ← cutoff days_back;
  let since_str := strftime since_dt in
  negotiated ← negotiate date_cols_to_try since_str chunk headers;
  match negotiated with
  | Some (working_where, working_order, first_rows) =>
      server_filtered fuel working_where working_order first_rows chunk headers
  | None =>
      fallback fuel date_cols_to_try cols since_dt chunk headers max_pages
  end.

End fetch.

(** ** Reference descriptions used in the statements *)

Section reference.
Context `{Externals}.

(** The requests, by the place that builds them. *)
Definition schema_request (headers : option string) : request :=
  mkRequest 60 headers None 1 None None.

Definition probe_request (headers : option string) (where_expr order_col : string)
    (chunk : Z) : request :=
  mkRequest 120 headers (Some where_expr) (Z.min 5 chunk) (Some 0) (Some order_col).

Definition filtered_request (headers : option string)
    (working_where working_order : string) (chunk offset : Z) : request :=
  mkRequest 120 headers (Some working_where) chunk (Some offset) (Some working_order).

Definition blind_request (headers : option string) (order_col : option string)
    (chunk offset : Z) : request :=
  mkRequest 120 headers None chunk (Some offset)
    (if truthy order_col then order_col else None).

Definition raw_where (dc since_str : string) : string :=
  dc +:+ " >= '" +:+ since_str +:+ "'".
Definition cast_order (dc : string) : string := dc +:+ "::floating_timestamp".
Definition cast_where (dc since_str : string) : string :=
  dc +:+ "::floating_timestamp >= '" +:+ since_str +:+ "'".

Definition raw_probe (headers : option string) (since_str : string) (chunk : Z)
    (dc : string) (r : response) : event :=
  mkEvent FilterProbe (probe_request headers (raw_where dc since_str) dc chunk) r.

Definition cast_probe (headers : option string) (since_str : string) (chunk : Z)
    (dc : string) (r : response) : event :=
  mkEvent FilterProbe
    (probe_request headers (cast_where dc since_str) (cast_order dc) chunk) r.

(** The header dictionary of line 72. *)
Definition headers_of (app_token : option string) : option string :=
  if truthy app_token then app_token else None.

(** The field names of the schema probe's answer. *)
Definition schema_of (rows : list record) : gset string :=
  match rows with
  | [] => ∅
  | r0 :: _ => dom r0
  end.

(** The candidates a fetch considers, when it gets past lines 78-89. *)
Definition date_cols_of (created_field : option string) (cols : gset string)
    : list string :=
  if truthy created_field then [default "" created_field]
  else filter (λ c, c ∈ cols) DATE_FIELD_CANDIDATES.

(** The two fatal messages of lines 80 and 85-89. *)
Definition created_field_missing (created_field : string) (cols : gset string)
    : string :=
  "--created-field '" +:+ created_field
  +:+ "' not found in dataset columns: " +:+ repr (sorted cols).

Definition no_date_column (cols : gset string) : string :=
  "No suitable date column found. Checked: "
  +:+ join ", " DATE_FIELD_CANDIDATES
  +:+ ". Dataset columns: " +:+ repr (sorted cols).

(** The message lines 78-89 exit with, if they do. *)
Definition date_cols_error (created_field : option string) (cols : gset string)
    : option string :=
  if truthy created_field then
    if bool_decide (default "" created_field ∉ cols)
    then Some (created_field_missing (default "" created_field) cols)
    else None
  else if bool_decide (filter (λ c, c ∈ cols) DATE_FIELD_CANDIDATES = [])
  then Some (no_date_column cols)
  else None.

(** The first exchange of a fetch and what follows from it. *)
Definition schema_event (app_token : option string) (s : Remote) : event :=
  mkEvent SchemaProbe (schema_request (headers_of app_token))
    (requests_get s (schema_request (headers_of app_token))).1.

Definition after_schema (app_token : option string) (s : Remote) : Remote :=
  (requests_get s (schema_request (headers_of app_token))).2.

Definition observed_schema (app_token : option string) (s : Remote) : gset string :=
  schema_of (json (ev_response (schema_event app_token s))).

Definition candidates (app_token created_field : option string) (s : Remote)
    : list string :=
  date_cols_of created_field (observed_schema app_token s).

(** The negotiation a fetch runs once lines 78-89 let it through. *)
Definition negotiated (days_back chunk : Z) (app_token created_field : option string)
    (s : Remote) : run Remote (option (string * string * list record)) :=
  negotiate (candidates app_token created_field s)
    (strftime (since_dt_of days_back)) chunk (headers_of app_token)
    (after_schema app_token s).

(** The stage occurs in the trace. *)
Definition uses (st : stage) (tr : list event) : Prop :=
  ∃ ev, ev ∈ tr ∧ ev_stage ev = st.

(** The number of unfiltered page requests in a trace. *)
Definition blind_requests (tr : list event) : nat :=
  length (filter (λ ev, ev_stage ev = BlindPage) tr).

(** *** What a refused probe reports, in the words of the specification

    These descriptions do not mention [http_diagnostic], [str_take],
    [type_mismatch] or [str_in]: the properties compare the code with
    them. *)

(** The number of characters of a string. *)
Fixpoint characters (s : string) : nat :=
  match s with
  | EmptyString => O
  | String a s' => ((if continuation a then 0 else 1) + characters s')%nat
  end.

(** The string begins with a new character. *)
Definition starts_character (s : string) : Prop :=
  match s with
  | EmptyString => False
  | String a _ => continuation a = false
  end.

(** [body] is [text] truncated to [n] characters: all of [text] when it
    has no more than [n] of them, and otherwise what comes before its
    character number [n]. *)
Definition truncated (n : nat) (text body : string) : Prop :=
  ∃ rest, text = body +:+ rest
          ∧ ((rest = EmptyString ∧ (characters body ≤ n)%nat)
             ∨ (characters body = n ∧ starts_character rest)).

(** [part] occurs in [s]. *)
Definition occurs_in (part s : string) : Prop :=
  ∃ pre post, s = pre +:+ part +:+ post.

(** The report of a refusal: status code, request URL, and the response
    body truncated to 800 characters. *)
Definition diagnosis (r : response) (msg : string) : Prop :=
  ∃ body, truncated 800 (text r) body
          ∧ msg = "HTTP " +:+ pretty (status_code r) +:+ " from Socrata." +:+ nl
                  +:+ "URL: " +:+ url r +:+ nl
                  +:+ "Message: " +:+ body.

(** The wordings by which the remote source tells a type mismatch. *)
Definition type_mismatch_markers : list string :=
  ["type-mismatch"; "Type mismatch"; "op$>="].

(** The refusal indicates a type mismatch: one of the wordings occurs in
    its report. *)
Definition indicates_type_mismatch (r : response) : Prop :=
  ∃ msg marker, diagnosis r msg
                ∧ marker ∈ type_mismatch_markers
                ∧ occurs_in marker msg.

(** The exchanges of a negotiation over the candidates, in priority order,
    and what it settles on: the cast probe is sent exactly after a raw
    refusal that indicates a type mismatch. *)
Inductive negotiation (headers : option string) (since_str : string) (chunk : Z)
    : list string → list event → option (string * string * list record) → Prop :=
  | neg_exhausted :
      negotiation headers since_str chunk [] [] None
  | neg_raw_ok dc rest r :
      http_error r = false →
      negotiation headers since_str chunk (dc :: rest)
        [raw_probe headers since_str chunk dc r]
        (Some (raw_where dc since_str, dc, json r))
  | neg_cast_ok dc rest r r' :
      http_error r = true →
      indicates_type_mismatch r →
      http_error r' = false →
      negotiation headers since_str chunk (dc :: rest)
        [raw_probe headers since_str chunk dc r;
         cast_probe headers since_str chunk dc r']
        (Some (cast_where dc since_str, cast_order dc, json r'))
  | neg_both_fail dc rest r r' tr o :
      http_error r = true →
      indicates_type_mismatch r →
      http_error r' = true →
      negotiation headers since_str chunk rest tr o →
      negotiation headers since_str chunk (dc :: rest)
        (raw_probe headers since_str chunk dc r
           :: cast_probe headers since_str chunk dc r' :: tr) o
  | neg_other_fail dc rest r tr o :
      http_error r = true →
      ¬ indicates_type_mismatch r →
      negotiation headers since_str chunk rest tr o →
      negotiation headers since_str chunk (dc :: rest)
        (raw_probe headers since_str chunk dc r :: tr) o.


(** Where the generator of [_page_iter_no_where] asks next, if it does. *)
Definition next_offset (chunk : Z) (g : generator) : option Z :=
  match g with
  | Fresh start_offset => Some start_offset
  | Yielded offset rows =>
      if bool_decide (Z.of_nat (length rows) < chunk) then None
      else Some (offset + Z.of_nat (length rows))
  end.

(** The rows received in a list of exchanges, in order. *)
Definition received (evs : list event) : list record :=
  mjoin ((λ ev, json (ev_response ev)) <$> evs).

(** What [to_datetime] answers for row [i] of column [c] of the page as it
    was received. *)
Definition parsed_cell (page_df : pd.DataFrame) (c : string) (i : nat) : pd.cell :=
  pd.Timestamp (default None (to_datetime (pd.getitem c page_df) !! i)).

(** Row [i] of a page once every candidate column of the page is parsed. *)
Definition parsed_row (date_cols_to_try : list string) (page_df : pd.DataFrame)
    (i : nat) (r : pd.row) : pd.row :=
  foldl (λ (r : pd.row) c,
           if bool_decide (c ∈ pd.columns page_df)
           then <[c := parsed_cell page_df c i]> r else r)
        r date_cols_to_try.

(** The page once every candidate column of the page is parsed, each from
    the column as received. *)
Definition parsed_frame (date_cols_to_try : list string)
    (page_df : pd.DataFrame) : pd.DataFrame :=
  pd.mkDataFrame
    (foldl (λ (m : gmap string pd.kind) c,
              if bool_decide (c ∈ pd.columns page_df)
              then <[c := pd.kind_M]> m else m)
           (pd.dtypes page_df) date_cols_to_try)
    (imap (parsed_row date_cols_to_try page_df) (pd.rows page_df)).

(** The candidate columns that the page has. *)
Definition present (date_cols_to_try : list string) (page_df : pd.DataFrame)
    : list string :=
  filter (λ c, c ∈ pd.columns page_df) date_cols_to_try.

(** A row is newer in some candidate column of the page. *)
Definition row_newer (cs : list string) (since_dt : Z) (r : pd.row) : bool :=
  existsb (λ c, pd.ge_cell since_dt (r !! c)) cs.

End reference.

#[global] Instance uses_dec st tr : Decision (uses st tr).
Proof.
  refine (cast_if (decide (Exists (λ ev, ev_stage ev = st) tr)));
    unfold uses; by rewrite <- Exists_exists.
Defined.

(** ** A scripted remote source, for running the fetcher on examples

    The source answers from a script, one response per request whatever
    the request, and with an empty page once the script is over.  Integer
    values parse as nanoseconds since the epoch, nothing else parses.  The
    clock reads day 100, so ninety days back is day 10. *)

Definition ok (rows : list record) : response :=
  mkResponse 200 "OK" API_URL "" rows.

Definition refused (status : Z) (body : string) : response :=
  mkResponse status "" API_URL body [].

Definition scripted : Externals := {|
  Remote := list response;
  requests_get s q :=
    match s with
    | [] => (ok [], [])
    | r :: s' => (r, s')
    end;
  to_datetime s :=
    (λ o, match o with
          | Some (pd.Obj (VNum n)) => Some n
          | Some (pd.Timestamp t) => t
          | _ => None
          end) <$> s;
  now := 100 * 86400000000000;
  strftime z := pretty z;
  repr l := "[" +:+ join ", " ((λ c, "'" +:+ c +:+ "'") <$> l) +:+ "]"
|}.

Definition day9 : Z := 9 * 86400000000000.
Definition day11 : Z := 11 * 86400000000000.

Definition ticket (sr : string) (created : value) : record :=
  {[ "sr_number" := VStr sr; "created_date" := created ]}.

(** The source accepts the cast comparison; pages of two rows. *)
Definition filtered_script : list response :=
  [ ok [ticket "SR1" (VStr "01/11/1970")];
    refused 400 "Type mismatch for op$>=";
    ok [ticket "SR1" (VStr "01/11/1970"); ticket "SR2" (VStr "01/12/1970")];
    ok [ticket "SR3" (VStr "01/13/1970"); ticket "SR4" (VStr "01/14/1970")];
    ok [ticket "SR5" (VStr "01/15/1970")] ].

Definition filtered_run : run (list response) pd.DataFrame :=
  @fetch_api scripted 10 90 2 None None 30 filtered_script.

Definition filtered_frame : pd.DataFrame :=
  pd.of_records
    [ ticket "SR1" (VStr "01/11/1970"); ticket "SR2" (VStr "01/12/1970");
      ticket "SR3" (VStr "01/13/1970"); ticket "SR4" (VStr "01/14/1970");
      ticket "SR5" (VStr "01/15/1970") ].

(** The source refuses every comparison; the second unfiltered page is
    past the window. *)
Definition blind_script : list response :=
  [ ok [ticket "SR1" (VNum day11)];
    refused 400 "type-mismatch";
    refused 400 "no such cast";
    ok [ticket "SR1" (VNum day11); ticket "SR2" (VNum day9)];
    ok [ticket "SR3" (VNum day9)] ].

Definition blind_run : run (list response) pd.DataFrame :=
  @fetch_api scripted 10 90 2 None None 30 blind_script.

(** The same source, asked for a column it does not have. *)
Definition opened_run : run (list response) pd.DataFrame :=
  @fetch_api scripted 10 90 2 None (Some "opened") 30 blind_script.

Definition blind_row : pd.row :=
  {[ "sr_number" := pd.Obj (VStr "SR1");
     "created_date" := pd.Timestamp (Some day11) ]}.

Definition blind_frame : pd.DataFrame :=
  pd.mkDataFrame
    {[ "sr_number" := pd.kind_other; "created_date" := pd.kind_M ]}
    [blind_row].

(** The only unfiltered page has no candidate column. *)
Definition undated_script : list response :=
  [ ok [ticket "SR1" (VNum day11)];
    refused 500 "internal error";
    ok [{[ "sr_number" := VStr "SR7" ]}; {[ "sr_number" := VStr "SR8" ]}] ].

Definition undated_run : run (list response) pd.DataFrame :=
  @fetch_api scripted 10 90 2 None None 30 undated_script.

(** The first unfiltered page is made of empty records. *)
Definition blank_script : list response :=
  [ ok [ticket "SR1" (VNum day11)];
    refused 500 "internal error";
    ok [∅];
    ok [{[ "sr_number" := VStr "SR7" ]}] ].

Definition blank_run : run (list response) pd.DataFrame :=
  @fetch_api scripted 10 90 1 None None 30 blank_script.

(** A page cap of zero. *)
Definition capped_script : list response :=
  [ ok [ticket "SR1" (VNum day11)];
    refused 500 "internal error";
    ok [ticket "SR1" (VNum day11)] ].

(** The date column of the only unfiltered page holds no date. *)
Definition unparseable_script : list response :=
  [ ok [ticket "SR1" (VStr "n/a")];
    refused 400 "query.soql.no-such-column";
    ok [ticket "SR1" (VStr "n/a")] ].

Definition unparseable_run : run (list response) pd.DataFrame :=
  @fetch_api scripted 10 90 50000 None None 30 unparseable_script.

(** The schema probe finds no record. *)
Definition empty_script : list response := [ok []].

Definition empty_run : run (list response) pd.DataFrame :=
  @fetch_api scripted 10 90 50000 None None 30 empty_script.

(** The unfiltered page is refused. *)
Definition broken_script : list response :=
  [ ok [ticket "SR1" (VNum day11)];
    refused 500 "internal error";
    refused 503 "service unavailable" ].

Definition broken_run : run (list response) pd.DataFrame :=
  @fetch_api scripted 10 90 2 None None 30 broken_script.

(** Exchanges of these runs, named for the statements below. *)
Definition raw_refusal (body : string) (status : Z) : event :=
  mkEvent FilterProbe
    (probe_request None
       (raw_where "created_date" (pretty (10 * 86400000000000)))
       "created_date" 2)
    (refused status body).

Definition undated_prefix : list event :=
  [ mkEvent SchemaProbe (schema_request None) (ok [ticket "SR1" (VNum day11)]);
    raw_refusal "internal error" 500 ].

Definition undated_event : event :=
  mkEvent BlindPage (blind_request None (Some "created_date") 2 0)
    (ok [{[ "sr_number" := VStr "SR7" ]}; {[ "sr_number" := VStr "SR8" ]}]).

Definition broken_event : event :=
  mkEvent BlindPage (blind_request None (Some "created_date") 2 0)
    (refused 503 "service unavailable").

(** ** [main] (lines 200-249)

    The command line, once parsed, is a record; the environment, the file
    system and the renderings [main] leaves to Python and pandas are the
    class [System].  [main] emits the actions it performs, in order.  The
    file-system calls are taken to succeed. *)

Inductive source := api | csv.

Record Args := mkArgs {
  args_days : Z;
  args_out : string;
  args_summary : string;
  args_source : source;
  args_path : option string;
  args_created_field : option string;
  args_max_pages : Z
}.

Class System := {
  (** [os.getenv("SOCRATA_APP_TOKEN")] *)
  SOCRATA_APP_TOKEN : option string;
  (** [os.path.exists(path)] *)
  path_exists : string → bool;
  (** [pd.read_csv(path, low_memory=False)] *)
  read_csv : string → pd.DataFrame;
  (** [f"{n:,}"] *)
  format_thousands : nat → string;
  (** [f"{s.min()} → {s.max()}"] for a column [s] *)
  format_range : pd.Series → string
}.

Inductive action :=
  | MakeDirs (path : string)
  | Request (ev : event)
  | ToParquet (path : string) (df : pd.DataFrame)
  | WriteText (path : string) (content : string)
  | Print (line : string).

Record main_run (R : Type) := mkMainRun {
  actions : list action;
  final : R;
  exit : outcome unit
}.
Arguments mkMainRun {R} _ _ _.
Arguments actions {R} _.
Arguments final {R} _.
Arguments exit {R} _.

Section main.
Context `{H : Externals} `{H0 : System}.

(** Lines 230-232: normalize the date columns that are present. *)
Definition normalize_dates (df : pd.DataFrame) : pd.DataFrame :=
  foldl (λ (df : pd.DataFrame) c,
           if bool_decide (c ∈ pd.columns df)
           then pd.setitem_datetime c (to_datetime (pd.getitem c df)) df
           else df)
        df DATE_FIELD_CANDIDATES.

(** Lines 240-243: the date range of the first candidate column that has a
    value, if any. *)
Fixpoint date_range_line (cs : list string) (df : pd.DataFrame) : string :=
  match cs with
  | [] => ""
  | c :: cs =>
      if bool_decide (c ∈ pd.columns df) && pd.any (pd.notna (pd.getitem c df))
      then "- Date range: **" +:+ format_range (pd.getitem c df) +:+ "**" +:+ nl
      else date_range_line cs df
  end.

(** Lines 236-243: what is written to the summary file. *)
Definition summary_text (src : string) (df : pd.DataFrame) : string :=
  "# Data Ingest Summary" +:+ nl +:+ nl
  +:+ "- Source: **" +:+ src +:+ "**" +:+ nl
  +:+ "- Rows: **" +:+ format_thousands (pd.len df) +:+ "**" +:+ nl
  +:+ date_range_line DATE_FIELD_CANDIDATES df.

(** Lines 229-249: what [main] does once the frame is loaded. *)
Definition finish (args : Args) (done : list action) (s : Remote)
    (df : pd.DataFrame) (src : string) : main_run Remote :=
  let df := normalize_dates df in
  mkMainRun
    (done ++ [ ToParquet (args_out args) df;
               WriteText (args_summary args) (summary_text src df);
               WriteText "notes/.INGEST_DONE" ("done" +:+ nl);
               Print ("Wrote " +:+ args_out args +:+ " and " +:+ args_summary args);
               Print "DATA_READY_TO_PROCEED" ])
    s (Ok ()).

Definition main (fuel : nat) (args : Args) (s : Remote) : main_run Remote :=
  let dirs := [MakeDirs "data"; MakeDirs "notes"] in
  match args_source args with
  | api =>
      let r := fetch_api fuel (args_days args) 50000 SOCRATA_APP_TOKEN
                 (args_created_field args) (args_max_pages args) s in
      let done := dirs ++ (Request <$> trace r) in
      match result r with
      | Ok df =>
          finish args done (remote r) df
            ("API (last " +:+ pretty (args_days args) +:+ " days)")
      | Raise e => mkMainRun done (remote r) (Raise e)
      | OutOfFuel => mkMainRun done (remote r) OutOfFuel
      end
  | csv =>
      if negb (truthy (args_path args))
         || negb (path_exists (default "" (args_path args)))
      then mkMainRun dirs s
             (Raise (SystemExit "CSV path missing. Use --path data/chi311.csv"))
      else
        finish args dirs s (read_csv (default "" (args_path args)))
          ("CSV (" +:+ default "" (args_path args) +:+ ")")
  end.

End main.

(** ** Further descriptions: request sequences and page contents *)

Section pages.
Context `{H : Externals}.

(** The offsets a pager asks at, given where it starts and the pages it
    gets: each page moves the offset by its number of rows. *)
Fixpoint running_offsets (offset : Z) (evs : list event) : list Z :=
  match evs with
  | [] => []
  | ev :: evs =>
      offset
        :: running_offsets (offset + Z.of_nat (length (json (ev_response ev)))) evs
  end.

(** The exchanges of one stage, in order. *)
Definition at_stage (st : stage) (tr : list event) : list event :=
  filter (λ ev, ev_stage ev = st) tr.

(** All but the last element. *)
Definition but_last {A} (l : list A) : list A := take (Nat.pred (length l)) l.

(** A page that was answered with success, has rows and fills the chunk. *)
Definition full_page (chunk : Z) (ev : event) : Prop :=
  http_error (ev_response ev) = false
  ∧ json (ev_response ev) ≠ []
  ∧ chunk ≤ Z.of_nat (length (json (ev_response ev))).

(** The rows of the given exchanges, page by page, with the candidate
    columns of each page parsed. *)
Definition parsed_rows (date_cols_to_try : list string) (evs : list event)
    : list pd.row :=
  mjoin ((λ ev, pd.rows (parsed_frame date_cols_to_try
                           (pd.of_records (json (ev_response ev))))) <$> evs).

(** What a scanned page keeps. *)
Definition kept_of (date_cols_to_try : list string) (since_dt : Z) (ev : event)
    : pd.DataFrame :=
  (process_page date_cols_to_try since_dt (json (ev_response ev))).1.

(** The frames that a scan of the given pages keeps: what each page keeps,
    unless it is empty. *)
Definition kept_frames_of (date_cols_to_try : list string) (since_dt : Z)
    (evs : list event) : list pd.DataFrame :=
  filter (λ df, pd.empty df = false) (kept_of date_cols_to_try since_dt <$> evs).

(** A source that answers every request with a full page. *)
Definition always_full (chunk : Z) : Prop :=
  ∀ (s : Remote) (q : request),
    http_error (requests_get s q).1 = false
    ∧ json (requests_get s q).1 ≠ []
    ∧ chunk ≤ Z.of_nat (length (json (requests_get s q).1)).


Definition is_request (a : action) : bool :=
  match a with
  | Request _ => true
  | _ => false
  end.

End pages.

(** Pages of one row; the second unfiltered page is past the window, the
    third one is not. *)
Definition stale_script : list response :=
  [ ok [ticket "SR1" (VNum day11)];
    refused 500 "internal error";
    ok [ticket "SR1" (VNum day11)];
    ok [ticket "SR2" (VNum day9)];
    ok [ticket "SR3" (VNum day11)] ].

Definition stale_run : run (list response) pd.DataFrame :=
  @fetch_api scripted 10 90 1 None None 30 stale_script.

Definition fresh_event : event :=
  mkEvent BlindPage (blind_request None (Some "created_date") 1 0)
    (ok [ticket "SR1" (VNum day11)]).

Definition stale_event : event :=
  mkEvent BlindPage (blind_request None (Some "created_date") 1 1)
    (ok [ticket "SR2" (VNum day9)]).

Definition stale_prefix : list event :=
  [ mkEvent SchemaProbe (schema_request None) (ok [ticket "SR1" (VNum day11)]);
    mkEvent FilterProbe
      (probe_request None
         (raw_where "created_date" (pretty (10 * 86400000000000)))
         "created_date" 1)
      (refused 500 "internal error");
    fresh_event ].




(** A refusal whose body tells the type mismatch after 500 accented
    letters: past byte 800 of the body, within its first 800 characters. *)
Definition e_acute : string :=
  String (Ascii.ascii_of_nat 195) (String (Ascii.ascii_of_nat 169) EmptyString).

Definition accented_body : string :=
  String.concat EmptyString (replicate 500 e_acute) +:+ " type-mismatch".

Definition accented_script : list response :=
  [ ok [ticket "SR1" (VStr "01/11/1970")];
    refused 400 accented_body;
    ok [ticket "SR1" (VStr "01/11/1970")];
    ok [] ].

Definition accented_refusal : event :=
  mkEvent FilterProbe
    (probe_request None
       (raw_where "created_date" (pretty (10 * 86400000000000)))
       "created_date" 2)
    (refused 400 accented_body).

(** A source that answers every request with the same full page of one
    row, and a system with no token and one file. *)
Definition endless : Externals := {|
  Remote := unit;
  requests_get s q := (ok [ticket "SR1" (VNum day11)], s);
  to_datetime := to_datetime (Externals := scripted);
  now := now (Externals := scripted);
  strftime := strftime (Externals := scripted);
  repr := repr (Externals := scripted)
|}.

Definition desk : System := {|
  SOCRATA_APP_TOKEN := None;
  path_exists p := bool_decide (p = "data/chi311.csv");
  read_csv p := pd.of_records [ticket "SR9" (VNum day11)];
  format_thousands n := pretty n;
  format_range s := "range"
|}.

Definition api_args : Args :=
  mkArgs 90 "data/raw_311.parquet" "notes/data_ingest_summary.md" api None None 30.

Definition csv_args (path : option string) : Args :=
  mkArgs 90 "data/raw_311.parquet" "notes/data_ingest_summary.md" csv path None 30.

(* ================================================================== *)
(** * Properties *)

Section properties.
Context `{Externals}.

(** ** Python helpers *)

(** [str_in] is substring containment. *)
Lemma str_in_true needle haystack :
  needle ≠ "" →
  str_in needle haystack = true ↔
  ∃ m, String.substring m (String.length needle) haystack = needle.
Proof.
  intros Hne. unfold str_in.
  destruct (String.index 0 needle haystack) as [m|] eqn:Hidx.
  - split; [intros _|done]. exists m. by eapply String.index_correct1.
  - split; [done|]. intros (m & Hm). exfalso.
    eapply String.index_correct3; [exact Hidx | exact Hne | | exact Hm]. lia.
Qed.

(** ** The pandas fragment *)

(** *** The code's string operations against their descriptions *)

Lemma str_take_truncated n text : truncated n text (str_take n text).
Proof.
  revert n. induction text as [|a t IH]; intros n.
  - exists EmptyString. split; [done|]. left. split; [done|simpl; lia].
  - cbn [str_take]. destruct (continuation a) eqn:Hc.
    + destruct (IH n) as (rest & Ht & Hcut). exists rest.
      split; [exact (f_equal (String a) Ht)|]. cbn [characters]. by rewrite Hc.
    + destruct n as [|n].
      * exists (String a t). split; [done|]. right. by split.
      * destruct (IH n) as (rest & Ht & Hcut). exists rest.
        split; [exact (f_equal (String a) Ht)|]. cbn [characters]. rewrite Hc.
        destruct Hcut as [[-> ?]|[? ?]]; [left|right]; (split; [done|lia]) || (split; [lia|done]).
Qed.

Lemma truncated_str_take n text body :
  truncated n text body → body = str_take n text.
Proof.
  intros (rest & -> & Hcut). revert n Hcut.
  induction body as [|a b IH]; intros n Hcut.
  - destruct Hcut as [[-> _]|[Hn Hst]]; [done|].
    cbn [characters] in Hn. subst n.
    destruct rest as [|c rest]; [done|]. simpl in Hst.
    change (EmptyString +:+ String c rest) with (String c rest).
    cbn [str_take]. by rewrite Hst.
  - cbn [characters] in Hcut.
    change (String a b +:+ rest) with (String a (b +:+ rest)).
    cbn [str_take]. destruct (continuation a) eqn:Hc.
    + f_equal. apply IH. simpl in Hcut. exact Hcut.
    + destruct n as [|n].
      * exfalso. destruct Hcut as [[_ ?]|[? _]]; lia.
      * f_equal. apply IH.
        destruct Hcut as [[-> ?]|[? ?]]; [left|right]; (split; [done|lia]) || (split; [lia|done]).
Qed.

Lemma diagnosis_iff r msg : diagnosis r msg ↔ msg = http_diagnostic r.
Proof.
  unfold diagnosis, http_diagnostic. split.
  - intros (body & Hcut & ->). by rewrite (truncated_str_take _ _ _ Hcut).
  - intros ->. exists (str_take 800 (text r)). split; [apply str_take_truncated|done].
Qed.

Lemma substring_prefix x hay :
  String.substring 0 (String.length x) hay = x ↔ ∃ post, hay = x +:+ post.
Proof.
  revert hay. induction x as [|c x IH]; intros hay.
  - split; [intros _; by exists hay|]. intros _. by destruct hay.
  - change (String.length (String c x)) with (S (String.length x)).
    destruct hay as [|c' hay]; cbn [String.substring].
    + split; [done|]. by intros [post ?].
    + split.
      * intros [= -> Hsub]. apply IH in Hsub as [post ->]. by exists post.
      * intros [post Hpost].
        change (String c x +:+ post) with (String c (x +:+ post)) in Hpost.
        injection Hpost as -> ->. f_equal. apply IH. by exists post.
Qed.

Lemma substring_occurs_in needle hay :
  (∃ m, String.substring m (String.length needle) hay = needle)
  ↔ occurs_in needle hay.
Proof.
  split.
  - intros [m Hm]. revert hay Hm. induction m as [|m IH]; intros hay Hm.
    + apply substring_prefix in Hm as [post ->]. by exists EmptyString, post.
    + destruct hay as [|c hay].
      * assert (needle = EmptyString) as -> by (by destruct (String.length needle)).
        by exists EmptyString, EmptyString.
      * cbn [String.substring] in Hm. destruct (IH _ Hm) as (pre & post & ->).
        by exists (String c pre), post.
  - intros (pre & post & ->). exists (String.length pre).
    induction pre as [|c pre IH]; [|exact IH].
    apply substring_prefix. by exists post.
Qed.

Lemma str_in_occurs_in needle hay :
  needle ≠ "" → str_in needle hay = true ↔ occurs_in needle hay.
Proof.
  intros Hne. rewrite (str_in_true _ _ Hne). apply substring_occurs_in.
Qed.

(** The test of line 110, applied to the diagnostic of [_try_page], is the
    indication of a type mismatch. *)
Lemma type_mismatch_indicates r :
  type_mismatch (http_diagnostic r) = true ↔ indicates_type_mismatch r.
Proof.
  unfold type_mismatch, indicates_type_mismatch, type_mismatch_markers.
  rewrite !orb_true_iff, !str_in_occurs_in by done. split.
  - intros [[Ho|Ho]|Ho]; eexists _, _;
      (split; [by apply diagnosis_iff|]); (split; [|exact Ho]); set_solver.
  - intros (msg & marker & ->%diagnosis_iff & Hin & Ho).
    apply elem_of_cons in Hin as [->|Hin]; [by left; left|].
    apply elem_of_cons in Hin as [->|Hin]; [by left; right|].
    apply list_elem_of_singleton in Hin as ->. by right.
Qed.

Lemma select_fmap (f : pd.row → bool) (df : pd.DataFrame) :
  pd.rows (pd.select (f <$> pd.rows df) df)
  = filter (λ r, Is_true (f r)) (pd.rows df).
Proof.
  unfold pd.select; simpl.
  induction (pd.rows df) as [|r l IH]; simpl; [done|].
  rewrite !filter_cons; simpl.
  destruct (f r); simpl; repeat case_decide; simpl; try done; by f_equal.
Qed.

Lemma ge_getitem since_dt c (df : pd.DataFrame) :
  pd.ge since_dt (pd.getitem c df)
  = (λ r : pd.row, pd.ge_cell since_dt (r !! c)) <$> pd.rows df.
Proof. unfold pd.ge, pd.getitem. by rewrite <- list_fmap_compose. Qed.

Lemma any_true (l : list bool) : pd.any l = true ↔ true ∈ l.
Proof.
  unfold pd.any. rewrite existsb_exists. split.
  - intros (x & Hin & Hx). unfold id in Hx. subst. by apply list_elem_of_In.
  - intros Hin. exists true. split; [by apply list_elem_of_In | done].
Qed.

Lemma or_fmap {A} (f g : A → bool) (l : list A) :
  pd.or_ (f <$> l) (g <$> l) = (λ x, f x || g x) <$> l.
Proof. unfold pd.or_. induction l; simpl; [done | by f_equal]. Qed.

Lemma of_records_columns (rs : list record) (c : string) :
  c ∈ pd.columns (pd.of_records rs) ↔ ∃ r : record, r ∈ rs ∧ is_Some (r !! c).
Proof.
  unfold pd.columns, pd.of_records; simpl. rewrite dom_gset_to_gmap.
  rewrite elem_of_union_list. split.
  - intros (X & HX & Hc). apply list_elem_of_fmap in HX as (r & -> & Hr).
    exists r. split; [done|]. by apply elem_of_dom.
  - intros (r & Hr & Hc). exists (dom r). split; [|by apply elem_of_dom].
    apply list_elem_of_fmap. by exists r.
Qed.

Lemma concat_rows (frames : list pd.DataFrame) (r : pd.row) :
  r ∈ pd.rows (pd.concat frames) ↔ ∃ df, df ∈ frames ∧ r ∈ pd.rows df.
Proof.
  unfold pd.concat; simpl. rewrite list_elem_of_join. split.
  - intros (l & Hr & Hl). apply list_elem_of_fmap in Hl as (df & -> & Hdf). eauto.
  - intros (df & Hdf & Hr). exists (pd.rows df). split; [done|].
    apply list_elem_of_fmap. eauto.
Qed.

(** ** Parsing the candidate columns of a page *)

Lemma parsed_row_lookup dcs page_df i (r : pd.row) k :
  parsed_row dcs page_df i r !! k
  = if bool_decide (k ∈ dcs ∧ k ∈ pd.columns page_df)
    then Some (parsed_cell page_df k i) else r !! k.
Proof.
  unfold parsed_row. revert r. induction dcs as [|c dcs IH]; intros r; cbn [foldl].
  - rewrite bool_decide_false; [done|]. intros [Hk _]. by apply elem_of_nil in Hk.
  - rewrite IH; clear IH. destruct (decide (k ∈ dcs ∧ k ∈ pd.columns page_df)) as [Hk|Hk].
    + rewrite !bool_decide_true; [done | set_solver | done].
    + rewrite (bool_decide_false _ Hk).
      destruct (decide (k = c)) as [->|Hne].
      * destruct (decide (c ∈ pd.columns page_df)) as [Hc|Hc].
        -- rewrite !bool_decide_true; [|set_solver|done].
           by rewrite lookup_insert_eq.
        -- rewrite !bool_decide_false; [done | tauto | done].
      * rewrite (bool_decide_false (k ∈ c :: dcs ∧ _)) by set_solver.
        case_bool_decide; [|done]. by rewrite lookup_insert_ne.
Qed.

Lemma parsed_frame_columns dcs page_df :
  pd.columns (parsed_frame dcs page_df) = pd.columns page_df.
Proof.
  unfold parsed_frame, pd.columns; simpl.
  assert (∀ m : gmap string pd.kind, dom m = dom (pd.dtypes page_df) →
    dom (foldl (λ (m : gmap string pd.kind) c,
              if bool_decide (c ∈ dom (pd.dtypes page_df))
              then <[c := pd.kind_M]> m else m) m dcs) = dom (pd.dtypes page_df)) as Hgen.
  { induction dcs as [|c dcs IH]; intros m Hm; simpl; [done|].
    apply IH. case_bool_decide; [|done]. rewrite dom_insert_L. set_solver. }
  by apply Hgen.
Qed.

Lemma parsed_frame_dtypes dcs page_df c :
  pd.dtypes (parsed_frame dcs page_df) !! c
  = if bool_decide (c ∈ dcs ∧ c ∈ pd.columns page_df)
    then Some pd.kind_M else pd.dtypes page_df !! c.
Proof.
  unfold parsed_frame; simpl.
  cut (∀ m : gmap string pd.kind,
    foldl (λ (m : gmap string pd.kind) c,
              if bool_decide (c ∈ pd.columns page_df)
              then <[c := pd.kind_M]> m else m) m dcs !! c
    = if bool_decide (c ∈ dcs ∧ c ∈ pd.columns page_df)
      then Some pd.kind_M else m !! c); [by intros ->|].
  induction dcs as [|d dcs IH]; intros m; cbn [foldl].
  - rewrite bool_decide_false; [done|]. intros [Hk _]. by apply elem_of_nil in Hk.
  - rewrite IH; clear IH. destruct (decide (c ∈ dcs ∧ c ∈ pd.columns page_df)) as [Hk|Hk].
    + rewrite !bool_decide_true; [done | set_solver | done].
    + rewrite (bool_decide_false _ Hk).
      destruct (decide (c = d)) as [->|Hne].
      * destruct (decide (d ∈ pd.columns page_df)) as [Hc|Hc].
        -- rewrite !bool_decide_true; [|set_solver|done].
           by rewrite lookup_insert_eq.
        -- rewrite !bool_decide_false; [done | tauto | done].
      * rewrite (bool_decide_false (c ∈ d :: dcs ∧ _)) by set_solver.
        case_bool_decide; [|done]. by rewrite lookup_insert_ne.
Qed.

Lemma parsed_frame_len dcs page_df :
  length (pd.rows (parsed_frame dcs page_df)) = length (pd.rows page_df).
Proof. unfold parsed_frame; simpl. by rewrite length_imap. Qed.

Lemma parsed_frame_snoc dcs c page_df :
  parsed_frame (dcs ++ [c]) page_df
  = if bool_decide (c ∈ pd.columns page_df)
    then pd.mkDataFrame
           (<[c := pd.kind_M]> (pd.dtypes (parsed_frame dcs page_df)))
           (imap (λ i (r : pd.row), <[c := parsed_cell page_df c i]> r)
                 (pd.rows (parsed_frame dcs page_df)))
    else parsed_frame dcs page_df.
Proof.
  unfold parsed_frame; simpl. rewrite foldl_snoc.
  case_bool_decide; f_equal.
  - apply list_eq; intros i. rewrite !list_lookup_imap.
    destruct (pd.rows page_df !! i) as [r|]; simpl; [|done].
    unfold parsed_row. rewrite foldl_snoc. by rewrite bool_decide_true.
  - apply list_eq; intros i. rewrite !list_lookup_imap.
    destruct (pd.rows page_df !! i) as [r|]; simpl; [|done].
    unfold parsed_row. rewrite foldl_snoc. by rewrite bool_decide_false.
Qed.

Lemma parsed_frame_getitem dcs page_df c :
  c ∉ dcs → pd.getitem c (parsed_frame dcs page_df) = pd.getitem c page_df.
Proof.
  intros Hc. unfold pd.getitem, parsed_frame; simpl.
  apply list_eq; intros i. rewrite !list_lookup_fmap, list_lookup_imap.
  destruct (pd.rows page_df !! i) as [r|]; simpl; [|done].
  rewrite parsed_row_lookup. rewrite bool_decide_false; [done|]. tauto.
Qed.

Lemma parse_candidates_snoc dcs c since_dt page_df :
  parse_candidates (dcs ++ [c]) since_dt page_df =
    let st := parse_candidates dcs since_dt page_df in
    if bool_decide (c ∈ pd.columns st.1) then
      let df := pd.setitem_datetime c (to_datetime (pd.getitem c st.1)) st.1 in
      if pd.any (pd.notna (pd.getitem c df))
         && pd.any (pd.ge since_dt (pd.getitem c df))
      then (df, true) else (df, st.2)
    else (st.1, st.2).
Proof. unfold parse_candidates. by rewrite foldl_snoc. Qed.

(** The in-place loop of lines 164-170 computes [parsed_frame]: with no
    column listed twice, each candidate column is parsed from the column
    as it was received. *)
Lemma parse_candidates_frame dcs since_dt page_df :
  NoDup dcs → (parse_candidates dcs since_dt page_df).1 = parsed_frame dcs page_df.
Proof.
  induction dcs as [|c dcs IH] using rev_ind; intros Hnd.
  - unfold parse_candidates, parsed_frame; simpl. destruct page_df as [dt rs]; simpl.
    f_equal. apply list_eq; intros i. rewrite list_lookup_imap.
    by destruct (rs !! i).
  - apply NoDup_app in Hnd as (Hnd & Hc & _).
    assert (c ∉ dcs) as Hc' by (intros ?; eapply Hc; [done | by left]).
    rewrite parse_candidates_snoc, parsed_frame_snoc. cbv zeta.
    rewrite IH by done. rewrite parsed_frame_columns.
    case_bool_decide as Hin.
    + rewrite parsed_frame_getitem by done.
      assert (∀ b : bool, (if b then
                 (pd.setitem_datetime c (to_datetime (pd.getitem c page_df))
                    (parsed_frame dcs page_df), true)
               else (pd.setitem_datetime c (to_datetime (pd.getitem c page_df))
                    (parsed_frame dcs page_df),
                     (parse_candidates dcs since_dt page_df).2)).1
              = pd.setitem_datetime c (to_datetime (pd.getitem c page_df))
                    (parsed_frame dcs page_df)) as Hb by (by intros []).
      rewrite Hb. done.
    + done.
Qed.

Lemma parsed_frame_absent dcs page_df :
  present dcs page_df = [] → parsed_frame dcs page_df = page_df.
Proof.
  intros Hp.
  assert (∀ c, c ∈ dcs → bool_decide (c ∈ pd.columns page_df) = false) as Hno.
  { intros c Hc. apply bool_decide_eq_false. intros Hin.
    assert (c ∈ present dcs page_df) as Hcp by (by apply list_elem_of_filter).
    rewrite Hp in Hcp. by apply elem_of_nil in Hcp. }
  clear Hp. unfold parsed_frame.
  assert (∀ m : gmap string pd.kind,
    foldl (λ (m : gmap string pd.kind) c,
             if bool_decide (c ∈ pd.columns page_df)
             then <[c := pd.kind_M]> m else m) m dcs = m) as ->.
  { induction dcs as [|c dcs IH]; intros m; cbn [foldl]; [done|].
    rewrite Hno by left. apply IH. intros; apply Hno. by right. }
  assert (∀ i (r : pd.row), parsed_row dcs page_df i r = r) as Hrow.
  { intros i. unfold parsed_row.
    induction dcs as [|c dcs IH]; intros r; cbn [foldl]; [done|].
    rewrite Hno by left. apply IH. intros; apply Hno. by right. }
  destruct page_df as [dt rs]; simpl. f_equal.
  apply list_eq; intros i. rewrite list_lookup_imap.
  destruct (rs !! i) as [r|]; simpl; [|done]. by rewrite Hrow.
Qed.

Lemma any_ge_notna since_dt (s : pd.Series) :
  pd.any (pd.ge since_dt s) = true → pd.any (pd.notna s) = true.
Proof.
  rewrite !any_true. unfold pd.ge, pd.notna. rewrite !list_elem_of_fmap.
  intros (o & Ho & Hin). exists o. split; [|done].
  destruct o as [[v|[t|]]|]; simpl in *; try done.
Qed.

(** [any_newer] is raised exactly when some candidate column of the page
    parses, on some row, to a timestamp at or after the cutoff. *)
Lemma parse_candidates_any dcs since_dt page_df :
  NoDup dcs →
  (parse_candidates dcs since_dt page_df).2 = true ↔
  ∃ c i t, c ∈ present dcs page_df ∧ (i < length (pd.rows page_df))%nat ∧
           parsed_cell page_df c i = pd.Timestamp (Some t) ∧ since_dt ≤ t.
Proof.
  induction dcs as [|c dcs IH] using rev_ind; intros Hnd.
  - unfold parse_candidates, present; simpl. split; [done|].
    intros (c & i & t & Hc & _). by apply elem_of_nil in Hc.
  - apply NoDup_app in Hnd as (Hnd & Hc & _).
    assert (c ∉ dcs) as Hc' by (intros ?; eapply Hc; [done | by left]).
    specialize (IH Hnd).
    assert (∀ d, d ∈ present (dcs ++ [c]) page_df ↔
                 d ∈ present dcs page_df ∨ (d = c ∧ c ∈ pd.columns page_df)) as Hpres.
    { intros d. unfold present. rewrite !list_elem_of_filter, elem_of_app, list_elem_of_singleton.
      split; [intros [? [? | ->]]; eauto | intros [[? ?] | [-> ?]]; eauto]. }
    rewrite parse_candidates_snoc. cbv zeta.
    rewrite parse_candidates_frame by done. rewrite parsed_frame_columns.
    rewrite parsed_frame_getitem by done.
    case_bool_decide as Hin.
    + set (df := pd.setitem_datetime c (to_datetime (pd.getitem c page_df))
                   (parsed_frame dcs page_df)).
      assert (pd.any (pd.ge since_dt (pd.getitem c df)) = true ↔
              ∃ i t, (i < length (pd.rows page_df))%nat ∧
                     parsed_cell page_df c i = pd.Timestamp (Some t) ∧ since_dt ≤ t)
        as Hge.
      { rewrite any_true. unfold pd.ge, pd.getitem, df, pd.setitem_datetime; cbn [pd.rows].
        rewrite <- list_fmap_compose. rewrite list_elem_of_fmap. split.
        - intros (r & Hr & Hrin). apply list_elem_of_lookup in Hrin as (i & Hi).
          apply list_lookup_imap_Some in Hi as (r0 & Hr0 & ->).
          simpl in Hr. rewrite lookup_insert_eq in Hr. simpl in Hr.
          apply lookup_lt_Some in Hr0. rewrite parsed_frame_len in Hr0.
          unfold parsed_cell.
          destruct (default None (to_datetime (pd.getitem c page_df) !! i)) as [t|]
            eqn:Hd; [|done].
          exists i, t. split; [done|]. split; [by rewrite Hd|].
          symmetry in Hr. by apply bool_decide_eq_true in Hr.
        - intros (i & t & Hi & Hcell & Ht).
          rewrite <- (parsed_frame_len dcs) in Hi.
          apply lookup_lt_is_Some in Hi as (r0 & Hr0).
          exists (<[c := parsed_cell page_df c i]> r0). split.
          + simpl. rewrite lookup_insert_eq, Hcell. simpl.
            symmetry. by apply bool_decide_eq_true.
          + apply list_elem_of_lookup. exists i.
            apply list_lookup_imap_Some. exists r0. by split. }
      destruct (pd.any (pd.ge since_dt (pd.getitem c df))) eqn:Hany.
      * rewrite (any_ge_notna _ _ Hany). simpl. split; [intros _|done].
        destruct Hge as [Hge _]. destruct (Hge eq_refl) as (i & t & ? & ? & ?).
        exists c, i, t. split; [apply Hpres; by right | done].
      * rewrite andb_false_r. simpl. rewrite IH. split.
        -- intros (d & i & t & Hd & Hrest). exists d, i, t. split; [|done].
           apply Hpres. by left.
        -- intros (d & i & t & Hd & Hi & Hcell & Ht).
           apply Hpres in Hd as [Hd|[-> _]]; [by exists d, i, t|].
           destruct Hge as [_ Hge]. discriminate Hge. by exists i, t.
    + simpl. rewrite IH. split.
      * intros (d & i & t & Hd & Hrest). exists d, i, t. split; [|done].
        apply Hpres. by left.
      * intros (d & i & t & Hd & Hrest).
        apply Hpres in Hd as [Hd|[-> ?]]; [by exists d, i, t | done].
Qed.

(** The mask of lines 173-177, on a parsed page: absent when the page has
    no candidate column, else the rows newer in some candidate column. *)
Lemma mask_newer_parsed dcs since_dt page_df :
  mask_newer dcs since_dt (parsed_frame dcs page_df)
  = if bool_decide (present dcs page_df = []) then None
    else Some (row_newer (present dcs page_df) since_dt
                 <$> pd.rows (parsed_frame dcs page_df)).
Proof.
  remember (parsed_frame dcs page_df) as P eqn:HP.
  cut (∀ l, l ⊆ dcs →
         mask_newer l since_dt P
         = if bool_decide (present l page_df = []) then None
           else Some (row_newer (present l page_df) since_dt <$> pd.rows P)).
  { intros Hgen. by apply Hgen. }
  induction l as [|c l IH] using rev_ind; intros Hsub; [done|].
  unfold mask_newer. rewrite foldl_snoc. fold (mask_newer l since_dt P).
  rewrite IH by set_solver. clear IH.
  assert (c ∈ dcs) as Hc by set_solver.
  assert (pd.columns P = pd.columns page_df) as ->
    by (subst P; apply parsed_frame_columns).
  assert (pd.dtypes P !! c
          = if bool_decide (c ∈ dcs ∧ c ∈ pd.columns page_df)
            then Some pd.kind_M else pd.dtypes page_df !! c) as ->
    by (subst P; apply parsed_frame_dtypes).
  unfold present. rewrite filter_app, filter_cons, filter_nil.
  destruct (decide (c ∈ pd.columns page_df)) as [Hin|Hin].
  - rewrite !bool_decide_true by done. cbn [andb].
    rewrite (bool_decide_false (_ ++ [c] = [])) by (by intros [_ ?]%app_eq_nil).
    f_equal. rewrite ge_getitem.
    case_bool_decide as Hnil.
    + rewrite Hnil. cbn [app]. apply list_fmap_ext. intros _ r _.
      unfold row_newer; cbn [existsb]. by rewrite orb_false_r.
    + rewrite or_fmap. apply list_fmap_ext. intros _ r _. unfold row_newer.
      rewrite existsb_app. cbn [existsb]. by rewrite orb_false_r.
  - rewrite (bool_decide_false (c ∈ pd.columns page_df)) by done. cbn [andb].
    by rewrite app_nil_r.
Qed.

(** One page, in closed form. *)
Lemma process_page_spec dcs since_dt (rows : list record) :
  NoDup dcs →
  let page_df := pd.of_records rows in
  (process_page dcs since_dt rows).1
  = (if bool_decide (present dcs page_df = []) then page_df
     else pd.mkDataFrame
            (pd.dtypes (parsed_frame dcs page_df))
            (filter (λ r, Is_true (row_newer (present dcs page_df) since_dt r))
                    (pd.rows (parsed_frame dcs page_df))))
  ∧ (process_page dcs since_dt rows).2 = (parse_candidates dcs since_dt page_df).2.
Proof.
  intros Hnd page_df. unfold process_page. fold page_df.
  pose proof (parse_candidates_frame dcs since_dt page_df Hnd) as Hfr.
  destruct (parse_candidates dcs since_dt page_df) as [df any_newer]. simpl in Hfr.
  subst df. rewrite mask_newer_parsed. split; [|done]. simpl.
  case_bool_decide as Hp.
  - by apply parsed_frame_absent.
  - unfold pd.select at 1. f_equal.
    pose proof (select_fmap (row_newer (present dcs page_df) since_dt)
                  (parsed_frame dcs page_df)) as Hs.
    unfold pd.select in Hs. simpl in Hs. exact Hs.
Qed.

(** ** Runs of the helpers, exchange by exchange *)

Lemma prepend_nil {R A} (r : run R A) : prepend [] r = r.
Proof. by destruct r. Qed.

Lemma prepend_prepend {R A} tr1 tr2 (r : run R A) :
  prepend tr1 (prepend tr2 r) = prepend (tr1 ++ tr2) r.
Proof. unfold prepend; simpl. by rewrite app_assoc. Qed.

Lemma get_run st q s :
  get st q s
  = mkRun [mkEvent st q (requests_get s q).1] (requests_get s q).2
      (Ok (requests_get s q).1).
Proof. unfold get. by destruct (requests_get s q). Qed.

Lemma _sample_columns_run headers s :
  _sample_columns headers s
  = let q := schema_request headers in
    let r := (requests_get s q).1 in
    mkRun [mkEvent SchemaProbe q r] (requests_get s q).2
      (if http_error r then Raise (HTTPError r) else Ok (schema_of (json r))).
Proof.
  unfold _sample_columns, mbind, M_bind. rewrite get_run. cbv zeta.
  fold (schema_request headers).
  cbn [result trace remote]. unfold raise_for_status.
  destruct (http_error _); [done|].
  unfold prepend, mret, M_ret; cbn.
  by destruct (json _).
Qed.

Lemma _try_page_run where_expr order_col chunk headers s :
  _try_page where_expr order_col (Z.min 5 chunk) headers s
  = let q := probe_request headers where_expr order_col chunk in
    let r := (requests_get s q).1 in
    mkRun [mkEvent FilterProbe q r] (requests_get s q).2
      (if http_error r then Raise (SystemExit (http_diagnostic r))
       else Ok (json r)).
Proof.
  unfold _try_page, mbind, M_bind. rewrite get_run. cbv zeta.
  fold (probe_request headers where_expr order_col chunk).
  cbn [result trace remote]. unfold try_except_HTTPError, raise_for_status.
  by destruct (http_error _).
Qed.

Lemma negotiate_cons dc rest since_str chunk headers s :
  negotiate (dc :: rest) since_str chunk headers s
  = let q := probe_request headers (raw_where dc since_str) dc chunk in
    let r := (requests_get s q).1 in
    let s1 := (requests_get s q).2 in
    if http_error r then
      if type_mismatch (http_diagnostic r) then
        let q' := probe_request headers (cast_where dc since_str) (cast_order dc) chunk in
        let r' := (requests_get s1 q').1 in
        let s2 := (requests_get s1 q').2 in
        if http_error r' then
          prepend [raw_probe headers since_str chunk dc r;
                   cast_probe headers since_str chunk dc r']
            (negotiate rest since_str chunk headers s2)
        else
          mkRun [raw_probe headers since_str chunk dc r;
                 cast_probe headers since_str chunk dc r'] s2
            (Ok (Some (cast_where dc since_str, cast_order dc, json r')))
      else prepend [raw_probe headers since_str chunk dc r]
             (negotiate rest since_str chunk headers s1)
    else mkRun [raw_probe headers since_str chunk dc r] s1
           (Ok (Some (raw_where dc since_str, dc, json r))).
Proof.
  cbn [negotiate]. unfold try_except_SystemExit at 1. unfold mbind, M_bind.
  rewrite _try_page_run. cbv zeta. cbn [result trace remote].
  fold (raw_where dc since_str).
  set (q := probe_request headers (raw_where dc since_str) dc chunk).
  destruct (http_error (requests_get s q).1) eqn:Hraw;
    cbn [result trace remote]; [|done].
  destruct (type_mismatch _) eqn:Hmm; [|done].
  unfold try_except_SystemExit. cbv beta. rewrite _try_page_run. cbv zeta.
  cbn [result trace remote]. fold (cast_where dc since_str) (cast_order dc).
  set (q' := probe_request headers (cast_where dc since_str) (cast_order dc) chunk).
  destruct (http_error (requests_get _ q').1) eqn:Hcast;
    cbn [result trace remote].
  - by rewrite prepend_prepend.
  - done.
Qed.

Lemma negotiation_stages headers since_str chunk dcs tr o :
  negotiation headers since_str chunk dcs tr o →
  Forall (λ ev, ev_stage ev = FilterProbe) tr.
Proof. induction 1; repeat constructor; done. Qed.

Lemma negotiate_spec dcs since_str chunk headers s :
  ∃ o, result (negotiate dcs since_str chunk headers s) = Ok o
       ∧ negotiation headers since_str chunk dcs
           (trace (negotiate dcs since_str chunk headers s)) o.
Proof.
  revert s. induction dcs as [|dc rest IH]; intros s.
  - exists None. split; [done | constructor].
  - rewrite negotiate_cons. cbv zeta.
    set (q := probe_request headers (raw_where dc since_str) dc chunk).
    destruct (http_error (requests_get s q).1) eqn:Hraw.
    + destruct (type_mismatch _) eqn:Hmm.
      * apply type_mismatch_indicates in Hmm.
        set (q' := probe_request headers (cast_where dc since_str) (cast_order dc) chunk).
        destruct (http_error (requests_get _ q').1) eqn:Hcast.
        -- destruct (IH (requests_get (requests_get s q).2 q').2) as (o & Ho & Hneg).
           exists o. split; [done|]. by apply neg_both_fail.
        -- eexists. split; [done|]. by apply neg_cast_ok.
      * assert (¬ indicates_type_mismatch (requests_get s q).1) as Hother.
        { intros Hi%type_mismatch_indicates. congruence. }
        destruct (IH (requests_get s q).2) as (o & Ho & Hneg).
        exists o. split; [done|]. by apply neg_other_fail.
    + eexists. split; [done|]. by apply neg_raw_ok.
Qed.

Lemma choose_date_cols_run created_field cols s :
  choose_date_cols created_field cols s
  = mkRun [] s (match date_cols_error created_field cols with
                | Some msg => Raise (SystemExit msg)
                | None => Ok (date_cols_of created_field cols)
                end).
Proof.
  unfold choose_date_cols, date_cols_error, date_cols_of.
  destruct (truthy created_field); cbv zeta; by case_bool_decide.
Qed.

Lemma date_cols_of_NoDup created_field cols :
  NoDup (date_cols_of created_field cols).
Proof.
  unfold date_cols_of. destruct (truthy created_field).
  - apply NoDup_singleton.
  - apply NoDup_filter. by apply (bool_decide_unpack (NoDup DATE_FIELD_CANDIDATES)).
Qed.

(** [fetch_api], stage by stage. *)
Lemma fetch_api_run fuel days_back chunk app_token created_field max_pages s :
  fetch_api fuel days_back chunk app_token created_field max_pages s
  = let headers := headers_of app_token in
    let q := schema_request headers in
    let r0 := (requests_get s q).1 in
    let s0 := (requests_get s q).2 in
    let ev0 := mkEvent SchemaProbe q r0 in
    if http_error r0 then mkRun [ev0] s0 (Raise (HTTPError r0))
    else
      let cols := schema_of (json r0) in
      match date_cols_error created_field cols with
      | Some msg => mkRun [ev0] s0 (Raise (SystemExit msg))
      | None =>
          if cutoff_overflows days_back then mkRun [ev0] s0 (Raise OverflowError)
          else
          let dcs := date_cols_of created_field cols in
          let n := negotiate dcs (strftime (since_dt_of days_back)) chunk headers s0 in
          match result n with
          | Ok (Some (working_where, working_order, first_rows)) =>
              prepend (ev0 :: trace n)
                (server_filtered fuel working_where working_order first_rows
                   chunk headers (remote n))
          | Ok None =>
              prepend (ev0 :: trace n)
                (fallback fuel dcs cols (since_dt_of days_back) chunk headers
                   max_pages (remote n))
          | Raise e => mkRun (ev0 :: trace n) (remote n) (Raise e)
          | OutOfFuel => mkRun (ev0 :: trace n) (remote n) OutOfFuel
          end
      end.
Proof.
  unfold fetch_api. fold (headers_of app_token). cbv zeta.
  unfold mbind at 1. unfold M_bind at 1. rewrite _sample_columns_run. cbv zeta.
  cbn [result trace remote].
  destruct (http_error _) eqn:Hhttp; [done|].
  unfold mbind at 1. unfold M_bind at 1. rewrite choose_date_cols_run.
  cbn [result trace remote].
  destruct (date_cols_error _ _) as [msg|] eqn:Herr; [done|].
  rewrite prepend_nil.
  unfold mbind at 1. unfold M_bind at 1. unfold cutoff.
  destruct (cutoff_overflows days_back); [done|].
  cbn [result trace remote mret M_ret]. rewrite prepend_nil.
  unfold mbind at 1. unfold M_bind at 1.
  destruct (result (negotiate _ _ _ _ _)) as [[[[ww wo] fr]|]|e|] eqn:Hn;
    unfold prepend; cbn [result trace remote]; done.
Qed.

(** ** The server-filtered pager *)

Lemma filtered_loop_S fuel ww wo chunk headers offset frames s :
  filtered_loop (S fuel) ww wo chunk headers offset frames s
  = let q := filtered_request headers ww wo chunk offset in
    let r := (requests_get s q).1 in
    let s1 := (requests_get s q).2 in
    let ev := mkEvent FilteredPage q r in
    if http_error r then mkRun [ev] s1 (Raise (HTTPError r))
    else if bool_decide (json r = []) then mkRun [ev] s1 (Ok frames)
    else if bool_decide (Z.of_nat (length (json r)) < chunk)
    then mkRun [ev] s1 (Ok (frames ++ [pd.of_records (json r)]))
    else prepend [ev]
           (filtered_loop fuel ww wo chunk headers
              (offset + Z.of_nat (length (json r)))
              (frames ++ [pd.of_records (json r)]) s1).
Proof.
  cbn [filtered_loop]. unfold mbind at 1. unfold M_bind at 1.
  rewrite get_run. fold (filtered_request headers ww wo chunk offset).
  cbv zeta. cbn [result trace remote].
  unfold mbind, M_bind, raise_for_status.
  destruct (http_error _) eqn:Hhttp; [done|].
  unfold prepend, mret, M_ret. cbn [result trace remote].
  case_bool_decide; [done|]. case_bool_decide; done.
Qed.

Lemma of_records_rows (rs : list record) :
  pd.rows (pd.of_records rs) = (λ r : record, pd.Obj <$> r) <$> rs.
Proof. done. Qed.

Lemma concat_rows_eq (frames : list pd.DataFrame) :
  pd.rows (pd.concat frames) = mjoin (pd.rows <$> frames).
Proof. done. Qed.

Lemma received_cons ev evs :
  received (ev :: evs) = json (ev_response ev) ++ received evs.
Proof. done. Qed.




(** ** The fallback blind pager *)

Lemma _page_iter_no_where_run order_col chunk headers g s :
  _page_iter_no_where order_col chunk headers g s
  = match next_offset chunk g with
    | None => mkRun [] s (Ok None)
    | Some offset =>
        let q := blind_request headers order_col chunk offset in
        let r := (requests_get s q).1 in
        mkRun [mkEvent BlindPage q r] (requests_get s q).2
          (if http_error r then Raise (HTTPError r)
           else if bool_decide (json r = []) then Ok None
           else Ok (Some (json r, Yielded offset (json r))))
    end.
Proof.
  assert (∀ offset,
    (r ← get BlindPage
           (mkRequest 120 headers None chunk (Some offset)
              (if truthy order_col then order_col else None));
     _ ← raise_for_status r;
     let rows := json r in
     if bool_decide (rows = []) then mret None
     else mret (Some (rows, Yielded offset rows))) s
    = let q := blind_request headers order_col chunk offset in
      let r := (requests_get s q).1 in
      mkRun [mkEvent BlindPage q r] (requests_get s q).2
        (if http_error r then Raise (HTTPError r)
         else if bool_decide (json r = []) then Ok None
         else Ok (Some (json r, Yielded offset (json r))))) as Hiter.
  { intros offset. unfold mbind at 1. unfold M_bind at 1. rewrite get_run.
    fold (blind_request headers order_col chunk offset). cbv zeta.
    cbn [result trace remote]. unfold mbind, M_bind, raise_for_status.
    destruct (http_error _) eqn:Hhttp; [done|].
    unfold prepend, mret, M_ret. cbn [result trace remote].
    by case_bool_decide. }
  unfold _page_iter_no_where, next_offset. destruct g as [start|offset rows].
  - apply Hiter.
  - cbv zeta. case_bool_decide; [done|]. apply Hiter.
Qed.

Lemma fallback_loop_S fuel dcs since_dt order_col chunk headers max_pages g
    pages_scanned kept_frames s :
  fallback_loop (S fuel) dcs since_dt order_col chunk headers max_pages g
    pages_scanned kept_frames s
  = match next_offset chunk g with
    | None => mkRun [] s (Ok kept_frames)
    | Some offset =>
        let q := blind_request headers order_col chunk offset in
        let r := (requests_get s q).1 in
        let s1 := (requests_get s q).2 in
        let ev := mkEvent BlindPage q r in
        if http_error r then mkRun [ev] s1 (Raise (HTTPError r))
        else if bool_decide (json r = []) then mkRun [ev] s1 (Ok kept_frames)
        else
          let page := process_page dcs since_dt (json r) in
          let kept_frames' :=
            if negb (pd.empty page.1) then kept_frames ++ [page.1]
            else kept_frames in
          if negb page.2 && bool_decide (kept_frames' ≠ [])
          then mkRun [ev] s1 (Ok kept_frames')
          else if bool_decide (max_pages ≤ pages_scanned + 1)
          then mkRun [ev] s1 (Ok kept_frames')
          else prepend [ev]
                 (fallback_loop fuel dcs since_dt order_col chunk headers
                    max_pages (Yielded offset (json r)) (pages_scanned + 1)
                    kept_frames' s1)
    end.
Proof.
  cbn [fallback_loop]. unfold mbind at 1. unfold M_bind at 1.
  rewrite _page_iter_no_where_run.
  destruct (next_offset chunk g) as [offset|]; [|done].
  cbv zeta. cbn [result trace remote].
  set (q := blind_request headers order_col chunk offset).
  destruct (http_error _) eqn:Hhttp; [done|].
  case_bool_decide as Hnil; [done|].
  cbn [prepend result trace remote].
  destruct (process_page dcs since_dt (json (requests_get s q).1))
    as [kept any_newer]. cbn [fst snd].
  unfold prepend, mret, M_ret.
  destruct (negb any_newer && _); [done|].
  case_bool_decide; done.
Qed.

Lemma fallback_loop_stages fuel dcs since_dt order_col chunk headers max_pages g
    pages_scanned kept_frames s :
  Forall (λ ev, ev_stage ev = BlindPage)
    (trace (fallback_loop fuel dcs since_dt order_col chunk headers max_pages g
              pages_scanned kept_frames s)).
Proof.
  revert g pages_scanned kept_frames s.
  induction fuel as [|fuel IH]; intros g ps kf s; [by constructor|].
  rewrite fallback_loop_S. destruct (next_offset chunk g) as [offset|];
    [|by constructor].
  cbv zeta. repeat (case_match; try (by repeat constructor)).
Qed.

Lemma fallback_run fuel dcs cols since_dt chunk headers max_pages s :
  fallback fuel dcs cols since_dt chunk headers max_pages s
  = let order_col := head (filter (λ dc, dc ∈ cols) dcs) in
    let l := fallback_loop fuel dcs since_dt order_col chunk headers max_pages
               (Fresh 0) 0 [] s in
    mkRun (trace l) (remote l)
      (match result l with
       | Ok kept_frames =>
           Ok (if bool_decide (kept_frames ≠ []) then pd.concat kept_frames
               else pd.empty_frame)
       | Raise e => Raise e
       | OutOfFuel => OutOfFuel
       end).
Proof.
  unfold fallback, mbind, M_bind. cbv zeta.
  destruct (result _); unfold prepend, mret, M_ret; cbn [result trace remote];
    [|done..].
  by rewrite app_nil_r.
Qed.

(** ** The two modes of a fetch *)

(** C7.  Negotiation walks the candidates in priority order.  For each it
    sends the raw comparison probe; it sends the cast probe exactly when
    the raw probe was refused with a response that indicates a type
    mismatch, that is, when one of the wordings of a type mismatch occurs
    in the report of the refusal (status code, URL, body truncated to 800
    characters); when the raw probe is refused for another reason, or both
    probes are refused, it goes on with the next candidate.  A refused
    probe never aborts the negotiation: it always ends, either on the
    first accepted probe or with no filter once the candidates run out. *)
Theorem negotiation_walks_candidates dcs since_str chunk headers s :
  ∃ o, result (negotiate dcs since_str chunk headers s) = Ok o
       ∧ negotiation headers since_str chunk dcs
           (trace (negotiate dcs since_str chunk headers s)) o.
Proof. apply negotiate_spec. Qed.

Lemma negotiation_settled headers since_str chunk dcs tr ww wo first_rows :
  negotiation headers since_str chunk dcs tr (Some (ww, wo, first_rows)) →
  ∃ tr0 r, tr = tr0 ++ [mkEvent FilterProbe (probe_request headers ww wo chunk) r]
           ∧ json r = first_rows ∧ http_error r = false.
Proof.
  remember (Some (ww, wo, first_rows)) as o eqn:Ho.
  induction 1 as [|dc rest r Hr|dc rest r r' Hr Hm Hr'
                  |dc rest r r' tr o Hr Hm Hr' Hneg IH|dc rest r tr o Hr Hm Hneg IH].
  - done.
  - injection Ho as <- <- <-. by exists [], r.
  - injection Ho as <- <- <-.
    by exists [raw_probe headers since_str chunk dc r], r'.
  - destruct (IH Ho) as (tr0 & r0 & -> & ? & ?).
    by exists (raw_probe headers since_str chunk dc r
               :: cast_probe headers since_str chunk dc r' :: tr0), r0.
  - destruct (IH Ho) as (tr0 & r0 & -> & ? & ?).
    by exists (raw_probe headers since_str chunk dc r :: tr0), r0.
Qed.

Lemma uses_app st tr1 tr2 : uses st (tr1 ++ tr2) ↔ uses st tr1 ∨ uses st tr2.
Proof.
  unfold uses. split.
  - intros (ev & [? | ?]%elem_of_app & ?); eauto.
  - intros [(ev & ? & ?)|(ev & ? & ?)]; exists ev; rewrite elem_of_app; eauto.
Qed.

Lemma uses_cons st ev tr : uses st (ev :: tr) ↔ ev_stage ev = st ∨ uses st tr.
Proof.
  unfold uses. split.
  - intros (ev' & [-> | ?]%elem_of_cons & ?); eauto.
  - intros [?|(ev' & ? & ?)]; [exists ev | exists ev']; rewrite elem_of_cons; eauto.
Qed.

Lemma not_uses st st' tr :
  st ≠ st' → Forall (λ ev, ev_stage ev = st') tr → ¬ uses st tr.
Proof.
  intros Hne Hall (ev & Hin & Hst). rewrite Forall_forall in Hall.
  apply Hall in Hin. congruence.
Qed.

Lemma filtered_loop_stages fuel ww wo chunk headers offset frames s :
  Forall (λ ev, ev_stage ev = FilteredPage)
    (trace (filtered_loop fuel ww wo chunk headers offset frames s)).
Proof.
  revert offset frames s.
  induction fuel as [|fuel IH]; intros offset frames s; [by constructor|].
  rewrite filtered_loop_S.
  cbv zeta. repeat (case_match; try (by repeat constructor)).
Qed.

Lemma server_filtered_run fuel ww wo first_rows chunk headers s :
  ∃ offset frames,
    let l := filtered_loop fuel ww wo chunk headers offset frames s in
    server_filtered fuel ww wo first_rows chunk headers s
    = mkRun (trace l) (remote l)
        (match result l with
         | Ok frames =>
             Ok (if bool_decide (frames ≠ []) then pd.concat frames
                 else pd.empty_frame)
         | Raise e => Raise e
         | OutOfFuel => OutOfFuel
         end).
Proof.
  unfold server_filtered.
  destruct (if bool_decide (first_rows ≠ []) then _ else _) as [frames offset].
  exists offset, frames. unfold mbind, M_bind. cbv zeta.
  destruct (result _); unfold prepend, mret, M_ret; cbn [result trace remote];
    [|done..].
  by rewrite app_nil_r.
Qed.

Lemma server_filtered_stages fuel ww wo first_rows chunk headers s :
  Forall (λ ev, ev_stage ev = FilteredPage)
    (trace (server_filtered fuel ww wo first_rows chunk headers s)).
Proof.
  destruct (server_filtered_run fuel ww wo first_rows chunk headers s)
    as (offset & frames & ->).
  apply filtered_loop_stages.
Qed.

Lemma fallback_stages fuel dcs cols since_dt chunk headers max_pages s :
  Forall (λ ev, ev_stage ev = BlindPage)
    (trace (fallback fuel dcs cols since_dt chunk headers max_pages s)).
Proof. rewrite fallback_run. apply fallback_loop_stages. Qed.

(** A fetch whose trace has an unfiltered page request is the schema probe,
    a negotiation that settled on nothing, and the fallback pager. *)
Lemma fetch_api_blind fuel days_back chunk app_token created_field max_pages s :
  uses BlindPage
    (trace (fetch_api fuel days_back chunk app_token created_field max_pages s)) →
  date_cols_error created_field (observed_schema app_token s) = None
  ∧ result (negotiated days_back chunk app_token created_field s) = Ok None
  ∧ fetch_api fuel days_back chunk app_token created_field max_pages s
    = prepend
        (schema_event app_token s
           :: trace (negotiated days_back chunk app_token created_field s))
        (fallback fuel (candidates app_token created_field s)
           (observed_schema app_token s) (since_dt_of days_back) chunk
           (headers_of app_token) max_pages
           (remote (negotiated days_back chunk app_token created_field s))).
Proof.
  rewrite fetch_api_run. cbv zeta.
  fold (schema_event app_token s) (after_schema app_token s).
  change (schema_of (json (requests_get s (schema_request (headers_of app_token))).1))
    with (observed_schema app_token s).
  change (requests_get s (schema_request (headers_of app_token))).1
    with (ev_response (schema_event app_token s)).
  assert (¬ uses BlindPage [schema_event app_token s]) as Hno.
  { intros (ev & ->%list_elem_of_singleton & Hst). done. }
  destruct (http_error _); [intros Hu; by destruct Hno|].
  destruct (date_cols_error _ _) as [msg|] eqn:Herr; [intros Hu; by destruct Hno|].
  destruct (cutoff_overflows days_back); [intros Hu; by destruct Hno|].
  fold (candidates app_token created_field s).
  fold (negotiated days_back chunk app_token created_field s).
  destruct (negotiate_spec (candidates app_token created_field s)
              (strftime (since_dt_of days_back)) chunk (headers_of app_token)
              (after_schema app_token s)) as (o & Ho & Hneg).
  fold (negotiated days_back chunk app_token created_field s) in Ho, Hneg.
  rewrite Ho. destruct o as [[[ww wo] fr]|]; [|done].
  unfold prepend. cbn [trace]. intros Hu. exfalso.
  apply uses_app in Hu as [Hu|Hu].
  - apply uses_cons in Hu as [Hu|Hu]; [done|].
    revert Hu. eapply not_uses; [|by eapply negotiation_stages]. done.
  - revert Hu. eapply not_uses; [|by apply server_filtered_stages]. done.
Qed.

(** A fetch whose trace has a filtered page request is the schema probe, a
    negotiation that settled on a filter, and the server-filtered pager. *)
Lemma fetch_api_filtered fuel days_back chunk app_token created_field max_pages s :
  uses FilteredPage
    (trace (fetch_api fuel days_back chunk app_token created_field max_pages s)) →
  ∃ ww wo first_rows,
    result (negotiated days_back chunk app_token created_field s)
    = Ok (Some (ww, wo, first_rows))
    ∧ fetch_api fuel days_back chunk app_token created_field max_pages s
      = prepend
          (schema_event app_token s
             :: trace (negotiated days_back chunk app_token created_field s))
          (server_filtered fuel ww wo first_rows chunk (headers_of app_token)
             (remote (negotiated days_back chunk app_token created_field s))).
Proof.
  rewrite fetch_api_run. cbv zeta.
  fold (schema_event app_token s) (after_schema app_token s).
  change (schema_of (json (requests_get s (schema_request (headers_of app_token))).1))
    with (observed_schema app_token s).
  change (requests_get s (schema_request (headers_of app_token))).1
    with (ev_response (schema_event app_token s)).
  assert (¬ uses FilteredPage [schema_event app_token s]) as Hno.
  { intros (ev & ->%list_elem_of_singleton & Hst). done. }
  destruct (http_error _); [intros Hu; by destruct Hno|].
  destruct (date_cols_error _ _) as [msg|] eqn:Herr;
    [intros Hu; by destruct Hno|].
  destruct (cutoff_overflows days_back); [intros Hu; by destruct Hno|].
  fold (candidates app_token created_field s).
  fold (negotiated days_back chunk app_token created_field s).
  destruct (negotiate_spec (candidates app_token created_field s)
              (strftime (since_dt_of days_back)) chunk (headers_of app_token)
              (after_schema app_token s)) as (o & Ho & Hneg).
  fold (negotiated days_back chunk app_token created_field s) in Ho, Hneg.
  rewrite Ho. destruct o as [[[ww wo] fr]|]; [by exists ww, wo, fr|].
  unfold prepend. cbn [trace]. intros Hu. exfalso.
  apply uses_app in Hu as [Hu|Hu].
  - apply uses_cons in Hu as [Hu|Hu]; [done|].
    revert Hu. eapply not_uses; [|by eapply negotiation_stages]. done.
  - revert Hu. eapply not_uses; [|by apply fallback_stages]. done.
Qed.

(** ** What the fallback pager returns *)

(** Every row a page contributes is a received record with the candidate
    columns of its page parsed; unless the page has no candidate column,
    the row is newer in one of them. *)
Lemma process_page_rows dcs since_dt (page : list record) (r : pd.row) :
  NoDup dcs →
  r ∈ pd.rows (process_page dcs since_dt page).1 →
  ∃ i rec, page !! i = Some rec
           ∧ r = parsed_row dcs (pd.of_records page) i (pd.Obj <$> rec)
           ∧ (present dcs (pd.of_records page) = []
              ∨ row_newer (present dcs (pd.of_records page)) since_dt r = true).
Proof.
  intros Hnd. destruct (process_page_spec dcs since_dt page Hnd) as [-> _].
  assert (∀ r, r ∈ pd.rows (parsed_frame dcs (pd.of_records page)) →
            ∃ i rec, page !! i = Some rec
                     ∧ r = parsed_row dcs (pd.of_records page) i (pd.Obj <$> rec))
    as Hparsed.
  { intros r' Hr'. apply list_elem_of_lookup in Hr' as (i & Hi).
    unfold parsed_frame in Hi; cbn [pd.rows] in Hi.
    apply list_lookup_imap_Some in Hi as (r0 & Hr0 & ->).
    rewrite of_records_rows, list_lookup_fmap in Hr0.
    destruct (page !! i) as [rec|] eqn:Hrec; [|done].
    injection Hr0 as <-. by exists i, rec. }
  case_bool_decide as Hp.
  - intros Hr. rewrite <- (parsed_frame_absent dcs (pd.of_records page) Hp) in Hr.
    destruct (Hparsed r Hr) as (i & rec & ? & ?). exists i, rec. eauto.
  - cbn [pd.rows]. intros [Hnew Hr]%list_elem_of_filter.
    destruct (Hparsed r Hr) as (i & rec & ? & ?). exists i, rec.
    split; [done|]. split; [done|]. right. by apply Is_true_true.
Qed.

Lemma fallback_loop_frames fuel dcs since_dt order_col chunk headers max_pages g
    pages_scanned kept_frames s kept_frames' df :
  result (fallback_loop fuel dcs since_dt order_col chunk headers max_pages g
            pages_scanned kept_frames s) = Ok kept_frames' →
  df ∈ kept_frames' →
  df ∈ kept_frames
  ∨ ∃ ev, ev ∈ trace (fallback_loop fuel dcs since_dt order_col chunk headers
                        max_pages g pages_scanned kept_frames s)
          ∧ df = (process_page dcs since_dt (json (ev_response ev))).1.
Proof.
  revert g pages_scanned kept_frames s.
  induction fuel as [|fuel IH]; intros g ps kf s; [done|].
  rewrite fallback_loop_S. destruct (next_offset chunk g) as [offset|];
    [|cbn; intros [= <-]; eauto].
  cbv zeta. set (q := blind_request headers order_col chunk offset).
  set (ev := mkEvent BlindPage q (requests_get s q).1).
  destruct (http_error _); [done|].
  case_bool_decide; [cbn; intros [= <-]; eauto|].
  set (page := process_page dcs since_dt (json (requests_get s q).1)).
  set (kf' := if negb (pd.empty page.1) then kf ++ [page.1] else kf).
  assert (df ∈ kf' → df ∈ kf ∨ df = page.1) as Hkf'.
  { unfold kf'. destruct (negb _); [|eauto].
    intros [? | ->%list_elem_of_singleton]%elem_of_app; eauto. }
  assert (df ∈ kf' →
          df ∈ kf ∨ ∃ ev', ev' ∈ [ev]
                           ∧ df = (process_page dcs since_dt (json (ev_response ev'))).1)
    as Hone.
  { intros [? | ->]%Hkf'; [by left|]. right. exists ev. split; [by left | done]. }
  destruct (negb page.2 && _); [cbn; intros [= <-]; eauto|].
  case_bool_decide; [cbn; intros [= <-]; eauto|].
  unfold prepend. cbn [result trace]. intros Hres Hdf.
  destruct (IH _ _ _ _ Hres Hdf) as [Hin|(ev' & Hin & ->)].
  - apply Hkf' in Hin as [? | ->]; [by left|]. right. exists ev.
    split; [by left | done].
  - right. exists ev'. split; [by right | done].
Qed.

Lemma fallback_rows fuel dcs cols since_dt chunk headers max_pages s df r :
  NoDup dcs →
  result (fallback fuel dcs cols since_dt chunk headers max_pages s) = Ok df →
  r ∈ pd.rows df →
  ∃ ev i rec,
    ev ∈ trace (fallback fuel dcs cols since_dt chunk headers max_pages s)
    ∧ json (ev_response ev) !! i = Some rec
    ∧ r = parsed_row dcs (pd.of_records (json (ev_response ev))) i (pd.Obj <$> rec)
    ∧ (present dcs (pd.of_records (json (ev_response ev))) = []
       ∨ row_newer (present dcs (pd.of_records (json (ev_response ev))))
           since_dt r = true).
Proof.
  intros Hnd. rewrite fallback_run. cbv zeta. cbn [result trace].
  destruct (result _) as [kf| |] eqn:Hres; [|done..]. intros [= <-] Hr.
  assert (∃ f, f ∈ kf ∧ r ∈ pd.rows f) as (f & Hf & Hrf).
  { destruct kf as [|f0 kf]; [by apply elem_of_nil in Hr|].
    rewrite bool_decide_true in Hr by done. by apply concat_rows in Hr. }
  destruct (fallback_loop_frames _ _ _ _ _ _ _ _ _ _ _ _ _ Hres Hf)
    as [Hin|(ev & Hev & ->)]; [by apply elem_of_nil in Hin|].
  destruct (process_page_rows _ _ _ _ Hnd Hrf) as (i & rec & ? & ? & ?).
  by exists ev, i, rec.
Qed.

Lemma ge_cell_true since_dt (o : option pd.cell) :
  pd.ge_cell since_dt o = true ↔
  ∃ t, o = Some (pd.Timestamp (Some t)) ∧ since_dt ≤ t.
Proof.
  split.
  - destruct o as [[v|[t|]]|]; simpl; try done.
    intros Ht%bool_decide_eq_true. by exists t.
  - intros (t & -> & Ht). simpl. by apply bool_decide_eq_true.
Qed.

(** C2.  In a fetch that goes through the fallback blind pager, every
    returned record has some candidate date column holding a parsed
    timestamp at or after the cutoff, unless no candidate column of that
    record holds a parsed timestamp at all. *)
Theorem fallback_returns_only_newer fuel days_back chunk app_token created_field
    max_pages s df (r : pd.row) :
  uses BlindPage
    (trace (fetch_api fuel days_back chunk app_token created_field max_pages s)) →
  result (fetch_api fuel days_back chunk app_token created_field max_pages s)
  = Ok df →
  r ∈ pd.rows df →
  (∃ c t, c ∈ candidates app_token created_field s
          ∧ r !! c = Some (pd.Timestamp (Some t))
          ∧ since_dt_of days_back ≤ t)
  ∨ (∀ c t, c ∈ candidates app_token created_field s →
            r !! c ≠ Some (pd.Timestamp (Some t))).
Proof.
  intros Hu. destruct (fetch_api_blind _ _ _ _ _ _ _ Hu) as (Herr & Hneg & ->).
  unfold prepend. cbn [result]. intros Hres Hr.
  destruct (fallback_rows _ _ _ _ _ _ _ _ _ _
              (date_cols_of_NoDup _ _) Hres Hr)
    as (ev & i & rec & Hev & Hrec & -> & Hnew).
  fold (candidates app_token created_field s) in *.
  set (page := pd.of_records (json (ev_response ev))) in *.
  destruct Hnew as [Habs|Hnew].
  - right. intros c t Hc. rewrite parsed_row_lookup.
    rewrite bool_decide_false.
    + rewrite lookup_fmap. by destruct (rec !! c).
    + intros [_ Hin].
      assert (c ∈ present (candidates app_token created_field s) page) as Hp
        by (by apply list_elem_of_filter).
      rewrite Habs in Hp. by apply elem_of_nil in Hp.
  - left. unfold row_newer in Hnew. apply existsb_exists in Hnew as (c & Hc & Hge).
    apply list_elem_of_In, list_elem_of_filter in Hc as [_ Hc].
    apply ge_cell_true in Hge as (t & Hcell & Ht). by exists c, t.
Qed.

Lemma filtered_loop_rows fuel ww wo chunk headers offset frames s frames' :
  result (filtered_loop fuel ww wo chunk headers offset frames s) = Ok frames' →
  mjoin (pd.rows <$> frames')
  = mjoin (pd.rows <$> frames)
    ++ ((λ r : record, pd.Obj <$> r)
          <$> received (trace (filtered_loop fuel ww wo chunk headers offset frames s))).
Proof.
  revert offset frames s.
  induction fuel as [|fuel IH]; intros offset frames s; [done|].
  rewrite filtered_loop_S. cbv zeta.
  set (q := filtered_request headers ww wo chunk offset).
  destruct (http_error (requests_get s q).1) eqn:Hhttp; [done|].
  case_bool_decide as Hnil.
  { cbn [result trace]. intros [= <-].
    rewrite received_cons. cbn [ev_response]. rewrite Hnil. simpl.
    by rewrite app_nil_r. }
  case_bool_decide as Hshort.
  { cbn [result trace]. intros [= <-].
    rewrite received_cons. cbn [ev_response]. unfold received. simpl.
    rewrite app_nil_r. rewrite fmap_app, join_app. simpl.
    by rewrite app_nil_r. }
  unfold prepend. cbn [result trace]. intros Hres.
  rewrite (IH _ _ _ Hres). simpl app. rewrite received_cons. cbn [ev_response].
  rewrite fmap_app, join_app. simpl. rewrite app_nil_r.
  rewrite <- app_assoc. f_equal. by rewrite fmap_app.
Qed.

Lemma server_filtered_rows fuel ww wo first_rows chunk headers s df :
  result (server_filtered fuel ww wo first_rows chunk headers s) = Ok df →
  pd.rows df
  = (λ r : record, pd.Obj <$> r)
      <$> (first_rows
           ++ received (trace (server_filtered fuel ww wo first_rows chunk headers s))).
Proof.
  unfold server_filtered.
  set (init := if bool_decide (first_rows ≠ [])
               then ([pd.of_records first_rows], Z.of_nat (length first_rows))
               else ([], 0)).
  assert (mjoin (pd.rows <$> init.1) = (λ r : record, pd.Obj <$> r) <$> first_rows)
    as Hinit.
  { unfold init. destruct first_rows as [|r0 l].
    - rewrite bool_decide_false by (by intros ?). done.
    - rewrite bool_decide_true by done. simpl. by rewrite app_nil_r. }
  destruct init as [frames start_offset]. simpl in Hinit.
  unfold mbind, M_bind.
  destruct (result (filtered_loop _ _ _ _ _ _ _ _)) as [frames'| |] eqn:Hres; [|done..].
  unfold prepend, mret, M_ret. cbn [result trace]. intros [= <-].
  rewrite app_nil_r.
  rewrite fmap_app, <- Hinit, <- (filtered_loop_rows _ _ _ _ _ _ _ _ _ Hres).
  destruct frames' as [|f fs]; [done|]. by rewrite bool_decide_true.
Qed.

Lemma elem_of_received rec evs :
  rec ∈ received evs ↔ ∃ ev, ev ∈ evs ∧ rec ∈ json (ev_response ev).
Proof.
  unfold received. rewrite list_elem_of_join. split.
  - intros (l & Hrec & Hl). apply list_elem_of_fmap in Hl as (ev & -> & Hev). eauto.
  - intros (ev & Hev & Hrec). exists (json (ev_response ev)). split; [done|].
    apply list_elem_of_fmap. eauto.
Qed.

(** C10.  In fallback mode a returned record is a received record in which
    every candidate column of its page holds what [to_datetime] answered
    for it ([NaT] where the value did not parse), and every other field is
    as received.  In server-filtered mode a returned record is a received
    record, every field as received. *)
Theorem returned_field_values fuel days_back chunk app_token created_field
    max_pages s df (r : pd.row) :
  result (fetch_api fuel days_back chunk app_token created_field max_pages s)
  = Ok df →
  r ∈ pd.rows df →
  let tr := trace (fetch_api fuel days_back chunk app_token created_field
                     max_pages s) in
  (uses BlindPage tr →
   ∃ ev i rec,
     ev ∈ tr ∧ ev_stage ev = BlindPage ∧ json (ev_response ev) !! i = Some rec
     ∧ ∀ k, r !! k
            = if bool_decide (k ∈ candidates app_token created_field s
                              ∧ k ∈ pd.columns (pd.of_records (json (ev_response ev))))
              then Some (parsed_cell (pd.of_records (json (ev_response ev))) k i)
              else pd.Obj <$> rec !! k)
  ∧ (uses FilteredPage tr →
     ∃ ev rec, ev ∈ tr ∧ rec ∈ json (ev_response ev) ∧ r = pd.Obj <$> rec).
Proof.
  intros Hres Hr tr. subst tr. split; intros Hu.
  - destruct (fetch_api_blind _ _ _ _ _ _ _ Hu) as (Herr & Hneg & Heq).
    rewrite Heq in Hres |- *. clear Heq.
    unfold prepend in *. cbn [result trace] in *.
    destruct (fallback_rows _ _ _ _ _ _ _ _ _ _
                (date_cols_of_NoDup _ _) Hres Hr)
      as (ev & i & rec & Hev & Hrec & -> & _).
    exists ev, i, rec. split; [apply elem_of_app; by right|].
    split.
    { pose proof (fallback_stages fuel (candidates app_token created_field s)
                    (observed_schema app_token s) (since_dt_of days_back) chunk
                    (headers_of app_token) max_pages
                    (remote (negotiated days_back chunk app_token created_field s)))
        as Hst.
      rewrite Forall_forall in Hst. by apply Hst. }
    split; [done|]. intros k.
    rewrite parsed_row_lookup. by rewrite lookup_fmap.
  - destruct (fetch_api_filtered _ _ _ _ _ _ _ Hu) as (ww & wo & fr & Hneg & Heq).
    rewrite Heq in Hres |- *. clear Heq.
    unfold prepend in *. cbn [result trace] in *.
    rewrite (server_filtered_rows _ _ _ _ _ _ _ _ Hres) in Hr.
    apply list_elem_of_fmap in Hr as (rec & -> & Hrec).
    apply elem_of_app in Hrec as [Hrec|Hrec].
    + destruct (negotiate_spec (candidates app_token created_field s)
                  (strftime (since_dt_of days_back)) chunk (headers_of app_token)
                  (after_schema app_token s)) as (o & Ho & Hn).
      fold (negotiated days_back chunk app_token created_field s) in Ho, Hn.
      rewrite Hneg in Ho. injection Ho as <-.
      apply negotiation_settled in Hn as (tr0 & r0 & Htr & Hjson & _).
      exists (mkEvent FilterProbe (probe_request (headers_of app_token) ww wo chunk) r0),
             rec.
      split; [|by rewrite <- Hjson in Hrec].
      rewrite Htr. apply elem_of_app. left. right. apply elem_of_app. right. by left.
    + apply elem_of_received in Hrec as (ev & Hev & Hrec).
      exists ev, rec. split; [|done]. apply elem_of_app. by right.
Qed.



(** ** The page cap *)

Lemma fallback_loop_cap fuel dcs since_dt order_col chunk headers max_pages g
    pages_scanned kept_frames s :
  Z.of_nat (length (trace (fallback_loop fuel dcs since_dt order_col chunk headers
                             max_pages g pages_scanned kept_frames s)))
  ≤ Z.max 1 (max_pages - pages_scanned).
Proof.
  revert g pages_scanned kept_frames s.
  induction fuel as [|fuel IH]; intros g ps kf s; [simpl; lia|].
  rewrite fallback_loop_S. destruct (next_offset chunk g) as [offset|];
    [|simpl; lia].
  cbv zeta. destruct (http_error _); [simpl; lia|].
  case_bool_decide; [simpl; lia|].
  destruct (negb _ && _); [simpl; lia|].
  case_bool_decide as Hcap; [simpl; lia|].
  unfold prepend. cbn [trace app length].
  match goal with
  | |- context [fallback_loop fuel _ _ _ _ _ _ ?g' ?ps' ?kf' ?s'] =>
      specialize (IH g' ps' kf' s')
  end.
  lia.
Qed.

Lemma fallback_loop_fuel fuel dcs since_dt order_col chunk headers max_pages g
    pages_scanned kept_frames s :
  (Z.to_nat (Z.max 1 (max_pages - pages_scanned)) ≤ fuel)%nat →
  result (fallback_loop fuel dcs since_dt order_col chunk headers max_pages g
            pages_scanned kept_frames s) ≠ OutOfFuel.
Proof.
  revert g pages_scanned kept_frames s.
  induction fuel as [|fuel IH]; intros g ps kf s Hfuel; [lia|].
  rewrite fallback_loop_S. destruct (next_offset chunk g) as [offset|]; [|done].
  cbv zeta. destruct (http_error _); [done|].
  case_bool_decide; [done|].
  destruct (negb _ && _); [done|].
  case_bool_decide as Hcap; [done|].
  unfold prepend. cbn [result]. apply IH. lia.
Qed.

Lemma blind_requests_app tr1 tr2 :
  blind_requests (tr1 ++ tr2) = (blind_requests tr1 + blind_requests tr2)%nat.
Proof. unfold blind_requests. by rewrite filter_app, length_app. Qed.

Lemma blind_requests_none st tr :
  st ≠ BlindPage → Forall (λ ev, ev_stage ev = st) tr → blind_requests tr = 0%nat.
Proof.
  intros Hne. unfold blind_requests. induction 1 as [|ev tr Hev _ IH]; [done|].
  rewrite filter_cons. case_decide; [congruence | done].
Qed.

Lemma blind_requests_all tr :
  Forall (λ ev, ev_stage ev = BlindPage) tr → blind_requests tr = length tr.
Proof.
  unfold blind_requests. induction 1 as [|ev tr Hev _ IH]; [done|].
  rewrite filter_cons. case_decide; [simpl; by f_equal | done].
Qed.

Lemma blind_requests_uses tr : blind_requests tr ≠ 0%nat → uses BlindPage tr.
Proof.
  unfold blind_requests, uses. intros Hne.
  destruct (filter (λ ev, ev_stage ev = BlindPage) tr) as [|ev l] eqn:Hf; [done|].
  assert (ev ∈ filter (λ ev, ev_stage ev = BlindPage) tr) as Hin
    by (rewrite Hf; by left).
  apply list_elem_of_filter in Hin as [? ?]. by exists ev.
Qed.

(** C5, as the code has it.  A fetch sends at most [max 1 max_pages]
    unfiltered page requests, whatever the early-stop heuristic sees: the
    cap is tested after a page is scanned, so the first page is always
    requested; and with that much fuel the fallback loop ends by itself. *)
Theorem fallback_page_cap fuel days_back chunk app_token created_field
    max_pages s :
  Z.of_nat (blind_requests
              (trace (fetch_api fuel days_back chunk app_token created_field
                        max_pages s)))
  ≤ Z.max 1 max_pages
  ∧ ((Z.to_nat (Z.max 1 max_pages) ≤ fuel)%nat →
     uses BlindPage
       (trace (fetch_api fuel days_back chunk app_token created_field
                 max_pages s)) →
     result (fetch_api fuel days_back chunk app_token created_field max_pages s)
     ≠ OutOfFuel).
Proof.
  assert (uses BlindPage
            (trace (fetch_api fuel days_back chunk app_token created_field
                      max_pages s)) →
          Z.of_nat (blind_requests
                      (trace (fetch_api fuel days_back chunk app_token
                                created_field max_pages s)))
          ≤ Z.max 1 max_pages
          ∧ ((Z.to_nat (Z.max 1 max_pages) ≤ fuel)%nat →
             result (fetch_api fuel days_back chunk app_token created_field
                       max_pages s) ≠ OutOfFuel)) as Hblind.
  { intros Hu. destruct (fetch_api_blind _ _ _ _ _ _ _ Hu) as (Herr & Hneg & ->).
    unfold prepend. cbn [result trace].
    destruct (negotiate_spec (candidates app_token created_field s)
                (strftime (since_dt_of days_back)) chunk (headers_of app_token)
                (after_schema app_token s)) as (o & Ho & Hn).
    fold (negotiated days_back chunk app_token created_field s) in Ho, Hn.
    apply negotiation_stages in Hn.
    rewrite blind_requests_app.
    change (?a :: ?l) with ([a] ++ l). rewrite blind_requests_app.
    rewrite (blind_requests_none SchemaProbe [_]) by (by repeat constructor).
    rewrite (blind_requests_none FilterProbe
               (trace (negotiated days_back chunk app_token created_field s)))
      by done.
    rewrite blind_requests_all by apply fallback_stages.
    rewrite fallback_run. cbv zeta. cbn [result trace].
    split.
    - match goal with
      | |- context [fallback_loop fuel ?a ?b ?c ?d ?e ?f ?g ?h ?i ?j] =>
          pose proof (fallback_loop_cap fuel a b c d e f g h i j)
      end.
      simpl. lia.
    - intros Hfuel.
      match goal with
      | |- context [fallback_loop fuel ?a ?b ?c ?d ?e ?f ?g ?h ?i ?j] =>
          pose proof (fallback_loop_fuel fuel a b c d e f g h i j) as Hnf
      end.
      destruct (result (fallback_loop _ _ _ _ _ _ _ _ _ _ _));
        [congruence | congruence |]. exfalso. apply Hnf; [lia | done]. }
  split.
  - destruct (decide (blind_requests
                (trace (fetch_api fuel days_back chunk app_token created_field
                          max_pages s)) = 0%nat)) as [->|Hne]; [lia|].
    by apply Hblind, blind_requests_uses.
  - intros Hfuel Hu. by apply Hblind.
Qed.

(** ** Pages without any candidate column *)

Lemma singleton_split {A} (a : A) tr1 x tr2 :
  [a] = tr1 ++ x :: tr2 → tr1 = [] ∧ x = a ∧ tr2 = [].
Proof.
  intros Heq. destruct tr1 as [|b [|? ?]]; simpl in Heq; [|done..].
  by injection Heq as <- <-.
Qed.

Lemma split_stage (P : event → Prop) l1 l2 tr1 ev tr2 :
  Forall P l1 → ¬ P ev → l1 ++ l2 = tr1 ++ ev :: tr2 →
  ∃ tr1', tr1 = l1 ++ tr1' ∧ l2 = tr1' ++ ev :: tr2.
Proof.
  intros Hall Hev. revert tr1. induction Hall as [|a l1 Ha _ IH]; intros tr1 Heq.
  - by exists tr1.
  - destruct tr1 as [|b tr1]; simpl in Heq.
    + injection Heq as -> _. done.
    + injection Heq as -> Heq. destruct (IH _ Heq) as (tr1' & -> & ->).
      by exists tr1'.
Qed.

Lemma process_page_absent dcs since_dt (page : list record) :
  NoDup dcs → present dcs (pd.of_records page) = [] →
  process_page dcs since_dt page = (pd.of_records page, false).
Proof.
  intros Hnd Hp. destruct (process_page_spec dcs since_dt page Hnd) as [H1 H2].
  rewrite bool_decide_true in H1 by done.
  destruct (process_page dcs since_dt page) as [kept any_newer].
  simpl in H1, H2. subst kept. f_equal.
  destruct any_newer; [|done]. symmetry in H2.
  apply parse_candidates_any in H2 as (c & _ & _ & Hc & _); [|done].
  rewrite Hp in Hc. by apply elem_of_nil in Hc.
Qed.

Lemma of_records_not_empty (page : list record) :
  pd.columns (pd.of_records page) ≠ ∅ → pd.empty (pd.of_records page) = false.
Proof.
  intros Hcols. unfold pd.empty. rewrite bool_decide_false by done.
  destruct page as [|rec page]; [|done].
  destruct Hcols. unfold pd.columns, pd.of_records; simpl.
  by rewrite gset_to_gmap_empty, dom_empty_L.
Qed.

Lemma fallback_loop_absent_last fuel dcs since_dt order_col chunk headers
    max_pages g pages_scanned kept_frames s tr1 ev tr2 :
  NoDup dcs →
  trace (fallback_loop fuel dcs since_dt order_col chunk headers max_pages g
           pages_scanned kept_frames s) = tr1 ++ ev :: tr2 →
  http_error (ev_response ev) = false →
  present dcs (pd.of_records (json (ev_response ev))) = [] →
  pd.columns (pd.of_records (json (ev_response ev))) ≠ ∅ →
  tr2 = []
  ∧ ∃ earlier,
      result (fallback_loop fuel dcs since_dt order_col chunk headers max_pages g
                pages_scanned kept_frames s)
      = Ok (earlier ++ [pd.of_records (json (ev_response ev))]).
Proof.
  intros Hnd. revert g pages_scanned kept_frames s tr1.
  induction fuel as [|fuel IH]; intros g ps kf s tr1 Htr Hok Habs Hcols.
  { by destruct tr1. }
  revert Htr. rewrite fallback_loop_S.
  destruct (next_offset chunk g) as [offset|]; [|by destruct tr1].
  cbv zeta. set (q := blind_request headers order_col chunk offset).
  destruct (http_error (requests_get s q).1) eqn:Hhttp.
  { cbn [trace]. intros (_ & -> & _)%singleton_split.
    cbn [ev_response] in Hok. congruence. }
  case_bool_decide as Hnil.
  { cbn [trace]. intros (_ & -> & _)%singleton_split.
    cbn [ev_response] in Hcols. rewrite Hnil in Hcols.
    destruct Hcols. unfold pd.columns, pd.of_records; simpl.
    by rewrite gset_to_gmap_empty, dom_empty_L. }
  (* if the page at hand is the one in question, the loop stops on it *)
  assert (ev = mkEvent BlindPage q (requests_get s q).1 →
          process_page dcs since_dt (json (requests_get s q).1)
          = (pd.of_records (json (requests_get s q).1), false)
          ∧ pd.empty (pd.of_records (json (requests_get s q).1)) = false) as Hhere.
  { intros ->. cbn [ev_response] in Habs, Hcols.
    split; [by apply process_page_absent | by apply of_records_not_empty]. }
  destruct (negb _ && _) eqn:Hstop.
  - cbn [trace result]. intros (_ & Hev & ->)%singleton_split.
    split; [done|]. destruct (Hhere Hev) as [Hpage Hempty]. subst ev.
    cbn [ev_response]. rewrite Hpage. cbn [fst]. rewrite Hempty. by exists kf.
  - assert (ev ≠ mkEvent BlindPage q (requests_get s q).1) as Hne.
    { intros Hev. destruct (Hhere Hev) as [Hpage Hempty].
      rewrite Hpage in Hstop. cbn [fst snd] in Hstop. rewrite Hempty in Hstop.
      cbn [negb andb] in Hstop.
      rewrite bool_decide_true in Hstop by (by intros [? ?]%app_eq_nil). done. }
    destruct (bool_decide (max_pages ≤ ps + 1)).
    + cbn [trace]. by intros (_ & Hev & _)%singleton_split.
    + unfold prepend. cbn [trace result app]. intros Htr.
      destruct tr1 as [|b tr1]; simpl in Htr.
      * injection Htr as Hev _. by destruct Hne.
      * injection Htr as _ Htr. by apply (IH _ _ _ _ _ Htr).
Qed.

(** C9, as the code has it.  A scanned page with no candidate date column
    among its fields, and with at least one field in some record, is the
    last page scanned: no request follows it, the fetch returns, and the
    page closes the result, every row as received.  (A page whose records
    are all empty makes an empty frame; it is not kept and does not by
    itself stop the scan.) *)
Theorem page_without_candidates_is_last fuel days_back chunk app_token
    created_field max_pages s tr1 ev tr2 :
  trace (fetch_api fuel days_back chunk app_token created_field max_pages s)
  = tr1 ++ ev :: tr2 →
  ev_stage ev = BlindPage →
  http_error (ev_response ev) = false →
  present (candidates app_token created_field s)
    (pd.of_records (json (ev_response ev))) = [] →
  pd.columns (pd.of_records (json (ev_response ev))) ≠ ∅ →
  tr2 = []
  ∧ ∃ df earlier,
      result (fetch_api fuel days_back chunk app_token created_field max_pages s)
      = Ok df
      ∧ pd.rows df
        = earlier ++ ((λ r : record, pd.Obj <$> r) <$> json (ev_response ev)).
Proof.
  intros Htr Hst Hok Habs Hcols.
  assert (uses BlindPage
            (trace (fetch_api fuel days_back chunk app_token created_field
                      max_pages s))) as Hu.
  { exists ev. split; [|done]. rewrite Htr. apply elem_of_app. right. by left. }
  destruct (fetch_api_blind _ _ _ _ _ _ _ Hu) as (Herr & Hneg & Heq).
  rewrite Heq in Htr |- *. clear Heq Hu. unfold prepend in *. cbn [trace result] in *.
  destruct (negotiate_spec (candidates app_token created_field s)
              (strftime (since_dt_of days_back)) chunk (headers_of app_token)
              (after_schema app_token s)) as (o & Ho & Hn).
  fold (negotiated days_back chunk app_token created_field s) in Ho, Hn.
  apply negotiation_stages in Hn.
  apply (split_stage (λ e, ev_stage e ≠ BlindPage)) in Htr as (tr1' & -> & Htr).
  2:{ constructor; [done|]. eapply Forall_impl; [exact Hn|].
      intros e He. simpl in He. congruence. }
  2:{ intros Hne. by apply Hne. }
  revert Htr. rewrite fallback_run. cbv zeta. cbn [trace result]. intros Htr.
  assert (NoDup (candidates app_token created_field s)) as Hnd
    by apply date_cols_of_NoDup.
  destruct (fallback_loop_absent_last _ _ _ _ _ _ _ _ _ _ _ _ _ _
              Hnd Htr Hok Habs Hcols) as (-> & earlier & ->).
  split; [done|].
  eexists. exists (mjoin (pd.rows <$> earlier)). split; [done|].
  rewrite bool_decide_true by (by intros [? ?]%app_eq_nil).
  rewrite concat_rows_eq, fmap_app, join_app. simpl. by rewrite app_nil_r.
Qed.

(** ** Transport errors *)

Lemma fallback_loop_fatal fuel dcs since_dt order_col chunk headers max_pages g
    pages_scanned kept_frames s tr1 ev tr2 :
  trace (fallback_loop fuel dcs since_dt order_col chunk headers max_pages g
           pages_scanned kept_frames s) = tr1 ++ ev :: tr2 →
  http_error (ev_response ev) = true →
  tr2 = []
  ∧ result (fallback_loop fuel dcs since_dt order_col chunk headers max_pages g
              pages_scanned kept_frames s) = Raise (HTTPError (ev_response ev)).
Proof.
  revert g pages_scanned kept_frames s tr1.
  induction fuel as [|fuel IH]; intros g ps kf s tr1 Htr Hbad.
  { by destruct tr1. }
  revert Htr. rewrite fallback_loop_S.
  destruct (next_offset chunk g) as [offset|]; [|by destruct tr1].
  cbv zeta. set (q := blind_request headers order_col chunk offset).
  destruct (http_error (requests_get s q).1) eqn:Hhttp.
  { cbn [trace result]. by intros (_ & -> & ->)%singleton_split. }
  assert (∀ tr, mkEvent BlindPage q (requests_get s q).1 :: tr = tr1 ++ ev :: tr2 →
                ∃ tr1', tr1 = mkEvent BlindPage q (requests_get s q).1 :: tr1'
                        ∧ tr = tr1' ++ ev :: tr2) as Hskip.
  { intros tr Heq. destruct tr1 as [|b tr1]; simpl in Heq.
    - injection Heq as <- _. cbn [ev_response] in Hbad. congruence.
    - injection Heq as <- ->. by exists tr1. }
  case_bool_decide.
  { cbn [trace]. intros (tr1' & _ & Heq)%Hskip. by destruct tr1'. }
  destruct (negb _ && _).
  { cbn [trace]. intros (tr1' & _ & Heq)%Hskip. by destruct tr1'. }
  case_bool_decide.
  { cbn [trace]. intros (tr1' & _ & Heq)%Hskip. by destruct tr1'. }
  unfold prepend. cbn [trace result app]. intros (tr1' & _ & Heq)%Hskip.
  by apply (IH _ _ _ _ _ Heq).
Qed.

Lemma filtered_loop_fatal fuel ww wo chunk headers offset frames s tr1 ev tr2 :
  trace (filtered_loop fuel ww wo chunk headers offset frames s)
  = tr1 ++ ev :: tr2 →
  http_error (ev_response ev) = true →
  tr2 = []
  ∧ result (filtered_loop fuel ww wo chunk headers offset frames s)
    = Raise (HTTPError (ev_response ev)).
Proof.
  revert offset frames s tr1.
  induction fuel as [|fuel IH]; intros offset frames s tr1 Htr Hbad.
  { by destruct tr1. }
  revert Htr. rewrite filtered_loop_S.
  cbv zeta. set (q := filtered_request headers ww wo chunk offset).
  destruct (http_error (requests_get s q).1) eqn:Hhttp.
  { cbn [trace result]. by intros (_ & -> & ->)%singleton_split. }
  assert (∀ tr, mkEvent FilteredPage q (requests_get s q).1 :: tr = tr1 ++ ev :: tr2 →
                ∃ tr1', tr1 = mkEvent FilteredPage q (requests_get s q).1 :: tr1'
                        ∧ tr = tr1' ++ ev :: tr2) as Hskip.
  { intros tr Heq. destruct tr1 as [|b tr1]; simpl in Heq.
    - injection Heq as <- _. cbn [ev_response] in Hbad. congruence.
    - injection Heq as <- ->. by exists tr1. }
  case_bool_decide.
  { cbn [trace]. intros (tr1' & _ & Heq)%Hskip. by destruct tr1'. }
  case_bool_decide.
  { cbn [trace]. intros (tr1' & _ & Heq)%Hskip. by destruct tr1'. }
  unfold prepend. cbn [trace result app]. intros (tr1' & _ & Heq)%Hskip.
  by apply (IH _ _ _ _ Heq).
Qed.

(** A non-success HTTP status answered to the schema probe or to a page
    request of either pager is fatal to the whole fetch and is not
    retried: no exchange follows it and the fetch raises the HTTP error of
    that response. *)
Lemma refused_request_is_fatal fuel days_back chunk app_token created_field
    max_pages s tr1 ev tr2 :
  trace (fetch_api fuel days_back chunk app_token created_field max_pages s)
  = tr1 ++ ev :: tr2 →
  ev_stage ev ≠ FilterProbe →
  http_error (ev_response ev) = true →
  tr2 = []
  ∧ result (fetch_api fuel days_back chunk app_token created_field max_pages s)
    = Raise (HTTPError (ev_response ev)).
Proof.
  rewrite fetch_api_run. cbv zeta.
  set (q := schema_request (headers_of app_token)).
  set (ev0 := mkEvent SchemaProbe q (requests_get s q).1).
  destruct (http_error (requests_get s q).1) eqn:Hhttp.
  { cbn [trace result]. by intros (_ & -> & ->)%singleton_split. }
  destruct (date_cols_error _ _) as [msg|].
  { cbn [trace result]. intros (_ & -> & _)%singleton_split _ Hbad.
    unfold ev0 in Hbad. cbn [ev_response] in Hbad. congruence. }
  destruct (cutoff_overflows days_back).
  { cbn [trace result]. intros (_ & -> & _)%singleton_split _ Hbad.
    unfold ev0 in Hbad. cbn [ev_response] in Hbad. congruence. }
  set (dcs := date_cols_of created_field (schema_of (json (requests_get s q).1))).
  destruct (negotiate_spec dcs (strftime (since_dt_of days_back)) chunk
              (headers_of app_token) (requests_get s q).2) as (o & Ho & Hn).
  apply negotiation_stages in Hn.
  rewrite Ho.
  assert (∀ tr, (ev0 :: trace (negotiate dcs (strftime (since_dt_of days_back))
                                 chunk (headers_of app_token) (requests_get s q).2))
                ++ tr = tr1 ++ ev :: tr2 →
                ev_stage ev ≠ FilterProbe → http_error (ev_response ev) = true →
                ∃ tr1', tr = tr1' ++ ev :: tr2) as Hskip.
  { intros tr Heq Hst Hbad.
    apply (split_stage (λ e, e = ev0 ∨ ev_stage e = FilterProbe)) in Heq
      as (tr1' & _ & Heq); [by exists tr1'| |].
    - constructor; [by left|]. eapply Forall_impl; [exact Hn|]. by right.
    - intros [-> | ?]; [|done]. unfold ev0 in Hbad. cbn [ev_response] in Hbad.
      congruence. }
  destruct o as [[[ww wo] fr]|]; unfold prepend; cbn [trace result];
    intros Htr Hst Hbad; destruct (Hskip _ Htr Hst Hbad) as (tr1' & Heq).
  - destruct (server_filtered_run fuel ww wo fr chunk (headers_of app_token)
                (remote (negotiate dcs (strftime (since_dt_of days_back)) chunk
                           (headers_of app_token) (requests_get s q).2)))
      as (offset & frames & Hrun).
    cbv zeta in Hrun. rewrite Hrun in Heq |- *. cbn [trace result] in *.
    destruct (filtered_loop_fatal _ _ _ _ _ _ _ _ _ _ _ Heq Hbad) as [-> ->].
    done.
  - rewrite fallback_run in Heq |- *. cbv zeta in *. cbn [trace result] in *.
    destruct (fallback_loop_fatal _ _ _ _ _ _ _ _ _ _ _ _ _ _ Heq Hbad)
      as [-> ->].
    done.
Qed.

(** ** Pages whose candidate columns do not parse *)

(** C1, what the code does.  A page that has a candidate date column, and
    in which no value of any candidate column parses, contributes no row:
    the coerced columns are datetime columns full of [NaT], so the mask of
    lines 173-177 exists and is false everywhere.  The branch of line 183
    that keeps the page is only reached when the page has no candidate
    column at all. *)
Theorem unparseable_page_is_dropped dcs since_dt (page : list record) :
  NoDup dcs →
  present dcs (pd.of_records page) ≠ [] →
  (∀ c i, c ∈ present dcs (pd.of_records page) →
          parsed_cell (pd.of_records page) c i = pd.NaT) →
  pd.rows (process_page dcs since_dt page).1 = []
  ∧ (process_page dcs since_dt page).2 = false.
Proof.
  intros Hnd Hp Hnat.
  destruct (process_page_spec dcs since_dt page Hnd) as [-> ->].
  rewrite bool_decide_false by done. cbn [pd.rows]. split.
  - destruct (filter _ _) as [|r l] eqn:Hf; [done|]. exfalso.
    assert (r ∈ filter
              (λ r, Is_true (row_newer (present dcs (pd.of_records page)) since_dt r))
              (pd.rows (parsed_frame dcs (pd.of_records page)))) as Hr
      by (rewrite Hf; by left).
    apply list_elem_of_filter in Hr as [Hnew Hr].
    apply Is_true_true in Hnew. unfold row_newer in Hnew.
    apply existsb_exists in Hnew as (c & Hc & Hge). apply list_elem_of_In in Hc.
    apply list_elem_of_lookup in Hr as (i & Hi).
    unfold parsed_frame in Hi; cbn [pd.rows] in Hi.
    apply list_lookup_imap_Some in Hi as (r0 & _ & ->).
    rewrite parsed_row_lookup in Hge.
    apply list_elem_of_filter in Hc as Hc'. destruct Hc' as [Hin Hdc].
    rewrite bool_decide_true in Hge by done.
    by rewrite (Hnat c i Hc) in Hge.
  - destruct (parse_candidates dcs since_dt (pd.of_records page)).2 eqn:Hany; [|done].
    apply parse_candidates_any in Hany as (c & i & t & Hc & _ & Hcell & _); [|done].
    by rewrite (Hnat c i Hc) in Hcell.
Qed.

(** ** Configuration errors *)

(** C3.  When a non-empty [created_field] is given and the schema probe,
    answered with success, does not show that column, the fetch exits at
    once with the message naming the column and the columns it was checked
    against; the schema probe is its only request. *)
Theorem missing_created_field_is_fatal fuel days_back chunk app_token
    (created_field : string) max_pages s :
  created_field ≠ "" →
  http_error (ev_response (schema_event app_token s)) = false →
  created_field ∉ observed_schema app_token s →
  fetch_api fuel days_back chunk app_token (Some created_field) max_pages s
  = mkRun [schema_event app_token s] (after_schema app_token s)
      (Raise (SystemExit (created_field_missing created_field
                            (observed_schema app_token s)))).
Proof.
  intros Hne Hok Hin. rewrite fetch_api_run. cbv zeta.
  fold (schema_event app_token s) (after_schema app_token s).
  change (requests_get s (schema_request (headers_of app_token))).1
    with (ev_response (schema_event app_token s)).
  fold (observed_schema app_token s).
  rewrite Hok. unfold date_cols_error. cbn [truthy default].
  rewrite (bool_decide_true (created_field ≠ "")) by done.
  by rewrite bool_decide_true.
Qed.

(** C8, as the code has it.  When the schema probe succeeds with zero
    records, [_sample_columns] returns the empty set without failing; the
    fetch then exits with a configuration error, the schema probe being its
    only request: the override is not in the empty schema, and without an
    override no candidate column is. *)
Theorem empty_schema_is_fatal fuel days_back chunk app_token created_field
    max_pages s :
  http_error (ev_response (schema_event app_token s)) = false →
  json (ev_response (schema_event app_token s)) = [] →
  result (_sample_columns (headers_of app_token) s) = Ok ∅
  ∧ fetch_api fuel days_back chunk app_token created_field max_pages s
    = mkRun [schema_event app_token s] (after_schema app_token s)
        (Raise (SystemExit
                  (if truthy created_field
                   then created_field_missing (default "" created_field) ∅
                   else no_date_column ∅))).
Proof.
  intros Hok Hjson. split.
  - rewrite _sample_columns_run. cbv zeta. cbn [result].
    change (requests_get s (schema_request (headers_of app_token))).1
      with (ev_response (schema_event app_token s)).
    by rewrite Hok, Hjson.
  - rewrite fetch_api_run. cbv zeta.
    fold (schema_event app_token s) (after_schema app_token s).
    change (requests_get s (schema_request (headers_of app_token))).1
      with (ev_response (schema_event app_token s)).
    rewrite Hok, Hjson. cbn [schema_of]. unfold date_cols_error.
    destruct (truthy created_field).
    + rewrite bool_decide_true by set_solver. done.
    + rewrite bool_decide_true; [done|].
      generalize DATE_FIELD_CANDIDATES. intros l.
      induction l as [|c l IH]; [done|].
      rewrite filter_cons. case_decide; [set_solver | done].
Qed.

End properties.

(* ================================================================== *)
(** * The properties on the scripted runs *)

Lemma unparseable_page_is_dropped_witness :
  NoDup ["created_date"]
  ∧ present ["created_date"] (pd.of_records [ticket "SR1" (VStr "n/a")]) ≠ []
  ∧ pd.rows (process_page (H := scripted) ["created_date"] (10 * 86400000000000)
               [ticket "SR1" (VStr "n/a")]).1 = []
  ∧ (process_page (H := scripted) ["created_date"] (10 * 86400000000000)
       [ticket "SR1" (VStr "n/a")]).2 = false.
Proof.
  assert (NoDup ["created_date"]) as Hnd
    by (apply (bool_decide_unpack _); vm_compute; exact I).
  assert (present ["created_date"] (pd.of_records [ticket "SR1" (VStr "n/a")]) ≠ [])
    as Hp by (vm_compute; discriminate).
  split; [exact Hnd|]. split; [exact Hp|].
  apply (unparseable_page_is_dropped (H := scripted)); [exact Hnd | exact Hp |].
  intros c i Hc. vm_compute in Hc. apply list_elem_of_singleton in Hc. subst c.
  destruct i; vm_compute; reflexivity.
Defined.

(** C1 on a whole fetch: the only unfiltered page has one record, whose
    [created_date] does not parse; the fetch returns the empty frame. *)
Lemma unparseable_page_fetch :
  received (filter (λ ev, ev_stage ev = BlindPage) (trace unparseable_run))
  = [ticket "SR1" (VStr "n/a")]
  ∧ result unparseable_run = Ok pd.empty_frame.
Proof. split; vm_compute; reflexivity. Qed.

Lemma fallback_returns_only_newer_witness :
  uses BlindPage (trace blind_run)
  ∧ result blind_run = Ok blind_frame
  ∧ blind_row ∈ pd.rows blind_frame
  ∧ ((∃ c t, c ∈ candidates (H := scripted) None None blind_script
             ∧ blind_row !! c = Some (pd.Timestamp (Some t))
             ∧ since_dt_of (H := scripted) 90 ≤ t)
     ∨ (∀ c t, c ∈ candidates (H := scripted) None None blind_script →
               blind_row !! c ≠ Some (pd.Timestamp (Some t)))).
Proof.
  assert (uses BlindPage (trace blind_run)) as Hu
    by (apply (bool_decide_unpack _); vm_compute; exact I).
  assert (result blind_run = Ok blind_frame) as Hres by (vm_compute; reflexivity).
  assert (blind_row ∈ pd.rows blind_frame) as Hin by (simpl; left).
  split; [exact Hu|]. split; [exact Hres|]. split; [exact Hin|].
  exact (fallback_returns_only_newer (H := scripted) 10 90 2 None None 30
           blind_script blind_frame blind_row Hu Hres Hin).
Defined.

Lemma missing_created_field_is_fatal_witness :
  "opened" ≠ ""
  ∧ http_error (ev_response (schema_event (H := scripted) None blind_script)) = false
  ∧ ("opened" ∉ observed_schema (H := scripted) None blind_script)
  ∧ opened_run
    = mkRun [schema_event (H := scripted) None blind_script]
        (after_schema (H := scripted) None blind_script)
        (Raise (SystemExit
                  (created_field_missing (H := scripted) "opened"
                     (observed_schema (H := scripted) None blind_script)))).
Proof.
  assert ("opened" ≠ "") as Hne by discriminate.
  assert (http_error (ev_response (schema_event (H := scripted) None blind_script)) = false)
    as Hok by (vm_compute; reflexivity).
  assert ("opened" ∉ observed_schema (H := scripted) None blind_script) as Hin
    by (apply (bool_decide_unpack _); vm_compute; exact I).
  split; [exact Hne|]. split; [exact Hok|]. split; [exact Hin|].
  exact (missing_created_field_is_fatal (H := scripted) 10 90 2 None "opened" 30
           blind_script Hne Hok Hin).
Defined.


Lemma fallback_page_cap_witness :
  (Z.to_nat (Z.max 1 30) ≤ 30)%nat
  ∧ uses BlindPage (trace (fetch_api (H := scripted) 30 90 2 None None 30 blind_script))
  ∧ Z.of_nat (blind_requests
                (trace (fetch_api (H := scripted) 30 90 2 None None 30 blind_script)))
    ≤ Z.max 1 30
  ∧ result (fetch_api (H := scripted) 30 90 2 None None 30 blind_script) ≠ OutOfFuel.
Proof.
  assert ((Z.to_nat (Z.max 1 30) ≤ 30)%nat) as Hfuel by (vm_compute; lia).
  assert (uses BlindPage
            (trace (fetch_api (H := scripted) 30 90 2 None None 30 blind_script))) as Hu
    by (apply (bool_decide_unpack _); vm_compute; exact I).
  split; [exact Hfuel|]. split; [exact Hu|].
  destruct (fallback_page_cap (H := scripted) 30 90 2 None None 30 blind_script)
    as [Hcap Hends].
  split; [exact Hcap | exact (Hends Hfuel Hu)].
Defined.

Lemma empty_schema_is_fatal_witness :
  http_error (ev_response (schema_event (H := scripted) None empty_script)) = false
  ∧ json (ev_response (schema_event (H := scripted) None empty_script)) = []
  ∧ result (_sample_columns (H := scripted) (headers_of None) empty_script) = Ok ∅
  ∧ empty_run
    = mkRun [schema_event (H := scripted) None empty_script]
        (after_schema (H := scripted) None empty_script)
        (Raise (SystemExit (no_date_column (H := scripted) ∅))).
Proof.
  assert (http_error (ev_response (schema_event (H := scripted) None empty_script)) = false)
    as Hok by (vm_compute; reflexivity).
  assert (json (ev_response (schema_event (H := scripted) None empty_script)) = [])
    as Hjson by (vm_compute; reflexivity).
  split; [exact Hok|]. split; [exact Hjson|].
  exact (empty_schema_is_fatal (H := scripted) 10 90 50000 None None 30
           empty_script Hok Hjson).
Defined.

Lemma page_without_candidates_is_last_witness :
  trace undated_run = undated_prefix ++ undated_event :: []
  ∧ ev_stage undated_event = BlindPage
  ∧ http_error (ev_response undated_event) = false
  ∧ present (candidates (H := scripted) None None undated_script)
      (pd.of_records (json (ev_response undated_event))) = []
  ∧ pd.columns (pd.of_records (json (ev_response undated_event))) ≠ ∅
  ∧ ([] = ([] : list event)
     ∧ ∃ df earlier,
         result undated_run = Ok df
         ∧ pd.rows df
           = earlier
             ++ ((λ r : record, pd.Obj <$> r) <$> json (ev_response undated_event))).
Proof.
  assert (trace undated_run = undated_prefix ++ undated_event :: []) as Htr
    by (vm_compute; reflexivity).
  assert (ev_stage undated_event = BlindPage) as Hst by reflexivity.
  assert (http_error (ev_response undated_event) = false) as Hok
    by (vm_compute; reflexivity).
  assert (present (candidates (H := scripted) None None undated_script)
            (pd.of_records (json (ev_response undated_event))) = []) as Habs
    by (vm_compute; reflexivity).
  assert (pd.columns (pd.of_records (json (ev_response undated_event))) ≠ ∅)
    as Hcols by (apply (bool_decide_unpack _); vm_compute; exact I).
  split; [exact Htr|]. split; [exact Hst|]. split; [exact Hok|].
  split; [exact Habs|]. split; [exact Hcols|].
  exact (page_without_candidates_is_last (H := scripted) 10 90 2 None None 30
           undated_script undated_prefix undated_event [] Htr Hst Hok Habs Hcols).
Defined.

Lemma returned_field_values_witness :
  result blind_run = Ok blind_frame
  ∧ blind_row ∈ pd.rows blind_frame
  ∧ (uses BlindPage (trace blind_run) →
     ∃ ev i rec,
       ev ∈ trace blind_run ∧ ev_stage ev = BlindPage
       ∧ json (ev_response ev) !! i = Some rec
       ∧ ∀ k, blind_row !! k
              = if bool_decide (k ∈ candidates (H := scripted) None None blind_script
                                ∧ k ∈ pd.columns (pd.of_records (json (ev_response ev))))
                then Some (parsed_cell (H := scripted)
                             (pd.of_records (json (ev_response ev))) k i)
                else pd.Obj <$> rec !! k)
  ∧ (uses FilteredPage (trace blind_run) →
     ∃ ev rec, ev ∈ trace blind_run ∧ rec ∈ json (ev_response ev)
               ∧ blind_row = pd.Obj <$> rec).
Proof.
  assert (result blind_run = Ok blind_frame) as Hres by (vm_compute; reflexivity).
  assert (blind_row ∈ pd.rows blind_frame) as Hin by (simpl; left).
  split; [exact Hres|]. split; [exact Hin|].
  exact (returned_field_values (H := scripted) 10 90 2 None None 30
           blind_script blind_frame blind_row Hres Hin).
Defined.

(** C7 on two runs: after a refusal that reads as a type mismatch the cast
    probe follows, and is accepted here; after any other refusal no cast
    probe is sent and, the candidates being exhausted, nothing is settled. *)
Lemma negotiation_cast_after_mismatch :
  trace (negotiated (H := scripted) 90 2 None None filtered_script)
  = [ raw_refusal "Type mismatch for op$>=" 400;
      cast_probe None (pretty (10 * 86400000000000)) 2 "created_date"
        (ok [ticket "SR1" (VStr "01/11/1970"); ticket "SR2" (VStr "01/12/1970")]) ]
  ∧ result (negotiated (H := scripted) 90 2 None None filtered_script)
    = Ok (Some (cast_where "created_date" (pretty (10 * 86400000000000)),
                cast_order "created_date",
                [ticket "SR1" (VStr "01/11/1970"); ticket "SR2" (VStr "01/12/1970")])).
Proof. split; vm_compute; reflexivity. Qed.

Lemma negotiation_no_cast_after_other_refusal :
  trace (negotiated (H := scripted) 90 2 None None undated_script)
  = [raw_refusal "internal error" 500]
  ∧ result (negotiated (H := scripted) 90 2 None None undated_script) = Ok None.
Proof. split; vm_compute; reflexivity. Qed.

(** ** Where the specification and the code part *)

(** C5: with a page cap of zero the fallback pager still requests and
    scans one page. *)
Lemma fallback_page_cap_counterexample :
  uses BlindPage (trace (fetch_api (H := scripted) 10 90 1 None None 0 capped_script))
  ∧ ¬ (Z.of_nat (blind_requests
                   (trace (fetch_api (H := scripted) 10 90 1 None None 0 capped_script)))
       ≤ 0).
Proof.
  split; [apply (bool_decide_unpack _); vm_compute; exact I|].
  vm_compute. intros Hle. by apply Hle.
Qed.

(** C8: the schema probe succeeds with zero records, and the fetch exits
    with a fatal error. *)
Lemma empty_schema_counterexample :
  http_error (ev_response (schema_event (H := scripted) None empty_script)) = false
  ∧ json (ev_response (schema_event (H := scripted) None empty_script)) = []
  ∧ ∃ msg, result empty_run = Raise (SystemExit msg).
Proof.
  split; [vm_compute; reflexivity|]. split; [vm_compute; reflexivity|].
  eexists. vm_compute. reflexivity.
Qed.

(** C9: the first unfiltered page has no candidate date column (its one
    record has no field at all), and another page is requested after it. *)
Lemma page_without_candidates_counterexample :
  ∃ tr1 ev tr2,
    trace blank_run = tr1 ++ ev :: tr2
    ∧ ev_stage ev = BlindPage
    ∧ http_error (ev_response ev) = false
    ∧ json (ev_response ev) = [∅]
    ∧ present (candidates (H := scripted) None None blank_script)
        (pd.of_records (json (ev_response ev))) = []
    ∧ tr2 ≠ [].
Proof.
  exists (take 2 (trace blank_run)),
         (mkEvent BlindPage (blind_request None (Some "created_date") 1 0) (ok [∅])),
         (drop 3 (trace blank_run)).
  split; [vm_compute; reflexivity|]. split; [reflexivity|].
  split; [vm_compute; reflexivity|]. split; [reflexivity|].
  split; [vm_compute; reflexivity|]. vm_compute. discriminate.
Qed.

(* ================================================================== *)
(** * Further properties of [fetch_api] *)

Section coverage.
Context `{H : Externals}.

(** ** The stages of a fetch *)

Lemma at_stage_app st tr1 tr2 :
  at_stage st (tr1 ++ tr2) = at_stage st tr1 ++ at_stage st tr2.
Proof. apply filter_app. Qed.

Lemma at_stage_all st tr :
  Forall (λ ev, ev_stage ev = st) tr → at_stage st tr = tr.
Proof.
  induction 1 as [|ev tr Hev _ IH]; [done|].
  unfold at_stage. rewrite filter_cons_True by done. f_equal. exact IH.
Qed.

Lemma at_stage_none st st' tr :
  st ≠ st' → Forall (λ ev, ev_stage ev = st') tr → at_stage st tr = [].
Proof.
  intros Hne. induction 1 as [|ev tr Hev _ IH]; [done|].
  unfold at_stage. rewrite filter_cons_False by congruence. exact IH.
Qed.

Lemma at_stage_pages st ev0 probes pages :
  ev_stage ev0 = SchemaProbe →
  Forall (λ ev, ev_stage ev = FilterProbe) probes →
  Forall (λ ev, ev_stage ev = st) pages →
  st ≠ SchemaProbe → st ≠ FilterProbe →
  at_stage st ((ev0 :: probes) ++ pages) = pages
  ∧ at_stage FilterProbe ((ev0 :: probes) ++ pages) = probes.
Proof.
  intros H0 Hprobes Hpages Hne1 Hne2.
  change (ev0 :: probes) with ([ev0] ++ probes). rewrite !at_stage_app.
  rewrite (at_stage_none st SchemaProbe [ev0]) by (done || by constructor).
  rewrite (at_stage_none st FilterProbe probes) by done.
  rewrite (at_stage_all st pages) by done.
  rewrite (at_stage_none FilterProbe SchemaProbe [ev0]) by (done || by constructor).
  rewrite (at_stage_all FilterProbe probes) by done.
  rewrite (at_stage_none FilterProbe st pages) by done.
  split; [done|]. simpl. by rewrite app_nil_r.
Qed.

Lemma uses_at_stage st tr : uses st tr ↔ at_stage st tr ≠ [].
Proof.
  unfold uses, at_stage. split.
  - intros (ev & Hin & Hst) Hnil.
    by apply (filter_nil_not_elem_of _ _ ev Hnil Hst).
  - intros Hne. destruct (filter _ tr) as [|ev l] eqn:Hf; [done|].
    assert (ev ∈ filter (λ ev, ev_stage ev = st) tr) as Hin
      by (rewrite Hf; left).
    apply list_elem_of_filter in Hin as [? ?]. by exists ev.
Qed.

(** A fetch is one of five things: a refused schema probe, a schema that
    lines 78-89 reject, a window that line 92 cannot compute, a negotiation
    that settles followed by the server-filtered pager, or one that does
    not followed by the fallback. *)
Lemma fetch_api_cases fuel days_back chunk app_token created_field max_pages s :
  let f := fetch_api fuel days_back chunk app_token created_field max_pages s in
  let ev0 := schema_event app_token s in
  let n := negotiated days_back chunk app_token created_field s in
  let headers := headers_of app_token in
  (http_error (ev_response ev0) = true
   ∧ f = mkRun [ev0] (after_schema app_token s)
           (Raise (HTTPError (ev_response ev0))))
  ∨ (http_error (ev_response ev0) = false
     ∧ ∃ msg, date_cols_error created_field (observed_schema app_token s) = Some msg
              ∧ f = mkRun [ev0] (after_schema app_token s) (Raise (SystemExit msg)))
  ∨ (http_error (ev_response ev0) = false
     ∧ date_cols_error created_field (observed_schema app_token s) = None
     ∧ cutoff_overflows days_back = true
     ∧ f = mkRun [ev0] (after_schema app_token s) (Raise OverflowError))
  ∨ (http_error (ev_response ev0) = false
     ∧ date_cols_error created_field (observed_schema app_token s) = None
     ∧ ∃ ww wo first_rows,
         result n = Ok (Some (ww, wo, first_rows))
         ∧ negotiation headers (strftime (since_dt_of days_back)) chunk
             (candidates app_token created_field s) (trace n)
             (Some (ww, wo, first_rows))
         ∧ f = prepend (ev0 :: trace n)
                 (server_filtered fuel ww wo first_rows chunk headers (remote n)))
  ∨ (http_error (ev_response ev0) = false
     ∧ date_cols_error created_field (observed_schema app_token s) = None
     ∧ result n = Ok None
     ∧ negotiation headers (strftime (since_dt_of days_back)) chunk
         (candidates app_token created_field s) (trace n) None
     ∧ f = prepend (ev0 :: trace n)
             (fallback fuel (candidates app_token created_field s)
                (observed_schema app_token s) (since_dt_of days_back) chunk
                headers max_pages (remote n))).
Proof.
  cbv zeta. rewrite fetch_api_run. cbv zeta.
  fold (schema_event app_token s) (after_schema app_token s).
  change (schema_of (json (requests_get s (schema_request (headers_of app_token))).1))
    with (observed_schema app_token s).
  change (requests_get s (schema_request (headers_of app_token))).1
    with (ev_response (schema_event app_token s)).
  destruct (http_error _) eqn:Herr0; [by left|]. right.
  destruct (date_cols_error _ _) as [msg|] eqn:Herr.
  { left. split; [done|]. by exists msg. }
  right.
  destruct (cutoff_overflows days_back) eqn:Hov; [by left|]. right.
  fold (candidates app_token created_field s).
  fold (negotiated days_back chunk app_token created_field s).
  destruct (negotiate_spec (candidates app_token created_field s)
              (strftime (since_dt_of days_back)) chunk (headers_of app_token)
              (after_schema app_token s)) as (o & Ho & Hneg).
  fold (negotiated days_back chunk app_token created_field s) in Ho, Hneg.
  rewrite Ho. destruct o as [[[ww wo] fr]|].
  - left. do 2 (split; [done|]). by exists ww, wo, fr.
  - right. done.
Qed.

(** ** The candidates *)

Lemma candidates_observed created_field cols c :
  date_cols_error created_field cols = None →
  c ∈ date_cols_of created_field cols → c ∈ cols.
Proof.
  unfold date_cols_error, date_cols_of. destruct (truthy created_field).
  - destruct (bool_decide (default "" created_field ∉ cols)) eqn:Hb; [done|].
    intros _ ->%list_elem_of_singleton.
    apply bool_decide_eq_false in Hb. by apply dec_stable.
  - intros _ Hc. by apply list_elem_of_filter in Hc as [? _].
Qed.

Lemma date_cols_of_length created_field cols :
  (length (date_cols_of created_field cols) ≤ 8)%nat.
Proof.
  unfold date_cols_of. destruct (truthy _); [simpl; lia|].
  etrans; [apply length_filter|]. done.
Qed.

Lemma negotiation_length headers since_str chunk dcs tr o :
  negotiation headers since_str chunk dcs tr o →
  (length tr ≤ 2 * length dcs)%nat.
Proof. induction 1; simpl in *; lia. Qed.

(** X1 — Whatever happens, the exchanges of a fetch are the schema probe,
    then the filter probes of the negotiation, then page requests of one
    pager only: never of both.  There are at most two probes per candidate
    column, hence at most sixteen. *)
Theorem fetch_trace_shape fuel days_back chunk app_token created_field
    max_pages s :
  ∃ probes pages,
    trace (fetch_api fuel days_back chunk app_token created_field max_pages s)
    = schema_event app_token s :: probes ++ pages
    ∧ Forall (λ ev, ev_stage ev = FilterProbe) probes
    ∧ (length probes ≤ 2 * length (candidates app_token created_field s))%nat
    ∧ (length probes ≤ 16)%nat
    ∧ (Forall (λ ev, ev_stage ev = FilteredPage) pages
       ∨ Forall (λ ev, ev_stage ev = BlindPage) pages).
Proof.
  destruct (fetch_api_cases fuel days_back chunk app_token created_field
              max_pages s)
    as [[_ ->]|[(_ & msg & _ & ->)|[(_ & _ & _ & ->)
      |[(_ & _ & ww & wo & fr & _ & Hneg & ->)|(_ & _ & _ & Hneg & ->)]]]].
  - exists [], []. cbn [trace]. repeat split; simpl; try lia; auto.
  - exists [], []. cbn [trace]. repeat split; simpl; try lia; auto.
  - exists [], []. cbn [trace]. repeat split; simpl; try lia; auto.
  - eexists _, _. unfold prepend. cbn [trace].
    split; [reflexivity|].
    split; [by eapply negotiation_stages|].
    pose proof (negotiation_length _ _ _ _ _ _ Hneg) as Hlen.
    pose proof (date_cols_of_length created_field (observed_schema app_token s)).
    fold (candidates app_token created_field s) in *.
    split; [done|]. split; [lia|].
    left. apply server_filtered_stages.
  - eexists _, _. unfold prepend. cbn [trace].
    split; [reflexivity|].
    split; [by eapply negotiation_stages|].
    pose proof (negotiation_length _ _ _ _ _ _ Hneg) as Hlen.
    pose proof (date_cols_of_length created_field (observed_schema app_token s)).
    fold (candidates app_token created_field s) in *.
    split; [done|]. split; [lia|].
    right. apply fallback_stages.
Qed.

(** ** The two pagers, seen as loops *)

Lemma server_filtered_loop fuel ww wo first_rows chunk headers s :
  let l := filtered_loop fuel ww wo chunk headers (Z.of_nat (length first_rows))
             (if bool_decide (first_rows ≠ []) then [pd.of_records first_rows]
              else []) s in
  server_filtered fuel ww wo first_rows chunk headers s
  = mkRun (trace l) (remote l)
      (match result l with
       | Ok frames =>
           Ok (if bool_decide (frames ≠ []) then pd.concat frames
               else pd.empty_frame)
       | Raise e => Raise e
       | OutOfFuel => OutOfFuel
       end).
Proof.
  cbv zeta. unfold server_filtered.
  destruct first_rows as [|r0 rest].
  - rewrite !bool_decide_false by (by intros ?). cbn [length Z.of_nat].
    unfold mbind, M_bind. cbv zeta.
    destruct (result _); unfold prepend, mret, M_ret; cbn [result trace remote];
      [|done..].
    by rewrite app_nil_r.
  - rewrite !bool_decide_true by done.
    unfold mbind, M_bind. cbv zeta.
    destruct (result _); unfold prepend, mret, M_ret; cbn [result trace remote];
      [|done..].
    by rewrite app_nil_r.
Qed.

Lemma filter_all {A} (P : A → Prop) `{∀ x, Decision (P x)} (l : list A) :
  Forall P l → filter P l = l.
Proof.
  induction 1 as [|x l Hx _ IH]; [done|].
  rewrite filter_cons_True by done. by f_equal.
Qed.

(** A fetch that pages blindly, taken apart. *)
Lemma blind_anatomy fuel days_back chunk app_token created_field max_pages s :
  let f := fetch_api fuel days_back chunk app_token created_field max_pages s in
  let n := negotiated days_back chunk app_token created_field s in
  let dcs := candidates app_token created_field s in
  let l := fallback_loop fuel dcs (since_dt_of days_back) (head dcs) chunk
             (headers_of app_token) max_pages (Fresh 0) 0 [] (remote n) in
  uses BlindPage (trace f) →
  date_cols_error created_field (observed_schema app_token s) = None
  ∧ negotiation (headers_of app_token) (strftime (since_dt_of days_back)) chunk
      dcs (trace n) None
  ∧ trace f = schema_event app_token s :: trace n ++ trace l
  ∧ at_stage BlindPage (trace f) = trace l
  ∧ at_stage FilterProbe (trace f) = trace n
  ∧ result f = match result l with
               | Ok kept_frames =>
                   Ok (if bool_decide (kept_frames ≠ [])
                       then pd.concat kept_frames else pd.empty_frame)
               | Raise e => Raise e
               | OutOfFuel => OutOfFuel
               end.
Proof.
  cbv zeta. intros Hu.
  assert (¬ uses BlindPage [schema_event app_token s]) as Hno.
  { intros (ev & ->%list_elem_of_singleton & Hst). done. }
  destruct (fetch_api_cases fuel days_back chunk app_token created_field
              max_pages s)
    as [[_ Hf]|[(_ & msg & _ & Hf)|[(_ & _ & _ & Hf)
      |[(_ & _ & ww & wo & fr & _ & Hneg & Hf)|(_ & Herr & _ & Hneg & Hf)]]]];
    rewrite Hf in Hu |- *; cbn [trace prepend] in Hu; try done.
  - exfalso. apply uses_app in Hu as [Hu|Hu].
    + apply uses_cons in Hu as [Hu|Hu]; [done|].
      revert Hu. eapply not_uses; [|by eapply negotiation_stages]. done.
    + revert Hu. eapply not_uses; [|by apply server_filtered_stages]. done.
  - clear Hu Hf. rewrite fallback_run. cbv zeta.
    rewrite (filter_all (λ dc, dc ∈ observed_schema app_token s)).
    2:{ apply Forall_forall. intros c Hc. by eapply candidates_observed. }
    unfold prepend. cbn [trace result].
    pose proof (negotiation_stages _ _ _ _ _ _ Hneg) as Hst.
    pose proof (fallback_loop_stages fuel (candidates app_token created_field s)
                  (since_dt_of days_back)
                  (head (candidates app_token created_field s)) chunk
                  (headers_of app_token) max_pages (Fresh 0) 0 []
                  (remote (negotiated days_back chunk app_token created_field s)))
      as Hbl.
    split; [done|]. split; [done|]. split; [done|].
    destruct (at_stage_pages BlindPage (schema_event app_token s) _ _
                eq_refl Hst Hbl) as [-> ->]; done.
Qed.

(** A fetch that pages with the negotiated filter, taken apart. *)
Lemma filtered_anatomy fuel days_back chunk app_token created_field max_pages s :
  let f := fetch_api fuel days_back chunk app_token created_field max_pages s in
  let n := negotiated days_back chunk app_token created_field s in
  let dcs := candidates app_token created_field s in
  uses FilteredPage (trace f) →
  ∃ ww wo first_rows,
    let l := filtered_loop fuel ww wo chunk (headers_of app_token)
               (Z.of_nat (length first_rows))
               (if bool_decide (first_rows ≠ []) then [pd.of_records first_rows]
                else []) (remote n) in
    date_cols_error created_field (observed_schema app_token s) = None
    ∧ negotiation (headers_of app_token) (strftime (since_dt_of days_back)) chunk
        dcs (trace n) (Some (ww, wo, first_rows))
    ∧ trace f = schema_event app_token s :: trace n ++ trace l
    ∧ at_stage FilteredPage (trace f) = trace l
    ∧ at_stage FilterProbe (trace f) = trace n
    ∧ result f = match result l with
                 | Ok frames =>
                     Ok (if bool_decide (frames ≠ [])
                         then pd.concat frames else pd.empty_frame)
                 | Raise e => Raise e
                 | OutOfFuel => OutOfFuel
                 end.
Proof.
  cbv zeta. intros Hu.
  assert (¬ uses FilteredPage [schema_event app_token s]) as Hno.
  { intros (ev & ->%list_elem_of_singleton & Hst). done. }
  destruct (fetch_api_cases fuel days_back chunk app_token created_field
              max_pages s)
    as [[_ Hf]|[(_ & msg & _ & Hf)|[(_ & _ & _ & Hf)
      |[(_ & Herr & ww & wo & fr & _ & Hneg & Hf)|(_ & _ & _ & Hneg & Hf)]]]];
    rewrite Hf in Hu |- *; cbn [trace prepend] in Hu; try done.
  - clear Hu Hf. exists ww, wo, fr. rewrite server_filtered_loop. cbv zeta.
    unfold prepend. cbn [trace result].
    pose proof (negotiation_stages _ _ _ _ _ _ Hneg) as Hst.
    pose proof (filtered_loop_stages fuel ww wo chunk (headers_of app_token)
                  (Z.of_nat (length fr))
                  (if bool_decide (fr ≠ []) then [pd.of_records fr] else [])
                  (remote (negotiated days_back chunk app_token created_field s)))
      as Hfl.
    split; [done|]. split; [done|]. split; [done|].
    destruct (at_stage_pages FilteredPage (schema_event app_token s) _ _
                eq_refl Hst Hfl) as [-> ->]; done.
  - exfalso. apply uses_app in Hu as [Hu|Hu].
    + apply uses_cons in Hu as [Hu|Hu]; [done|].
      revert Hu. eapply not_uses; [|by eapply negotiation_stages]. done.
    + revert Hu. eapply not_uses; [|by apply fallback_stages]. done.
Qed.

(** ** The requests of the two pagers *)

Lemma filtered_loop_requests fuel ww wo chunk headers offset frames s :
  let tr := trace (filtered_loop fuel ww wo chunk headers offset frames s) in
  ev_request <$> tr
  = filtered_request headers ww wo chunk <$> running_offsets offset tr.
Proof.
  cbv zeta. revert offset frames s.
  induction fuel as [|fuel IH]; intros offset frames s; [done|].
  rewrite filtered_loop_S. cbv zeta.
  destruct (http_error _); [done|].
  destruct (bool_decide (json _ = [])); [done|].
  destruct (bool_decide (_ < chunk)); [done|].
  unfold prepend; cbn [trace app running_offsets fmap list_fmap ev_request
                         ev_response].
  f_equal. apply IH.
Qed.

Lemma fallback_loop_idle fuel dcs since_dt order_col chunk headers max_pages g
    pages_scanned kept_frames s :
  next_offset chunk g = None →
  trace (fallback_loop fuel dcs since_dt order_col chunk headers max_pages g
           pages_scanned kept_frames s) = [].
Proof.
  intros Hg. destruct fuel; [done|]. rewrite fallback_loop_S. by rewrite Hg.
Qed.

Lemma fallback_loop_requests fuel dcs since_dt order_col chunk headers max_pages g
    pages_scanned kept_frames s :
  let tr := trace (fallback_loop fuel dcs since_dt order_col chunk headers
                     max_pages g pages_scanned kept_frames s) in
  ev_request <$> tr
  = blind_request headers order_col chunk
      <$> running_offsets (default 0 (next_offset chunk g)) tr.
Proof.
  cbv zeta. revert g pages_scanned kept_frames s.
  induction fuel as [|fuel IH]; intros g pages_scanned kept_frames s; [done|].
  rewrite fallback_loop_S.
  destruct (next_offset chunk g) as [offset|]; [|done]. cbv zeta.
  destruct (http_error _); [done|].
  destruct (bool_decide (json _ = [])); [done|].
  destruct (_ && _); [done|].
  destruct (bool_decide (max_pages ≤ _)); [done|].
  unfold prepend; cbn [trace app running_offsets fmap list_fmap ev_request
                         ev_response default].
  f_equal.
  destruct (next_offset chunk (Yielded offset
              (json (requests_get s (blind_request headers order_col chunk offset)).1)))
    as [o|] eqn:Hnext.
  - rewrite IH, Hnext. cbn [default].
    cbn [next_offset] in Hnext.
    destruct (bool_decide _) in Hnext; [done|]. by injection Hnext as <-.
  - by rewrite fallback_loop_idle.
Qed.

Lemma but_last_cons {A} (x y : A) l : but_last (x :: y :: l) = x :: but_last (y :: l).
Proof. done. Qed.

Lemma filtered_loop_full fuel ww wo chunk headers offset frames s :
  Forall (full_page chunk)
    (but_last (trace (filtered_loop fuel ww wo chunk headers offset frames s))).
Proof.
  revert offset frames s.
  induction fuel as [|fuel IH]; intros offset frames s; [by constructor|].
  rewrite filtered_loop_S. cbv zeta.
  destruct (http_error _) eqn:Herr; [by constructor|].
  destruct (bool_decide (json _ = [])) eqn:Hnil; [by constructor|].
  destruct (bool_decide (_ < chunk)) eqn:Hshort; [by constructor|].
  unfold prepend; cbn [trace app].
  specialize (IH (offset + Z.of_nat (length (json (requests_get s
                    (filtered_request headers ww wo chunk offset)).1)))
                (frames ++ [pd.of_records (json (requests_get s
                    (filtered_request headers ww wo chunk offset)).1)])
                (requests_get s (filtered_request headers ww wo chunk offset)).2).
  destruct (trace _) as [|ev' rest]; [by constructor|].
  rewrite but_last_cons. constructor; [|exact IH].
  apply bool_decide_eq_false in Hnil, Hshort.
  split; [done|]. split; [done|]. cbn [ev_response]. lia.
Qed.

Lemma fallback_loop_full fuel dcs since_dt order_col chunk headers max_pages g
    pages_scanned kept_frames s :
  Forall (full_page chunk)
    (but_last (trace (fallback_loop fuel dcs since_dt order_col chunk headers
                        max_pages g pages_scanned kept_frames s))).
Proof.
  revert g pages_scanned kept_frames s.
  induction fuel as [|fuel IH]; intros g pages_scanned kept_frames s;
    [by constructor|].
  rewrite fallback_loop_S.
  destruct (next_offset chunk g) as [offset|]; [|by constructor]. cbv zeta.
  destruct (http_error _) eqn:Herr; [by constructor|].
  destruct (bool_decide (json _ = [])) eqn:Hnil; [by constructor|].
  destruct (_ && _); [by constructor|].
  destruct (bool_decide (max_pages ≤ _)); [by constructor|].
  unfold prepend; cbn [trace app].
  match goal with
  | |- context [fallback_loop fuel dcs since_dt order_col chunk headers max_pages
                  ?g' ?p' ?k' ?s'] =>
      specialize (IH g' p' k' s');
      pose proof (fallback_loop_idle fuel dcs since_dt order_col chunk headers
                    max_pages g' p' k' s') as Hidle
  end.
  destruct (trace _) as [|ev' rest]; [by constructor|].
  rewrite but_last_cons. constructor; [|exact IH].
  apply bool_decide_eq_false in Hnil.
  split; [done|]. split; [done|]. cbn [ev_response].
  cbn [next_offset] in Hidle.
  destruct (bool_decide _) eqn:Hshort in Hidle; [by specialize (Hidle eq_refl)|].
  apply bool_decide_eq_false in Hshort. lia.
Qed.

Lemma fmap_eq_exists {A B C} (f : A → C) (g : B → C) (l : list A) (k : list B) :
  f <$> l = g <$> k → Forall (λ a, ∃ b, f a = g b) l.
Proof.
  revert k. induction l as [|a l IH]; intros [|b k] Heq; try done.
  simpl in Heq. injection Heq as Ha Hl.
  constructor; [by exists b|by eapply IH].
Qed.

Lemma not_uses_at_stage st tr : ¬ uses st tr → at_stage st tr = [].
Proof.
  intros Hno. destruct (at_stage st tr) eqn:Hat; [done|].
  destruct Hno. apply uses_at_stage. by rewrite Hat.
Qed.

Lemma negotiation_requests headers since_str chunk dcs tr o :
  negotiation headers since_str chunk dcs tr o →
  Forall (λ ev, ∃ dc, dc ∈ dcs
                ∧ (ev_request ev
                   = probe_request headers (raw_where dc since_str) dc chunk
                   ∨ ev_request ev
                     = probe_request headers (cast_where dc since_str)
                         (cast_order dc) chunk)) tr.
Proof.
  induction 1 as [|dc rest r Hr|dc rest r r' Hr Hm Hr'
                 |dc rest r r' tr o Hr Hm Hr' Hneg IH|dc rest r tr o Hr Hm Hneg IH].
  - constructor.
  - repeat constructor. exists dc. split; [left|]. by left.
  - repeat constructor; exists dc; (split; [left|]); [by left|by right].
  - constructor; [exists dc; split; [left|by left]|].
    constructor; [exists dc; split; [left|by right]|].
    eapply Forall_impl; [exact IH|]. intros ev (dc' & ? & ?).
    exists dc'. split; [by right|done].
  - constructor; [exists dc; split; [left|by left]|].
    eapply Forall_impl; [exact IH|]. intros ev (dc' & ? & ?).
    exists dc'. split; [by right|done].
Qed.

Lemma negotiation_settled_candidate headers since_str chunk dcs tr ww wo first_rows :
  negotiation headers since_str chunk dcs tr (Some (ww, wo, first_rows)) →
  ∃ dc, dc ∈ dcs
        ∧ ((ww, wo) = (raw_where dc since_str, dc)
           ∨ (ww, wo) = (cast_where dc since_str, cast_order dc)).
Proof.
  intros Hneg. remember (Some (ww, wo, first_rows)) as o eqn:Ho.
  induction Hneg as [|dc rest r Hr|dc rest r r' Hr Hm Hr'
                    |dc rest r r' tr o Hr Hm Hr' Hneg IH|dc rest r tr o Hr Hm Hneg IH].
  - done.
  - injection Ho as <- <- <-. exists dc. split; [left|by left].
  - injection Ho as <- <- <-. exists dc. split; [left|by right].
  - destruct (IH Ho) as (dc' & ? & ?). exists dc'. split; [by right|done].
  - destruct (IH Ho) as (dc' & ? & ?). exists dc'. split; [by right|done].
Qed.

Lemma negotiation_refusals headers since_str chunk dcs tr o :
  negotiation headers since_str chunk dcs tr o →
  match o with
  | None =>
      Forall (λ ev, http_error (ev_response ev) = true) tr
      ∧ Forall (λ dc, ∃ r, raw_probe headers since_str chunk dc r ∈ tr) dcs
  | Some (ww, wo, first_rows) =>
      ∃ earlier r,
        tr = earlier ++ [mkEvent FilterProbe (probe_request headers ww wo chunk) r]
        ∧ Forall (λ ev, http_error (ev_response ev) = true) earlier
        ∧ http_error r = false ∧ json r = first_rows
  end.
Proof.
  induction 1 as [|dc rest r Hr|dc rest r r' Hr Hm Hr'
                 |dc rest r r' tr o Hr Hm Hr' Hneg IH|dc rest r tr o Hr Hm Hneg IH].
  - split; constructor.
  - by exists [], r.
  - exists [raw_probe headers since_str chunk dc r], r'.
    split; [done|]. split; [by repeat constructor|done].
  - destruct o as [[[ww wo] fr]|].
    + destruct IH as (earlier & r0 & -> & Hearlier & ? & ?).
      exists (raw_probe headers since_str chunk dc r
                :: cast_probe headers since_str chunk dc r' :: earlier), r0.
      split; [done|]. split; [by repeat constructor|done].
    + destruct IH as [Hall Hdcs]. split; [by repeat constructor|].
      constructor; [exists r; left|].
      eapply Forall_impl; [exact Hdcs|]. intros dc' [r0 ?]. exists r0.
      by do 2 right.
  - destruct o as [[[ww wo] fr]|].
    + destruct IH as (earlier & r0 & -> & Hearlier & ? & ?).
      exists (raw_probe headers since_str chunk dc r :: earlier), r0.
      split; [done|]. split; [by repeat constructor|done].
    + destruct IH as [Hall Hdcs]. split; [by repeat constructor|].
      constructor; [exists r; left|].
      eapply Forall_impl; [exact Hdcs|]. intros dc' [r0 ?]. exists r0.
      by right.
Qed.

Lemma candidates_head created_field cols :
  date_cols_error created_field cols = None →
  ∃ dc0, head (date_cols_of created_field cols) = Some dc0 ∧ dc0 ≠ "".
Proof.
  unfold date_cols_error, date_cols_of.
  destruct (truthy created_field) eqn:Ht.
  - intros _. destruct created_field as [cf|]; [|done].
    exists cf. split; [done|]. simpl in Ht. by apply bool_decide_eq_true in Ht.
  - destruct (filter _ DATE_FIELD_CANDIDATES) as [|dc0 l] eqn:Hf; [done|].
    intros _. exists dc0. split; [done|].
    assert (dc0 ∈ filter (λ c, c ∈ cols) DATE_FIELD_CANDIDATES) as Hin
      by (rewrite Hf; left).
    apply list_elem_of_filter in Hin as [_ Hin].
    assert (Forall (λ c : string, c ≠ "") DATE_FIELD_CANDIDATES) as Hall
      by (repeat constructor; done).
    by apply (proj1 (Forall_forall _ _) Hall).
Qed.

(** X2 — The page requests of the server-filtered pager: the filter and the
    order are those of the one probe that was accepted, built from one
    candidate column of the schema, raw or cast; the first offset is the
    number of rows the probe returned and each page moves the offset by its
    number of rows. *)
Theorem filtered_pages_requests fuel days_back chunk app_token created_field
    max_pages s :
  let tr := trace (fetch_api fuel days_back chunk app_token created_field
                     max_pages s) in
  let since_str := strftime (since_dt_of days_back) in
  uses FilteredPage tr →
  ∃ dc ww wo probe,
    dc ∈ candidates app_token created_field s
    ∧ dc ∈ observed_schema app_token s
    ∧ ((ww, wo) = (raw_where dc since_str, dc)
       ∨ (ww, wo) = (cast_where dc since_str, cast_order dc))
    ∧ last (at_stage FilterProbe tr) = Some probe
    ∧ ev_request probe = probe_request (headers_of app_token) ww wo chunk
    ∧ http_error (ev_response probe) = false
    ∧ ev_request <$> at_stage FilteredPage tr
      = filtered_request (headers_of app_token) ww wo chunk
          <$> running_offsets (Z.of_nat (length (json (ev_response probe))))
                (at_stage FilteredPage tr).
Proof.
  cbv zeta. intros Hu.
  destruct (filtered_anatomy _ _ _ _ _ _ _ Hu)
    as (ww & wo & fr & Herr & Hneg & _ & -> & -> & _).
  destruct (negotiation_settled_candidate _ _ _ _ _ _ _ _ Hneg) as (dc & Hdc & Hww).
  destruct (negotiation_settled _ _ _ _ _ _ _ _ Hneg) as (tr0 & r & Htr & Hr & Hok).
  exists dc, ww, wo, (mkEvent FilterProbe
                        (probe_request (headers_of app_token) ww wo chunk) r).
  split; [done|]. split; [by eapply candidates_observed|]. split; [done|].
  split; [rewrite Htr; apply last_snoc|]. split; [done|]. split; [done|].
  cbn [ev_response]. rewrite Hr. apply filtered_loop_requests.
Qed.

(** X3 — The page requests of the fallback pager: no filter, ordered by the
    first candidate column as it is named in the schema (never cast), from
    offset zero, each page moving the offset by its number of rows. *)
Theorem blind_pages_requests fuel days_back chunk app_token created_field
    max_pages s :
  let tr := trace (fetch_api fuel days_back chunk app_token created_field
                     max_pages s) in
  uses BlindPage tr →
  ∃ dc0,
    head (candidates app_token created_field s) = Some dc0
    ∧ dc0 ∈ observed_schema app_token s
    ∧ ev_request <$> at_stage BlindPage tr
      = (λ offset, mkRequest 120 (headers_of app_token) None chunk (Some offset)
                     (Some dc0))
          <$> running_offsets 0 (at_stage BlindPage tr).
Proof.
  cbv zeta. intros Hu.
  destruct (blind_anatomy _ _ _ _ _ _ _ Hu) as (Herr & _ & _ & -> & _ & _).
  destruct (candidates_head _ _ Herr) as (dc0 & Hhead & Hdc0).
  fold (candidates app_token created_field s) in Hhead.
  exists dc0. split; [done|].
  split.
  { eapply candidates_observed; [done|].
    fold (candidates app_token created_field s).
    destruct (candidates app_token created_field s); [done|].
    injection Hhead as ->. left. }
  rewrite fallback_loop_requests. cbn [next_offset default].
  rewrite Hhead. unfold blind_request. cbn [truthy].
  by rewrite bool_decide_true.
Qed.

(** X4 — In both pagers a page that is followed by another request was
    answered with success, has rows and fills the chunk: a refusal, an
    empty page or a short page is never followed by a request. *)
Theorem pages_but_last_are_full fuel days_back chunk app_token created_field
    max_pages s :
  let tr := trace (fetch_api fuel days_back chunk app_token created_field
                     max_pages s) in
  Forall (full_page chunk) (but_last (at_stage FilteredPage tr))
  ∧ Forall (full_page chunk) (but_last (at_stage BlindPage tr)).
Proof.
  cbv zeta. split.
  - destruct (decide (uses FilteredPage
        (trace (fetch_api fuel days_back chunk app_token created_field
                  max_pages s)))) as [Hu|Hu].
    + destruct (filtered_anatomy _ _ _ _ _ _ _ Hu)
        as (ww & wo & fr & _ & _ & _ & -> & _).
      apply filtered_loop_full.
    + rewrite (not_uses_at_stage _ _ Hu). constructor.
  - destruct (decide (uses BlindPage
        (trace (fetch_api fuel days_back chunk app_token created_field
                  max_pages s)))) as [Hu|Hu].
    + destruct (blind_anatomy _ _ _ _ _ _ _ Hu) as (_ & _ & _ & -> & _).
      apply fallback_loop_full.
    + rewrite (not_uses_at_stage _ _ Hu). constructor.
Qed.

(** X5 — The pager follows the negotiation: the fallback is reached only
    after every probe was refused, each candidate column having been probed
    raw; the server-filtered pager only after a probe was accepted, which
    is the last probe, every earlier one having been refused. *)
Theorem pager_follows_negotiation fuel days_back chunk app_token created_field
    max_pages s :
  let tr := trace (fetch_api fuel days_back chunk app_token created_field
                     max_pages s) in
  let probes := at_stage FilterProbe tr in
  (uses BlindPage tr →
   Forall (λ ev, http_error (ev_response ev) = true) probes
   ∧ Forall (λ dc, ∃ r, raw_probe (headers_of app_token)
                          (strftime (since_dt_of days_back)) chunk dc r ∈ probes)
       (candidates app_token created_field s))
  ∧ (uses FilteredPage tr →
     ∃ earlier probe,
       probes = earlier ++ [probe]
       ∧ Forall (λ ev, http_error (ev_response ev) = true) earlier
       ∧ http_error (ev_response probe) = false).
Proof.
  cbv zeta. split; intros Hu.
  - destruct (blind_anatomy _ _ _ _ _ _ _ Hu) as (_ & Hneg & _ & _ & -> & _).
    exact (negotiation_refusals _ _ _ _ _ _ Hneg).
  - destruct (filtered_anatomy _ _ _ _ _ _ _ Hu)
      as (ww & wo & fr & _ & Hneg & _ & _ & -> & _).
    destruct (negotiation_refusals _ _ _ _ _ _ Hneg)
      as (earlier & r & -> & Hearlier & Hr & _).
    by eexists earlier, _.
Qed.

(** ** How a fetch fails *)

Lemma filtered_loop_raise fuel ww wo chunk headers offset frames s e :
  result (filtered_loop fuel ww wo chunk headers offset frames s) = Raise e →
  ∃ ev, last (trace (filtered_loop fuel ww wo chunk headers offset frames s))
        = Some ev
        ∧ e = HTTPError (ev_response ev)
        ∧ http_error (ev_response ev) = true.
Proof.
  revert offset frames s.
  induction fuel as [|fuel IH]; intros offset frames s; [done|].
  rewrite filtered_loop_S. cbv zeta.
  destruct (http_error _) eqn:Herr.
  { intros [= <-]. by eexists. }
  destruct (bool_decide (json _ = [])); [done|].
  destruct (bool_decide (_ < chunk)); [done|].
  unfold prepend; cbn [trace result app]. intros Hres.
  destruct (IH _ _ _ Hres) as (ev & Hlast & ? & ?).
  exists ev. rewrite last_cons, Hlast. done.
Qed.

Lemma fallback_loop_raise fuel dcs since_dt order_col chunk headers max_pages g
    pages_scanned kept_frames s e :
  result (fallback_loop fuel dcs since_dt order_col chunk headers max_pages g
            pages_scanned kept_frames s) = Raise e →
  ∃ ev, last (trace (fallback_loop fuel dcs since_dt order_col chunk headers
                       max_pages g pages_scanned kept_frames s)) = Some ev
        ∧ e = HTTPError (ev_response ev)
        ∧ http_error (ev_response ev) = true.
Proof.
  revert g pages_scanned kept_frames s.
  induction fuel as [|fuel IH]; intros g pages_scanned kept_frames s; [done|].
  rewrite fallback_loop_S.
  destruct (next_offset chunk g) as [offset|]; [|done]. cbv zeta.
  destruct (http_error _) eqn:Herr.
  { intros [= <-]. by eexists. }
  destruct (bool_decide (json _ = [])); [done|].
  destruct (_ && _); [done|].
  destruct (bool_decide (max_pages ≤ _)); [done|].
  unfold prepend; cbn [trace result app]. intros Hres.
  destruct (IH _ _ _ _ Hres) as (ev & Hlast & ? & ?).
  exists ev. rewrite last_cons, Hlast. done.
Qed.

(** Why a fetch raises what it raises. *)
Lemma fetch_api_raises fuel days_back chunk app_token created_field max_pages s e :
  let f := fetch_api fuel days_back chunk app_token created_field max_pages s in
  result f = Raise e →
  (∃ msg, e = SystemExit msg
          ∧ date_cols_error created_field (observed_schema app_token s) = Some msg
          ∧ http_error (ev_response (schema_event app_token s)) = false
          ∧ trace f = [schema_event app_token s])
  ∨ (e = OverflowError
     ∧ cutoff_overflows days_back = true
     ∧ trace f = [schema_event app_token s])
  ∨ (∃ ev, last (trace f) = Some ev
           ∧ e = HTTPError (ev_response ev)
           ∧ http_error (ev_response ev) = true
           ∧ ev_stage ev ≠ FilterProbe).
Proof.
  cbv zeta.
  destruct (fetch_api_cases fuel days_back chunk app_token created_field
              max_pages s)
    as [[Herr0 ->]|[(Herr0 & msg & Hmsg & ->)|[(_ & _ & Hov & ->)
      |[(_ & _ & ww & wo & fr & _ & Hneg & ->)|(_ & _ & _ & Hneg & ->)]]]];
    cbn [result trace prepend].
  - intros [= <-]. do 2 right. by eexists.
  - intros [= <-]. left. by exists msg.
  - intros [= <-]. right. by left.
  - rewrite server_filtered_loop. cbv zeta. cbn [result trace].
    destruct (result (filtered_loop _ _ _ _ _ _ _ _)) eqn:Hres; [done| |done].
    intros [= ->]. do 2 right.
    destruct (filtered_loop_raise _ _ _ _ _ _ _ _ _ Hres) as (ev & Hlast & ? & ?).
    exists ev. rewrite last_app, Hlast. do 3 (split; [done|]).
    apply last_Some_elem_of in Hlast.
    pose proof (filtered_loop_stages fuel ww wo chunk (headers_of app_token)
                  (Z.of_nat (length fr))
                  (if bool_decide (fr ≠ []) then [pd.of_records fr] else [])
                  (remote (negotiated days_back chunk app_token created_field s)))
      as Hst.
    rewrite (proj1 (Forall_forall _ _) Hst ev Hlast). done.
  - rewrite fallback_run. cbv zeta. cbn [result trace].
    destruct (result (fallback_loop _ _ _ _ _ _ _ _ _ _ _)) eqn:Hres; [done| |done].
    intros [= ->]. do 2 right.
    destruct (fallback_loop_raise _ _ _ _ _ _ _ _ _ _ _ _ Hres)
      as (ev & Hlast & ? & ?).
    exists ev. rewrite last_app, Hlast. do 3 (split; [done|]).
    apply last_Some_elem_of in Hlast.
    match type of Hlast with
    | ev ∈ trace (fallback_loop ?a ?b ?c ?d ?e0 ?f0 ?g0 ?h ?i ?j ?k) =>
        pose proof (fallback_loop_stages a b c d e0 f0 g0 h i j k) as Hst
    end.
    rewrite (proj1 (Forall_forall _ _) Hst ev Hlast). done.
Qed.

(** X6 — The exceptions of the repository's own making, and where they
    come from.  A [SystemExit] that leaves [fetch_api] is the one of lines
    78-89, raised right after a schema probe that was answered, no other
    request having been made: the [SystemExit] that [_try_page] raises for
    a refused probe never leaves [fetch_api].  An [HTTPError] that leaves
    [fetch_api] is that of the last exchange, which was refused and is not
    a filter probe.  And when line 92 cannot compute the window, the
    [OverflowError] leaves a fetch that made the schema probe only. *)
Theorem fetch_failures fuel days_back chunk app_token created_field max_pages s :
  let f := fetch_api fuel days_back chunk app_token created_field max_pages s in
  (∀ msg, result f = Raise (SystemExit msg) →
          date_cols_error created_field (observed_schema app_token s) = Some msg
          ∧ http_error (ev_response (schema_event app_token s)) = false
          ∧ trace f = [schema_event app_token s])
  ∧ (∀ r, result f = Raise (HTTPError r) →
          ∃ ev, last (trace f) = Some ev
                ∧ r = ev_response ev
                ∧ http_error r = true
                ∧ ev_stage ev ≠ FilterProbe)
  ∧ (http_error (ev_response (schema_event app_token s)) = false →
     date_cols_error created_field (observed_schema app_token s) = None →
     cutoff_overflows days_back = true →
     f = mkRun [schema_event app_token s] (after_schema app_token s)
           (Raise OverflowError)).
Proof.
  cbv zeta. split; [|split].
  - intros msg Hres.
    destruct (fetch_api_raises _ _ _ _ _ _ _ _ Hres)
      as [(msg' & [= <-] & ? & ? & ?)|[[? _]|(ev & _ & ? & _)]]; done.
  - intros r Hres.
    destruct (fetch_api_raises _ _ _ _ _ _ _ _ Hres)
      as [(msg' & ? & _)|[[? _]|(ev & ? & [= ->] & ? & ?)]]; [done..|].
    by exists ev.
  - intros Hok Herr Hov. rewrite fetch_api_run. cbv zeta.
    fold (schema_event app_token s) (after_schema app_token s).
    change (schema_of (json (requests_get s (schema_request (headers_of app_token))).1))
      with (observed_schema app_token s).
    change (requests_get s (schema_request (headers_of app_token))).1
      with (ev_response (schema_event app_token s)).
    by rewrite Hok, Herr, Hov.
Qed.

(** ** Refusals: fatal everywhere but at a probe *)

Lemma string_app_nil_r (x : string) : x +:+ EmptyString = x.
Proof.
  induction x as [|a x IH]; [done|].
  change (String a x +:+ EmptyString) with (String a (x +:+ EmptyString)).
  by rewrite IH.
Qed.

Lemma string_app_assoc (x y z : string) : (x +:+ y) +:+ z = x +:+ y +:+ z.
Proof.
  induction x as [|a x IH]; [done|].
  change ((String a x +:+ y) +:+ z) with (String a ((x +:+ y) +:+ z)).
  by rewrite IH.
Qed.

Lemma occurs_in_here part post : occurs_in part (part +:+ post).
Proof. by exists EmptyString, post. Qed.

Lemma occurs_in_end part : occurs_in part part.
Proof. exists EmptyString, EmptyString. by rewrite string_app_nil_r. Qed.

Lemma occurs_in_after part pre s : occurs_in part s → occurs_in part (pre +:+ s).
Proof.
  intros (pre' & post & ->). exists (pre +:+ pre'), post.
  by rewrite string_app_assoc.
Qed.

Lemma _try_page_any where_expr order_col limit headers s :
  _try_page where_expr order_col limit headers s
  = let q := mkRequest 120 headers (Some where_expr) limit (Some 0)
               (Some order_col) in
    let r := (requests_get s q).1 in
    mkRun [mkEvent FilterProbe q r] (requests_get s q).2
      (if http_error r then Raise (SystemExit (http_diagnostic r))
       else Ok (json r)).
Proof.
  unfold _try_page, mbind, M_bind. rewrite get_run. cbv zeta.
  cbn [result trace remote]. unfold try_except_HTTPError, raise_for_status.
  by destruct (http_error _).
Qed.

Lemma split_stage_r (Q : event → Prop) l1 l2 tr1 ev tr2 :
  Forall Q l2 → ¬ Q ev → l1 ++ l2 = tr1 ++ ev :: tr2 →
  ∃ tr2', l1 = tr1 ++ ev :: tr2' ∧ tr2 = tr2' ++ l2.
Proof.
  intros Hl2 Hev. revert l1.
  induction tr1 as [|x tr1 IH]; intros [|a l1] Heq; simpl in Heq.
  - subst l2. by apply Forall_cons in Hl2 as [? _].
  - injection Heq as -> <-. by exists l1.
  - subst l2. exfalso. apply Hev.
    apply (proj1 (Forall_forall _ _) Hl2). set_solver.
  - injection Heq as -> Heq. destruct (IH _ Heq) as (tr2' & -> & ->).
    by exists tr2'.
Qed.

Lemma fallback_starts fuel dcs cols since_dt chunk headers max_pages s :
  fuel ≠ 0%nat →
  trace (fallback fuel dcs cols since_dt chunk headers max_pages s) ≠ [].
Proof.
  destruct fuel as [|fuel]; [done|]. intros _.
  rewrite fallback_run. cbv zeta. cbn [trace].
  rewrite fallback_loop_S. cbn [next_offset]. cbv zeta.
  destruct (http_error _); [done|].
  destruct (bool_decide (json _ = [])); [done|].
  destruct (_ && _); [done|].
  destruct (bool_decide (max_pages ≤ _)); [done|].
  unfold prepend. cbn [trace app]. done.
Qed.

(** What follows a refused probe in the trace of a fetch. *)
Lemma refused_probe_is_absorbed fuel days_back chunk app_token created_field
    max_pages s tr1 ev tr2 :
  trace (fetch_api fuel days_back chunk app_token created_field max_pages s)
  = tr1 ++ ev :: tr2 →
  ev_stage ev = FilterProbe →
  http_error (ev_response ev) = true →
  (fuel ≠ 0%nat → tr2 ≠ [])
  ∧ (∀ ev', head tr2 = Some ev' →
            ev_stage ev' = FilterProbe ∨ ev_stage ev' = BlindPage).
Proof.
  intros Htr Hst Hbad.
  assert (¬ ev_stage ev = SchemaProbe) as Hnot0 by congruence.
  assert (¬ ev_stage ev ≠ FilterProbe) as Hnot by (intros Hc; by apply Hc).
  assert (∀ n o pages,
            negotiation (headers_of app_token) (strftime (since_dt_of days_back))
              chunk (candidates app_token created_field s) n o →
            (schema_event app_token s :: n) ++ pages = tr1 ++ ev :: tr2 →
            Forall (λ ev, ev_stage ev ≠ FilterProbe) pages →
            ∃ a b, n = a ++ ev :: b ∧ tr2 = b ++ pages
                   ∧ Forall (λ ev, ev_stage ev = FilterProbe) b) as Hsplit.
  { intros n o pages Hneg Heq Hpages.
    change ((schema_event app_token s :: n) ++ pages)
      with ([schema_event app_token s] ++ (n ++ pages)) in Heq.
    apply (split_stage (λ e, ev_stage e = SchemaProbe)) in Heq
      as (a & _ & Heq); [|by repeat constructor|done].
    apply (split_stage_r _ _ _ _ _ _ Hpages Hnot) in Heq as (b & Hn & ->).
    exists a, b. split; [done|]. split; [done|].
    pose proof (negotiation_stages _ _ _ _ _ _ Hneg) as Hall.
    rewrite Hn in Hall. apply Forall_app in Hall as [_ Hall].
    by apply Forall_cons in Hall as [_ ?]. }
  destruct (fetch_api_cases fuel days_back chunk app_token created_field
              max_pages s)
    as [[_ Hf]|[(_ & msg & _ & Hf)|[(_ & _ & _ & Hf)
      |[(_ & _ & ww & wo & fr & _ & Hneg & Hf)|(_ & _ & _ & Hneg & Hf)]]]];
    rewrite Hf in Htr; cbn [trace prepend] in Htr;
    try (apply singleton_split in Htr as (_ & -> & _); done).
  - destruct (Hsplit _ _ _ Hneg Htr) as (a & b & Hn & -> & Hb).
    { eapply Forall_impl; [apply server_filtered_stages|]. by intros ? ->. }
    destruct (negotiation_refusals _ _ _ _ _ _ Hneg)
      as (earlier & r & Hn' & _ & Hr & _).
    destruct b as [|e' b].
    { exfalso. rewrite Hn in Hn'. apply app_inj_tail in Hn' as [_ ->].
      cbn [ev_response] in Hbad. congruence. }
    split; [done|]. intros ev' [= <-]. left.
    by apply Forall_cons in Hb as [? _].
  - destruct (Hsplit _ _ _ Hneg Htr) as (a & b & Hn & -> & Hb).
    { eapply Forall_impl; [apply fallback_stages|]. by intros ? ->. }
    destruct b as [|e' b].
    + cbn [app]. split; [apply fallback_starts|].
      intros ev' Hhead. right.
      apply head_Some in Hhead as [l Hl].
      pose proof (fallback_stages fuel (candidates app_token created_field s)
                    (observed_schema app_token s) (since_dt_of days_back) chunk
                    (headers_of app_token) max_pages
                    (remote (negotiated days_back chunk app_token created_field s)))
        as Hall.
      rewrite Hl in Hall. by apply Forall_cons in Hall as [? _].
    + split; [done|]. intros ev' [= <-]. left.
      by apply Forall_cons in Hb as [? _].
Qed.

(** C6, as the code has it.  What a non-success HTTP status does depends
    on the request.  [_try_page], which only the negotiation calls, turns
    it into an exit whose message is the report made of the status code,
    the request URL and the response body truncated to 800 characters.
    In a fetch, a refusal of the schema probe or of a page request of
    either pager is fatal and not retried: no exchange follows, and the
    fetch raises the [HTTPError] of [raise_for_status], whose message
    names the status code and the URL and is the same whatever the body.
    A refusal of a probe is not fatal: the exit of [_try_page] never
    leaves the fetch, and unless the fuel is spent another request follows,
    which is a probe or the first page of the fallback pager. *)
Theorem transport_error_is_fatal fuel days_back chunk app_token created_field
    max_pages s :
  let f := fetch_api fuel days_back chunk app_token created_field max_pages s in
  (∀ where_expr order_col limit headers s0,
     let q := mkRequest 120 headers (Some where_expr) limit (Some 0)
                (Some order_col) in
     let r := (requests_get s0 q).1 in
     let p := _try_page where_expr order_col limit headers s0 in
     trace p = [mkEvent FilterProbe q r]
     ∧ (http_error r = false → result p = Ok (json r))
     ∧ (http_error r = true →
        ∃ msg, result p = Raise (SystemExit msg) ∧ diagnosis r msg))
  ∧ (∀ tr1 ev tr2,
       trace f = tr1 ++ ev :: tr2 →
       http_error (ev_response ev) = true →
       (ev_stage ev ≠ FilterProbe →
        tr2 = []
        ∧ result f = Raise (HTTPError (ev_response ev))
        ∧ occurs_in (pretty (status_code (ev_response ev)))
            (http_error_msg (ev_response ev))
        ∧ occurs_in (url (ev_response ev)) (http_error_msg (ev_response ev))
        ∧ ∀ r', status_code r' = status_code (ev_response ev) →
                reason r' = reason (ev_response ev) →
                url r' = url (ev_response ev) →
                http_error_msg r' = http_error_msg (ev_response ev))
       ∧ (ev_stage ev = FilterProbe →
          (fuel ≠ 0%nat → tr2 ≠ [])
          ∧ (∀ ev', head tr2 = Some ev' →
                    ev_stage ev' = FilterProbe ∨ ev_stage ev' = BlindPage)
          ∧ (∀ msg, result f ≠ Raise (SystemExit msg)))).
Proof.
  cbv zeta. split.
  - intros where_expr order_col limit headers s0.
    rewrite _try_page_any. cbv zeta. cbn [trace result].
    split; [done|]. split; intros ->; [done|].
    eexists. split; [done|]. by apply diagnosis_iff.
  - intros tr1 ev tr2 Htr Hbad. split; intros Hst.
    + destruct (refused_request_is_fatal _ _ _ _ _ _ _ _ _ _ Htr Hst Hbad)
        as [-> ->].
      do 2 (split; [done|]). unfold http_error_msg.
      split; [apply occurs_in_here|].
      split; [do 4 apply occurs_in_after; apply occurs_in_end|].
      by intros r' -> -> ->.
    + destruct (refused_probe_is_absorbed _ _ _ _ _ _ _ _ _ _ Htr Hst Hbad)
        as [Hnext Hstage].
      do 2 (split; [done|]). intros msg Hres.
      destruct (fetch_api_raises _ _ _ _ _ _ _ _ Hres)
        as [(msg' & _ & _ & _ & Hone)|[[? _]|(ev' & _ & ? & _)]]; [|done..].
      rewrite Hone in Htr. apply singleton_split in Htr as (_ & -> & _). done.
Qed.

(** ** What every request carries *)

(** X7 — Every request of a fetch carries the application token when one
    is given and no token header otherwise; the schema probe asks for one
    row with a timeout of 60, every other request has a timeout of 120;
    probes ask for at most five rows, page requests for a chunk; only the
    probes and the filtered page requests carry a filter. *)
Theorem requests_of_a_fetch fuel days_back chunk app_token created_field
    max_pages s :
  Forall (λ ev,
            x_app_token (ev_request ev) = headers_of app_token
            ∧ timeout (ev_request ev)
              = match ev_stage ev with SchemaProbe => 60 | _ => 120 end
            ∧ p_limit (ev_request ev)
              = match ev_stage ev with
                | SchemaProbe => 1
                | FilterProbe => Z.min 5 chunk
                | _ => chunk
                end
            ∧ (is_Some (p_where (ev_request ev))
               ↔ ev_stage ev = FilterProbe ∨ ev_stage ev = FilteredPage))
    (trace (fetch_api fuel days_back chunk app_token created_field max_pages s)).
Proof.
  set (P := λ ev : event, _ ∧ _).
  assert (P (schema_event app_token s)) as H0.
  { unfold P, schema_event, schema_request.
    cbn [ev_request ev_stage x_app_token timeout p_limit p_where].
    do 3 (split; [done|]). split; [by intros [? [=]]|by intros [[=]|[=]]]. }
  assert (∀ dcs tr o,
            negotiation (headers_of app_token) (strftime (since_dt_of days_back))
              chunk dcs tr o → Forall P tr) as Hprobes.
  { intros dcs tr o Hneg. apply Forall_forall. intros ev Hev.
    pose proof (proj1 (Forall_forall _ _) (negotiation_stages _ _ _ _ _ _ Hneg)
                  ev Hev) as Hst.
    destruct (proj1 (Forall_forall _ _) (negotiation_requests _ _ _ _ _ _ Hneg)
                ev Hev) as (dc & _ & [Hq|Hq]);
      unfold P; rewrite Hq, Hst; unfold probe_request;
      cbn [x_app_token timeout p_limit p_where];
      (do 3 (split; [done|])); (split; [by left|by eexists]). }
  assert (∀ ww wo offset frames s',
            Forall P (trace (filtered_loop fuel ww wo chunk (headers_of app_token)
                               offset frames s'))) as Hfiltered.
  { intros ww wo offset frames s'. apply Forall_forall. intros ev Hev.
    pose proof (proj1 (Forall_forall _ _)
                  (filtered_loop_stages fuel ww wo chunk (headers_of app_token)
                     offset frames s') ev Hev) as Hst.
    destruct (proj1 (Forall_forall _ _)
                (fmap_eq_exists _ _ _ _
                   (filtered_loop_requests fuel ww wo chunk (headers_of app_token)
                      offset frames s')) ev Hev) as [o Hq].
    unfold P; rewrite Hq, Hst; unfold filtered_request;
      cbn [x_app_token timeout p_limit p_where].
    do 3 (split; [done|]). split; [by right|by eexists]. }
  assert (∀ dcs since_dt order_col s',
            Forall P (trace (fallback_loop fuel dcs since_dt order_col chunk
                               (headers_of app_token) max_pages (Fresh 0) 0 [] s')))
    as Hblind.
  { intros dcs since_dt order_col s'. apply Forall_forall. intros ev Hev.
    pose proof (proj1 (Forall_forall _ _)
                  (fallback_loop_stages fuel dcs since_dt order_col chunk
                     (headers_of app_token) max_pages (Fresh 0) 0 [] s') ev Hev)
      as Hst.
    destruct (proj1 (Forall_forall _ _)
                (fmap_eq_exists _ _ _ _
                   (fallback_loop_requests fuel dcs since_dt order_col chunk
                      (headers_of app_token) max_pages (Fresh 0) 0 [] s')) ev Hev)
      as [o Hq].
    unfold P; rewrite Hq, Hst; unfold blind_request;
      cbn [x_app_token timeout p_limit p_where].
    do 3 (split; [done|]). split; [by intros [? [=]]|by intros [[=]|[=]]]. }
  destruct (fetch_api_cases fuel days_back chunk app_token created_field
              max_pages s)
    as [[_ ->]|[(_ & msg & _ & ->)|[(_ & _ & _ & ->)
      |[(_ & _ & ww & wo & fr & _ & Hneg & ->)|(_ & _ & _ & Hneg & ->)]]]];
    cbn [trace prepend].
  - by constructor.
  - by constructor.
  - by constructor.
  - rewrite server_filtered_loop. cbv zeta. cbn [trace].
    apply Forall_app. split; [|apply Hfiltered].
    constructor; [done|]. by eapply Hprobes.
  - rewrite fallback_run. cbv zeta. cbn [trace].
    apply Forall_app. split; [|apply Hblind].
    constructor; [done|]. by eapply Hprobes.
Qed.

(** ** What the fallback pager keeps *)

Lemma present_no_columns dcs (df : pd.DataFrame) :
  pd.columns df = ∅ → present dcs df = [].
Proof.
  intros Hcols. unfold present. induction dcs as [|c dcs IH]; [done|].
  rewrite filter_cons_False; [done|]. rewrite Hcols. set_solver.
Qed.

Lemma of_records_nil_columns : pd.columns (pd.of_records []) = ∅.
Proof.
  unfold pd.columns, pd.of_records; simpl.
  by rewrite gset_to_gmap_empty, dom_empty_L.
Qed.

Lemma process_page_nil dcs since_dt :
  NoDup dcs → process_page dcs since_dt [] = (pd.of_records [], false).
Proof.
  intros Hnd. apply process_page_absent; [done|].
  apply present_no_columns, of_records_nil_columns.
Qed.

(** The frames kept by the loop, in closed form. *)
Lemma fallback_loop_kept fuel dcs since_dt order_col chunk headers max_pages g
    pages_scanned kept_frames s kept_frames' :
  NoDup dcs →
  result (fallback_loop fuel dcs since_dt order_col chunk headers max_pages g
            pages_scanned kept_frames s) = Ok kept_frames' →
  kept_frames'
  = kept_frames
    ++ kept_frames_of dcs since_dt
         (trace (fallback_loop fuel dcs since_dt order_col chunk headers max_pages
                   g pages_scanned kept_frames s)).
Proof.
  intros Hnd. revert g pages_scanned kept_frames s.
  induction fuel as [|fuel IH]; intros g ps kf s; [done|].
  rewrite fallback_loop_S.
  destruct (next_offset chunk g) as [offset|];
    [|cbn [result trace]; intros [= <-]; by rewrite app_nil_r].
  cbv zeta. set (q := blind_request headers order_col chunk offset).
  set (ev := mkEvent BlindPage q (requests_get s q).1).
  assert (kept_frames_of dcs since_dt [ev]
          = if negb (pd.empty (process_page dcs since_dt
                                 (json (requests_get s q).1)).1)
            then [(process_page dcs since_dt (json (requests_get s q).1)).1]
            else []) as Hone.
  { unfold kept_frames_of, kept_of. cbn [fmap list_fmap ev_response ev].
    destruct (pd.empty _) eqn:Hempty; cbn [negb].
    - by rewrite filter_cons_False by congruence.
    - by rewrite filter_cons_True by done. }
  destruct (http_error _); [done|].
  destruct (bool_decide (json _ = [])) eqn:Hnil.
  { cbn [result trace]. intros [= <-]. rewrite Hone.
    apply bool_decide_eq_true in Hnil. rewrite Hnil.
    rewrite process_page_nil by done. cbn [fst].
    by rewrite app_nil_r. }
  assert ((if negb (pd.empty (process_page dcs since_dt
                                (json (requests_get s q).1)).1)
           then kf ++ [(process_page dcs since_dt (json (requests_get s q).1)).1]
           else kf) = kf ++ kept_frames_of dcs since_dt [ev]) as Hkf.
  { rewrite Hone. destruct (negb _); [done|by rewrite app_nil_r]. }
  rewrite Hkf.
  destruct (_ && _); [cbn [result trace]; by intros [= <-]|].
  destruct (bool_decide (max_pages ≤ _)); [cbn [result trace]; by intros [= <-]|].
  unfold prepend. cbn [result trace]. intros Hres.
  rewrite (IH _ _ _ _ Hres). rewrite <- app_assoc. f_equal.
  unfold kept_frames_of. by rewrite fmap_app, filter_app.
Qed.

Lemma kept_of_sublist dcs since_dt ev :
  NoDup dcs →
  pd.rows (kept_of dcs since_dt ev)
  `sublist_of` pd.rows (parsed_frame dcs (pd.of_records (json (ev_response ev)))).
Proof.
  intros Hnd. unfold kept_of.
  destruct (process_page_spec dcs since_dt (json (ev_response ev)) Hnd) as [-> _].
  case_bool_decide as Habs.
  - by rewrite parsed_frame_absent.
  - cbn [pd.rows]. apply sublist_filter.
Qed.

Lemma kept_frames_of_sublist dcs since_dt evs :
  NoDup dcs →
  mjoin (pd.rows <$> kept_frames_of dcs since_dt evs)
  `sublist_of` parsed_rows dcs evs.
Proof.
  intros Hnd. unfold kept_frames_of, parsed_rows.
  induction evs as [|ev evs IH]; [done|].
  cbn [fmap list_fmap mjoin list_join].
  destruct (pd.empty (kept_of dcs since_dt ev)) eqn:Hempty.
  - rewrite filter_cons_False by congruence. by apply sublist_inserts_l.
  - rewrite filter_cons_True by done. cbn [fmap list_fmap mjoin list_join].
    apply sublist_app; [by apply kept_of_sublist|done].
Qed.

Lemma length_parsed_rows dcs evs :
  length (parsed_rows dcs evs) = length (received evs).
Proof.
  unfold parsed_rows, received. induction evs as [|ev evs IH]; [done|].
  cbn [fmap list_fmap mjoin list_join]. rewrite !length_app.
  f_equal; [|exact IH].
  by rewrite parsed_frame_len, of_records_rows, length_fmap.
Qed.

(** The result of the fallback pager, in closed form. *)
Lemma fallback_result fuel dcs cols since_dt chunk headers max_pages s df :
  NoDup dcs →
  result (fallback fuel dcs cols since_dt chunk headers max_pages s) = Ok df →
  let kept := kept_frames_of dcs since_dt
                (trace (fallback fuel dcs cols since_dt chunk headers max_pages s)) in
  df = if bool_decide (kept ≠ []) then pd.concat kept else pd.empty_frame.
Proof.
  intros Hnd. rewrite fallback_run. cbv zeta. cbn [result trace].
  destruct (result _) as [kf| |] eqn:Hres; [|done..]. intros [= <-].
  by rewrite (fallback_loop_kept _ _ _ _ _ _ _ _ _ _ _ _ Hnd Hres).
Qed.

(** X8 — What the fallback pager returns: the rows that each scanned page
    keeps, page after page, a page whose kept frame is empty contributing
    nothing.  Hence the returned rows are parsed received rows in the order
    they were received, and no more than were received. *)
Theorem fallback_result_rows fuel days_back chunk app_token created_field
    max_pages s df :
  let tr := trace (fetch_api fuel days_back chunk app_token created_field
                     max_pages s) in
  let dcs := candidates app_token created_field s in
  let kept := kept_frames_of dcs (since_dt_of days_back) (at_stage BlindPage tr) in
  uses BlindPage tr →
  result (fetch_api fuel days_back chunk app_token created_field max_pages s)
  = Ok df →
  df = (if bool_decide (kept ≠ []) then pd.concat kept else pd.empty_frame)
  ∧ pd.rows df = mjoin (pd.rows <$> kept)
  ∧ pd.rows df `sublist_of` parsed_rows dcs (at_stage BlindPage tr)
  ∧ (pd.len df ≤ length (received (at_stage BlindPage tr)))%nat.
Proof.
  cbv zeta. intros Hu.
  destruct (blind_anatomy _ _ _ _ _ _ _ Hu) as (_ & _ & _ & -> & _ & ->).
  destruct (result _) as [kf| |] eqn:Hres; [|done..]. intros [= <-].
  assert (NoDup (candidates app_token created_field s)) as Hnd
    by apply date_cols_of_NoDup.
  pose proof (fallback_loop_kept _ _ _ _ _ _ _ _ _ _ _ _ Hnd Hres) as Hkf.
  cbn [app] in Hkf. rewrite <- Hkf.
  assert (pd.rows (if bool_decide (kf ≠ []) then pd.concat kf else pd.empty_frame)
          = mjoin (pd.rows <$> kf)) as Hrows.
  { destruct kf; [done|]. by rewrite bool_decide_true. }
  split; [done|]. split; [done|].
  assert (mjoin (pd.rows <$> kf)
          `sublist_of` parsed_rows (candidates app_token created_field s)
            (trace (fallback_loop fuel (candidates app_token created_field s)
                      (since_dt_of days_back)
                      (head (candidates app_token created_field s)) chunk
                      (headers_of app_token) max_pages (Fresh 0) 0 []
                      (remote (negotiated days_back chunk app_token
                                 created_field s))))) as Hsub.
  { rewrite Hkf. by apply kept_frames_of_sublist. }
  split; [by rewrite Hrows|].
  unfold pd.len.
  rewrite Hrows, <- (length_parsed_rows (candidates app_token created_field s)).
  by apply sublist_length.
Qed.

(** ** The frame that a fetch returns *)

Lemma filtered_loop_frames_inv (Q : pd.DataFrame → Prop) fuel ww wo chunk headers
    offset frames s frames' :
  (∀ rs, rs ≠ [] → Q (pd.of_records rs)) →
  Forall Q frames →
  result (filtered_loop fuel ww wo chunk headers offset frames s) = Ok frames' →
  Forall Q frames'.
Proof.
  intros HQ. revert offset frames s.
  induction fuel as [|fuel IH]; intros offset frames s Hframes; [done|].
  rewrite filtered_loop_S. cbv zeta.
  destruct (http_error _); [done|].
  destruct (bool_decide (json _ = [])) eqn:Hnil;
    [cbn [result]; by intros [= <-]|].
  apply bool_decide_eq_false in Hnil.
  assert (Forall Q (frames ++ [pd.of_records (json (requests_get s
                      (filtered_request headers ww wo chunk offset)).1)]))
    as Hframes'.
  { apply Forall_app. split; [done|]. constructor; [by apply HQ|constructor]. }
  destruct (bool_decide (_ < chunk)); [cbn [result]; by intros [= <-]|].
  unfold prepend; cbn [result]. by apply IH.
Qed.

Lemma empty_false_rows (df : pd.DataFrame) : pd.empty df = false → pd.rows df ≠ [].
Proof.
  unfold pd.empty. intros [_ Hrows]%orb_false_iff.
  by apply bool_decide_eq_false in Hrows.
Qed.

Lemma concat_no_rows frames :
  Forall (λ df, pd.rows df ≠ []) frames →
  pd.rows (pd.concat frames) = [] → frames = [].
Proof.
  destruct 1 as [|df frames Hdf _]; [done|].
  rewrite concat_rows_eq. cbn [fmap list_fmap mjoin list_join].
  by intros [? _]%app_eq_nil.
Qed.

Lemma kept_frames_of_rows dcs since_dt evs :
  Forall (λ df, pd.rows df ≠ []) (kept_frames_of dcs since_dt evs).
Proof.
  apply Forall_forall. intros df [Hdf _]%list_elem_of_filter.
  by apply empty_false_rows.
Qed.

(** X9 — A fetch that returns no row returns the frame without columns:
    the schema of the data set is not kept when nothing is. *)
Theorem empty_result_has_no_columns fuel days_back chunk app_token created_field
    max_pages s df :
  result (fetch_api fuel days_back chunk app_token created_field max_pages s)
  = Ok df →
  pd.rows df = [] →
  df = pd.empty_frame.
Proof.
  destruct (fetch_api_cases fuel days_back chunk app_token created_field
              max_pages s)
    as [[_ ->]|[(_ & msg & _ & ->)|[(_ & _ & _ & ->)
      |[(_ & _ & ww & wo & fr & _ & Hneg & ->)|(_ & _ & _ & Hneg & ->)]]]];
    cbn [result prepend]; [done..| |].
  - rewrite server_filtered_loop. cbv zeta. cbn [result].
    destruct (result _) as [frames| |] eqn:Hres; [|done..]. intros [= <-].
    assert (Forall (λ df, pd.rows df ≠ []) frames) as Hframes.
    { eapply filtered_loop_frames_inv; [| |exact Hres].
      - intros rs Hrs. rewrite of_records_rows. by destruct rs.
      - case_bool_decide as Hfr; [|constructor].
        constructor; [|constructor]. rewrite of_records_rows. by destruct fr. }
    destruct frames as [|f0 frames]; [done|].
    rewrite bool_decide_true by done.
    intros Hrows. by pose proof (concat_no_rows _ Hframes Hrows).
  - intros Hres.
    rewrite (fallback_result _ _ _ _ _ _ _ _ _ (date_cols_of_NoDup _ _) Hres).
    cbv zeta. case_bool_decide as Hne; [|done].
    intros Hrows. destruct Hne.
    eapply concat_no_rows; [apply kept_frames_of_rows|done].
Qed.

Lemma concat_never_M c frames :
  Forall (λ df, pd.dtypes df !! c ≠ Some pd.kind_M) frames →
  pd.dtypes (pd.concat frames) !! c ≠ Some pd.kind_M.
Proof.
  induction 1 as [|df frames Hdf _ IH]; [done|].
  cbn [pd.concat pd.dtypes foldr] in *. rewrite lookup_union_with.
  destruct (pd.dtypes df !! c) as [[]|], (foldr _ _ frames !! c) as [[]|];
    simpl; congruence.
Qed.

Lemma concat_always_M c frames :
  Forall (λ df, pd.dtypes df !! c ≠ Some pd.kind_other) frames →
  pd.dtypes (pd.concat frames) !! c ≠ Some pd.kind_other.
Proof.
  induction 1 as [|df frames Hdf _ IH]; [done|].
  cbn [pd.concat pd.dtypes foldr] in *. rewrite lookup_union_with.
  destruct (pd.dtypes df !! c) as [[]|], (foldr _ _ frames !! c) as [[]|];
    simpl; congruence.
Qed.

Lemma of_records_never_M rs c : pd.dtypes (pd.of_records rs) !! c ≠ Some pd.kind_M.
Proof.
  unfold pd.of_records; cbn [pd.dtypes].
  by intros [_ ?]%lookup_gset_to_gmap_Some.
Qed.

Lemma kept_of_dtypes dcs since_dt ev c :
  NoDup dcs → c ∈ dcs →
  pd.dtypes (kept_of dcs since_dt ev) !! c ≠ Some pd.kind_other.
Proof.
  intros Hnd Hc. unfold kept_of.
  destruct (process_page_spec dcs since_dt (json (ev_response ev)) Hnd) as [-> _].
  cbv zeta. case_bool_decide as Habs.
  - assert (c ∉ pd.columns (pd.of_records (json (ev_response ev)))) as Hnot.
    { intros Hin.
      assert (c ∈ present dcs (pd.of_records (json (ev_response ev)))) as Hp
        by (by apply list_elem_of_filter).
      rewrite Habs in Hp. by apply elem_of_nil in Hp. }
    unfold pd.columns in Hnot. apply not_elem_of_dom in Hnot. by rewrite Hnot.
  - cbn [pd.dtypes]. rewrite parsed_frame_dtypes.
    case_bool_decide as Hin; [done|].
    assert (c ∉ pd.columns (pd.of_records (json (ev_response ev)))) as Hnot
      by (intros ?; by destruct Hin).
    unfold pd.columns in Hnot. apply not_elem_of_dom in Hnot. by rewrite Hnot.
Qed.

(** X10 — The column types of the result depend on the pager.  The
    server-filtered pager returns every column as received: no column is a
    datetime.  The fallback pager returns every candidate column it has as
    a datetime. *)
Theorem result_dtypes fuel days_back chunk app_token created_field max_pages s df :
  let tr := trace (fetch_api fuel days_back chunk app_token created_field
                     max_pages s) in
  result (fetch_api fuel days_back chunk app_token created_field max_pages s)
  = Ok df →
  (uses FilteredPage tr → ∀ c, pd.dtypes df !! c ≠ Some pd.kind_M)
  ∧ (uses BlindPage tr →
     ∀ c, c ∈ candidates app_token created_field s → c ∈ pd.columns df →
          pd.dtypes df !! c = Some pd.kind_M).
Proof.
  cbv zeta. intros Hres. split; intros Hu.
  - destruct (filtered_anatomy _ _ _ _ _ _ _ Hu)
      as (ww & wo & fr & _ & _ & _ & _ & _ & Hf).
    rewrite Hf in Hres.
    destruct (result _) as [frames| |] eqn:Hl; [|done..].
    injection Hres as <-. intros c.
    case_bool_decide; [|done]. apply concat_never_M.
    eapply (filtered_loop_frames_inv
              (λ df, pd.dtypes df !! c ≠ Some pd.kind_M)); [| |exact Hl].
    + intros rs _. apply of_records_never_M.
    + case_bool_decide; [|constructor].
      constructor; [apply of_records_never_M|constructor].
  - destruct (blind_anatomy _ _ _ _ _ _ _ Hu) as (_ & _ & _ & _ & _ & Hf).
    rewrite Hf in Hres.
    destruct (result _) as [kf| |] eqn:Hl; [|done..].
    injection Hres as <-. intros c Hc Hin.
    assert (NoDup (candidates app_token created_field s)) as Hnd
      by apply date_cols_of_NoDup.
    pose proof (fallback_loop_kept _ _ _ _ _ _ _ _ _ _ _ _ Hnd Hl) as Hkf.
    cbn [app] in Hkf.
    assert (Forall (λ df, pd.dtypes df !! c ≠ Some pd.kind_other) kf) as Hall.
    { rewrite Hkf. apply Forall_forall.
      intros df [_ (ev & -> & _)%list_elem_of_fmap]%list_elem_of_filter.
      by apply kept_of_dtypes. }
    revert Hin. unfold pd.columns.
    destruct kf as [|f0 kf0]; [by intros ?%elem_of_dom%is_Some_None|].
    rewrite bool_decide_true by done.
    intros [k Hk]%elem_of_dom. rewrite Hk. destruct k; [done|].
    by destruct (concat_always_M c _ Hall).
Qed.

(** ** When the fallback pager stops *)

Lemma fallback_loop_stale_last fuel dcs since_dt order_col chunk headers max_pages
    g pages_scanned kept_frames s tr1 ev tr2 :
  trace (fallback_loop fuel dcs since_dt order_col chunk headers max_pages g
           pages_scanned kept_frames s) = tr1 ++ ev :: tr2 →
  (process_page dcs since_dt (json (ev_response ev))).2 = false →
  kept_frames ≠ []
  ∨ (∃ ev', ev' ∈ tr1 ++ [ev] ∧ pd.empty (kept_of dcs since_dt ev') = false) →
  tr2 = [].
Proof.
  revert g pages_scanned kept_frames s tr1.
  induction fuel as [|fuel IH]; intros g ps kf s tr1 Htr Hstale Hkept.
  { by destruct tr1. }
  revert Htr. rewrite fallback_loop_S.
  destruct (next_offset chunk g) as [offset|]; [|by destruct tr1].
  cbv zeta. set (q := blind_request headers order_col chunk offset).
  destruct (http_error (requests_get s q).1).
  { cbn [trace]. by intros (_ & _ & ->)%singleton_split. }
  destruct (bool_decide (json _ = [])).
  { cbn [trace]. by intros (_ & _ & ->)%singleton_split. }
  set (page := process_page dcs since_dt (json (requests_get s q).1)).
  set (kf' := if negb (pd.empty page.1) then kf ++ [page.1] else kf).
  assert (kf ≠ [] → kf' ≠ []) as Hkf.
  { unfold kf'. destruct (negb _); [|done]. by intros _ [_ ?]%app_eq_nil. }
  assert (pd.empty page.1 = false → kf' ≠ []) as Hpage.
  { unfold kf'. intros ->. cbn [negb]. by intros [_ ?]%app_eq_nil. }
  destruct (negb page.2 && bool_decide (kf' ≠ [])) eqn:Hstop.
  { cbn [trace]. by intros (_ & _ & ->)%singleton_split. }
  destruct (bool_decide (max_pages ≤ _)).
  { cbn [trace]. by intros (_ & _ & ->)%singleton_split. }
  unfold prepend. cbn [trace app]. intros Htr.
  destruct tr1 as [|b tr1]; simpl in Htr.
  - injection Htr as Hev _. exfalso. subst ev. cbn [ev_response] in Hstale.
    fold page in Hstale. rewrite Hstale in Hstop. cbn [negb andb] in Hstop.
    apply bool_decide_eq_false in Hstop. apply Hstop.
    destruct Hkept as [?|(ev' & ->%list_elem_of_singleton & Hne)]; [by apply Hkf|].
    by apply Hpage.
  - injection Htr as Hb Htr. apply (IH _ _ _ _ _ Htr Hstale).
    destruct Hkept as [?|(ev' & Hin & Hne)]; [left; by apply Hkf|].
    simpl in Hin. apply elem_of_cons in Hin as [-> | Hin].
    + left. apply Hpage. by subst b.
    + right. by exists ev'.
Qed.

(** X11 — The early stop of the fallback pager: a page with no row at or
    after the cutoff in any candidate column is the last one requested as
    soon as some page, this one included, has kept a row. *)
Theorem stale_page_is_last fuel days_back chunk app_token created_field
    max_pages s tr1 ev tr2 :
  let dcs := candidates app_token created_field s in
  trace (fetch_api fuel days_back chunk app_token created_field max_pages s)
  = tr1 ++ ev :: tr2 →
  ev_stage ev = BlindPage →
  (process_page dcs (since_dt_of days_back) (json (ev_response ev))).2 = false →
  (∃ ev', ev' ∈ tr1 ++ [ev] ∧ ev_stage ev' = BlindPage
          ∧ pd.empty (kept_of dcs (since_dt_of days_back) ev') = false) →
  tr2 = [].
Proof.
  cbv zeta. intros Htr Hst Hstale (ev' & Hin & Hst' & Hne).
  assert (uses BlindPage
            (trace (fetch_api fuel days_back chunk app_token created_field
                      max_pages s))) as Hu.
  { exists ev. split; [|done]. rewrite Htr. apply elem_of_app. right. left. }
  destruct (blind_anatomy _ _ _ _ _ _ _ Hu) as (_ & Hneg & Hshape & _).
  rewrite Hshape in Htr.
  change (schema_event app_token s :: ?a ++ ?b)
    with ((schema_event app_token s :: a) ++ b) in Htr.
  assert (Forall (λ ev, ev_stage ev ≠ BlindPage)
            (schema_event app_token s
               :: trace (negotiated days_back chunk app_token created_field s)))
    as Hpre.
  { constructor; [done|].
    eapply Forall_impl; [by eapply negotiation_stages|].
    intros ? Hp. by rewrite Hp. }
  assert (¬ ev_stage ev ≠ BlindPage) as Hev by (intros Hc; by apply Hc).
  destruct (split_stage _ _ _ _ _ _ Hpre Hev Htr) as (tr1' & -> & Hl).
  eapply fallback_loop_stale_last; [exact Hl|exact Hstale|].
  right. exists ev'. split; [|done].
  rewrite <- app_assoc in Hin. apply elem_of_app in Hin as [Hin|Hin]; [|done].
  exfalso. apply elem_of_cons in Hin as [-> | Hin]; [done|].
  pose proof (proj1 (Forall_forall _ _) (negotiation_stages _ _ _ _ _ _ Hneg)
                ev' Hin) as Hprobe.
  congruence.
Qed.

(** ** The page cap and the server-filtered pager *)

(** X12 — The page cap matters to the fallback pager only: a fetch that
    makes no unfiltered page request is the same fetch under any cap. *)
Theorem max_pages_only_matters_to_fallback fuel days_back chunk app_token
    created_field max_pages max_pages' s :
  ¬ uses BlindPage
      (trace (fetch_api fuel days_back chunk app_token created_field max_pages s)) →
  fetch_api fuel days_back chunk app_token created_field max_pages' s
  = fetch_api fuel days_back chunk app_token created_field max_pages s.
Proof.
  rewrite !fetch_api_run. cbv zeta.
  destruct (http_error _); [done|].
  destruct (date_cols_error _ _); [done|].
  destruct (cutoff_overflows days_back); [done|].
  destruct (result (negotiate _ _ _ _ _)) as [[[[ww wo] fr]|]| |]; try done.
  destruct fuel as [|fuel]; [done|].
  intros Hno. exfalso. apply Hno.
  rewrite fallback_run. cbv zeta. unfold prepend. cbn [trace].
  rewrite fallback_loop_S. cbn [next_offset]. cbv zeta.
  apply uses_app. right.
  destruct (http_error _); [apply uses_cons; by left|].
  destruct (bool_decide (json _ = [])); [apply uses_cons; by left|].
  destruct (_ && _); [apply uses_cons; by left|].
  destruct (bool_decide (max_pages ≤ _)); [apply uses_cons; by left|].
  unfold prepend. cbn [trace app]. apply uses_cons; by left.
Qed.

Lemma filtered_loop_endless fuel ww wo chunk headers offset frames s :
  always_full chunk →
  result (filtered_loop fuel ww wo chunk headers offset frames s) = OutOfFuel
  ∧ length (trace (filtered_loop fuel ww wo chunk headers offset frames s)) = fuel.
Proof.
  intros Hfull. revert offset frames s.
  induction fuel as [|fuel IH]; intros offset frames s; [done|].
  rewrite filtered_loop_S. cbv zeta.
  destruct (Hfull s (filtered_request headers ww wo chunk offset))
    as (-> & Hne & Hlen).
  rewrite bool_decide_false by done.
  rewrite bool_decide_false by lia.
  unfold prepend. cbn [result trace app length].
  destruct (IH (offset + Z.of_nat (length (json (requests_get s
                   (filtered_request headers ww wo chunk offset)).1)))
              (frames ++ [pd.of_records (json (requests_get s
                   (filtered_request headers ww wo chunk offset)).1)])
              (requests_get s (filtered_request headers ww wo chunk offset)).2)
    as [-> ->].
  done.
Qed.

(** X13 — The server-filtered pager has no page cap.  Against a source that
    answers every request with a full page, a fetch that finds a date
    column and whose window line 92 can compute never returns, whatever
    the cap: after the schema probe and one accepted probe it requests
    page after page. *)
Theorem filtered_fetch_never_stops fuel days_back chunk app_token created_field
    max_pages s :
  always_full chunk →
  date_cols_error created_field (observed_schema app_token s) = None →
  cutoff_overflows days_back = false →
  result (fetch_api fuel days_back chunk app_token created_field max_pages s)
  = OutOfFuel
  ∧ length (trace (fetch_api fuel days_back chunk app_token created_field
                     max_pages s)) = (2 + fuel)%nat
  ∧ length (at_stage FilteredPage
              (trace (fetch_api fuel days_back chunk app_token created_field
                        max_pages s))) = fuel.
Proof.
  intros Hfull Herr Hov. rewrite fetch_api_run. cbv zeta.
  destruct (Hfull s (schema_request (headers_of app_token))) as (-> & _ & _).
  change (schema_of (json (requests_get s (schema_request (headers_of app_token))).1))
    with (observed_schema app_token s).
  rewrite Herr, Hov.
  destruct (candidates_head _ _ Herr) as (dc0 & Hhead & _).
  destruct (date_cols_of created_field (observed_schema app_token s))
    as [|dc rest]; [done|].
  rewrite negotiate_cons. cbv zeta.
  match goal with
  | |- context [http_error (requests_get ?s0 ?q0).1] =>
      destruct (Hfull s0 q0) as (-> & _ & _)
  end.
  cbn [result trace remote].
  rewrite server_filtered_loop. cbv zeta. unfold prepend. cbn [result trace].
  match goal with
  | |- context [filtered_loop fuel ?a ?b ?c ?d ?e0 ?f0 ?g0] =>
      destruct (filtered_loop_endless fuel a b c d e0 f0 g0 Hfull) as [Hres Hlen];
      pose proof (filtered_loop_stages fuel a b c d e0 f0 g0) as Hst
  end.
  rewrite Hres. split; [done|].
  split; [cbn [app length]; by rewrite Hlen|].
  match goal with
  | |- context [(?ev0 :: ?probes) ++ ?pages] =>
      assert (Forall (λ ev, ev_stage ev = FilterProbe) probes) as Hprobes
        by (by repeat constructor);
      destruct (at_stage_pages FilteredPage ev0 probes pages eq_refl Hprobes Hst)
        as [-> _]; done
  end.
Qed.

(** ** One page *)

Lemma parsed_frame_row dcs page_df i r0 :
  pd.rows page_df !! i = Some r0 →
  pd.rows (parsed_frame dcs page_df) !! i = Some (parsed_row dcs page_df i r0).
Proof.
  intros Hi. unfold parsed_frame; cbn [pd.rows].
  by rewrite list_lookup_imap, Hi.
Qed.

(** X14 — On a page that has a candidate column, the flag [any_newer] that
    is computed while the columns are parsed agrees with the mask that
    selects the rows: it is set exactly when the page keeps a row. *)
Theorem any_newer_agrees_with_kept dcs since_dt (page : list record) :
  NoDup dcs →
  present dcs (pd.of_records page) ≠ [] →
  (process_page dcs since_dt page).2
  = bool_decide (pd.rows (process_page dcs since_dt page).1 ≠ []).
Proof.
  intros Hnd Hp.
  destruct (process_page_spec dcs since_dt page Hnd) as [-> ->].
  rewrite (bool_decide_false (present dcs (pd.of_records page) = [])) by done.
  cbn [pd.rows].
  destruct (parse_candidates dcs since_dt (pd.of_records page)).2 eqn:Hany;
    symmetry.
  - apply bool_decide_eq_true.
    apply parse_candidates_any in Hany as (c & i & t & Hc & Hi & Hcell & Hle);
      [|done].
    apply lookup_lt_is_Some_2 in Hi as [r0 Hr0].
    assert (parsed_row dcs (pd.of_records page) i r0
            ∈ pd.rows (parsed_frame dcs (pd.of_records page))) as Hin.
    { apply list_elem_of_lookup. exists i. by apply parsed_frame_row. }
    assert (Is_true (row_newer (present dcs (pd.of_records page)) since_dt
                       (parsed_row dcs (pd.of_records page) i r0))) as Hnew.
    { apply Is_true_true. unfold row_newer. apply existsb_exists.
      exists c. split; [by apply list_elem_of_In|].
      rewrite parsed_row_lookup.
      apply list_elem_of_filter in Hc as [? ?].
      rewrite bool_decide_true by done. rewrite Hcell. simpl.
      by apply bool_decide_eq_true. }
    intros Hnil.
    assert (parsed_row dcs (pd.of_records page) i r0
            ∈ filter (λ r, Is_true (row_newer (present dcs (pd.of_records page))
                                      since_dt r))
                (pd.rows (parsed_frame dcs (pd.of_records page)))) as Hf
      by (by apply list_elem_of_filter).
    rewrite Hnil in Hf. by apply elem_of_nil in Hf.
  - apply bool_decide_eq_false. intros Hne. apply Hne.
    destruct (filter _ _) as [|r l] eqn:Hf; [done|]. exfalso.
    assert (r ∈ filter
              (λ r, Is_true (row_newer (present dcs (pd.of_records page)) since_dt r))
              (pd.rows (parsed_frame dcs (pd.of_records page)))) as Hr
      by (rewrite Hf; by left).
    apply list_elem_of_filter in Hr as [Hnew Hr].
    apply Is_true_true in Hnew. unfold row_newer in Hnew.
    apply existsb_exists in Hnew as (c & Hc & Hge). apply list_elem_of_In in Hc.
    apply list_elem_of_lookup in Hr as (i & Hi).
    unfold parsed_frame in Hi; cbn [pd.rows] in Hi.
    apply list_lookup_imap_Some in Hi as (r0 & Hr0 & ->).
    rewrite parsed_row_lookup in Hge.
    apply list_elem_of_filter in Hc as Hc'. destruct Hc' as [Hin Hdc].
    rewrite bool_decide_true in Hge by done.
    apply ge_cell_true in Hge as (t & [= Hcell] & Hle).
    assert ((parse_candidates dcs since_dt (pd.of_records page)).2 = true) as Htrue.
    { apply parse_candidates_any; [done|]. exists c, i, t.
      split; [done|]. split; [by eapply lookup_lt_Some|].
      split; [unfold parsed_cell; by rewrite Hcell|done]. }
    congruence.
Qed.

Lemma sublist_filter_impl {A} (P Q : A → Prop) `{∀ x, Decision (P x)}
    `{∀ x, Decision (Q x)} (l : list A) :
  (∀ x, P x → Q x) → filter P l `sublist_of` filter Q l.
Proof.
  intros HPQ. induction l as [|x l IH]; [done|].
  destruct (decide (P x)) as [HP|HP].
  - rewrite (filter_cons_True P) by done.
    rewrite (filter_cons_True Q) by auto. by constructor.
  - rewrite (filter_cons_False P) by done.
    destruct (decide (Q x)).
    + rewrite (filter_cons_True Q) by done. by constructor.
    + by rewrite (filter_cons_False Q) by done.
Qed.

Lemma since_dt_of_mono days_back days_back' :
  days_back ≤ days_back' → since_dt_of days_back' ≤ since_dt_of days_back.
Proof. unfold since_dt_of, day_ns. lia. Qed.

(** X15 — Widening the window never loses a row of a page: with more days
    back, a page keeps what it kept, in the same order, and possibly more;
    and a page that had a newer row still has one. *)
Theorem wider_window_keeps_more dcs days_back days_back' (page : list record) :
  NoDup dcs →
  days_back ≤ days_back' →
  pd.rows (process_page dcs (since_dt_of days_back) page).1
  `sublist_of` pd.rows (process_page dcs (since_dt_of days_back') page).1
  ∧ ((process_page dcs (since_dt_of days_back) page).2 = true →
     (process_page dcs (since_dt_of days_back') page).2 = true).
Proof.
  intros Hnd Hle. apply since_dt_of_mono in Hle.
  destruct (process_page_spec dcs (since_dt_of days_back) page Hnd) as [-> ->].
  destruct (process_page_spec dcs (since_dt_of days_back') page Hnd) as [-> ->].
  split.
  - case_bool_decide; [done|]. cbn [pd.rows].
    apply sublist_filter_impl. intros r Hr.
    apply Is_true_true in Hr. apply Is_true_true.
    unfold row_newer in *.
    apply existsb_exists in Hr as (c & Hc & Hge). apply existsb_exists.
    exists c. split; [done|].
    apply ge_cell_true in Hge as (t & -> & ?). simpl.
    apply bool_decide_eq_true. lia.
  - intros (c & i & t & ? & ? & ? & ?)%parse_candidates_any; [|done].
    apply parse_candidates_any; [done|]. exists c, i, t.
    repeat split; [done..|lia].
Qed.

End coverage.

(* ================================================================== *)
(** * Properties of [main] *)

Section main_properties.
Context `{H : Externals} `{H0 : System}.

Lemma DATE_FIELD_CANDIDATES_NoDup : NoDup DATE_FIELD_CANDIDATES.
Proof. by apply (bool_decide_unpack (NoDup DATE_FIELD_CANDIDATES)). Qed.

Lemma normalize_dates_fold dcs since_dt (st : pd.DataFrame * bool) :
  (foldl (λ (st : pd.DataFrame * bool) c,
            let page_df := st.1 in
            let any_newer := st.2 in
            if bool_decide (c ∈ pd.columns page_df) then
              let page_df :=
                pd.setitem_datetime c (to_datetime (pd.getitem c page_df)) page_df in
              if pd.any (pd.notna (pd.getitem c page_df))
                 && pd.any (pd.ge since_dt (pd.getitem c page_df))
              then (page_df, true)
              else (page_df, any_newer)
            else (page_df, any_newer)) st dcs).1
  = foldl (λ (df : pd.DataFrame) c,
             if bool_decide (c ∈ pd.columns df)
             then pd.setitem_datetime c (to_datetime (pd.getitem c df)) df
             else df) st.1 dcs.
Proof.
  revert st. induction dcs as [|c dcs IH]; intros st; [done|].
  cbn [foldl]. rewrite IH. f_equal. cbv zeta.
  destruct (bool_decide _); [|done]. by destruct (_ && _).
Qed.

(** The normalization of [main] parses each candidate column that is
    present from the column as loaded. *)
Lemma normalize_dates_parsed df :
  normalize_dates df = parsed_frame DATE_FIELD_CANDIDATES df.
Proof.
  rewrite <- (parse_candidates_frame _ 0 _ DATE_FIELD_CANDIDATES_NoDup).
  unfold normalize_dates, parse_candidates.
  by rewrite normalize_dates_fold.
Qed.

(** X16 — What [main] does to the frame before writing it: every date
    column of the list that the frame has becomes a datetime column whose
    values are what [to_datetime] answers for the column as loaded; no
    column is added, no row is added or dropped, and the other columns are
    left as they are. *)
Theorem normalize_dates_spec (df : pd.DataFrame) :
  pd.columns (normalize_dates df) = pd.columns df
  ∧ pd.len (normalize_dates df) = pd.len df
  ∧ (∀ c, c ∈ DATE_FIELD_CANDIDATES → c ∈ pd.columns df →
          pd.dtypes (normalize_dates df) !! c = Some pd.kind_M
          ∧ ∀ i, (i < pd.len df)%nat →
                 pd.getitem c (normalize_dates df) !! i
                 = Some (Some (parsed_cell df c i)))
  ∧ (∀ c, c ∉ DATE_FIELD_CANDIDATES →
          pd.dtypes (normalize_dates df) !! c = pd.dtypes df !! c
          ∧ pd.getitem c (normalize_dates df) = pd.getitem c df).
Proof.
  rewrite normalize_dates_parsed.
  split; [apply parsed_frame_columns|].
  split; [apply parsed_frame_len|].
  split.
  - intros c Hc Hin. split.
    + rewrite parsed_frame_dtypes. by rewrite bool_decide_true.
    + intros i Hi. apply lookup_lt_is_Some_2 in Hi as [r0 Hr0].
      unfold pd.getitem. rewrite list_lookup_fmap.
      rewrite (parsed_frame_row _ _ _ _ Hr0). cbn [fmap option_fmap option_map].
      rewrite parsed_row_lookup. by rewrite bool_decide_true.
  - intros c Hc. split.
    + rewrite parsed_frame_dtypes.
      rewrite bool_decide_false; [done|]. by intros [? _].
    + by apply parsed_frame_getitem.
Qed.


(** X18 — With [--source csv] nothing is requested from the API.  The
    directories are created before the path is looked at; a path that is
    missing, empty or does not exist ends the run with the message and
    nothing else done; otherwise the file is read, normalized and
    written. *)
Theorem csv_mode fuel args s :
  let r := main fuel args s in
  let path := default "" (args_path args) in
  args_source args = csv →
  Forall (λ a, is_request a = false) (actions r)
  ∧ final r = s
  ∧ take 2 (actions r) = [MakeDirs "data"; MakeDirs "notes"]
  ∧ if truthy (args_path args) && path_exists path
    then exit r = Ok ()
         ∧ actions r !! 2%nat
           = Some (ToParquet (args_out args) (normalize_dates (read_csv path)))
    else exit r = Raise (SystemExit "CSV path missing. Use --path data/chi311.csv")
         ∧ actions r = [MakeDirs "data"; MakeDirs "notes"].
Proof.
  cbv zeta. intros Hsrc. unfold main. rewrite Hsrc. cbv zeta.
  destruct (truthy (args_path args)); cbn [negb orb andb];
    [destruct (path_exists _); cbn [negb]|];
    (split; [by repeat constructor|]); done.
Qed.

End main_properties.

(* ================================================================== *)
(** * The further properties on the scripted runs *)

Lemma filtered_pages_requests_witness :
  uses FilteredPage (trace filtered_run)
  ∧ ∃ dc ww wo probe,
      dc ∈ candidates (H := scripted) None None filtered_script
      ∧ dc ∈ observed_schema (H := scripted) None filtered_script
      ∧ ((ww, wo)
         = (raw_where dc (strftime (Externals := scripted) (since_dt_of (H := scripted) 90)),
            dc)
         ∨ (ww, wo)
           = (cast_where dc
                (strftime (Externals := scripted) (since_dt_of (H := scripted) 90)),
              cast_order dc))
      ∧ last (at_stage FilterProbe (trace filtered_run)) = Some probe
      ∧ ev_request probe = probe_request (headers_of None) ww wo 2
      ∧ http_error (ev_response probe) = false
      ∧ ev_request <$> at_stage FilteredPage (trace filtered_run)
        = filtered_request (headers_of None) ww wo 2
            <$> running_offsets (Z.of_nat (length (json (ev_response probe))))
                  (at_stage FilteredPage (trace filtered_run)).
Proof.
  assert (uses FilteredPage (trace filtered_run)) as Hu
    by (apply (bool_decide_unpack _); vm_compute; exact I).
  split; [exact Hu|].
  exact (filtered_pages_requests (H := scripted) 10 90 2 None None 30
           filtered_script Hu).
Defined.

Lemma blind_pages_requests_witness :
  uses BlindPage (trace blind_run)
  ∧ ∃ dc0,
      head (candidates (H := scripted) None None blind_script) = Some dc0
      ∧ dc0 ∈ observed_schema (H := scripted) None blind_script
      ∧ ev_request <$> at_stage BlindPage (trace blind_run)
        = (λ offset, mkRequest 120 (headers_of None) None 2 (Some offset)
                       (Some dc0))
            <$> running_offsets 0 (at_stage BlindPage (trace blind_run)).
Proof.
  assert (uses BlindPage (trace blind_run)) as Hu
    by (apply (bool_decide_unpack _); vm_compute; exact I).
  split; [exact Hu|].
  exact (blind_pages_requests (H := scripted) 10 90 2 None None 30
           blind_script Hu).
Defined.

Lemma pager_follows_negotiation_witness :
  uses BlindPage (trace blind_run)
  ∧ Forall (λ ev, http_error (ev_response ev) = true)
      (at_stage FilterProbe (trace blind_run))
  ∧ Forall (λ dc, ∃ r, raw_probe (headers_of None)
                         (strftime (Externals := scripted) (since_dt_of (H := scripted) 90))
                         2 dc r
                       ∈ at_stage FilterProbe (trace blind_run))
      (candidates (H := scripted) None None blind_script).
Proof.
  assert (uses BlindPage (trace blind_run)) as Hu
    by (apply (bool_decide_unpack _); vm_compute; exact I).
  split; [exact Hu|].
  exact (proj1 (pager_follows_negotiation (H := scripted) 10 90 2 None None 30
                  blind_script) Hu).
Defined.

Lemma fetch_failures_witness :
  result broken_run = Raise (HTTPError (refused 503 "service unavailable"))
  ∧ ∃ ev, last (trace broken_run) = Some ev
          ∧ refused 503 "service unavailable" = ev_response ev
          ∧ http_error (refused 503 "service unavailable") = true
          ∧ ev_stage ev ≠ FilterProbe.
Proof.
  assert (result broken_run = Raise (HTTPError (refused 503 "service unavailable")))
    as Hres by (vm_compute; reflexivity).
  split; [exact Hres|].
  exact (proj1 (proj2 (fetch_failures (H := scripted) 10 90 2 None None 30
                         broken_script)) _ Hres).
Defined.

(** A window that cannot be computed: a million days back is before the
    year 1, line 92 raises, and only the schema probe was made. *)
Example fetch_overflow :
  fetch_api (H := scripted) 10 1000000 2 None None 30 blind_script
  = mkRun [schema_event (H := scripted) None blind_script]
      (after_schema (H := scripted) None blind_script) (Raise OverflowError).
Proof. vm_compute. reflexivity. Qed.

Lemma fallback_result_rows_witness :
  uses BlindPage (trace blind_run)
  ∧ result blind_run = Ok blind_frame
  ∧ (let kept := kept_frames_of (H := scripted)
                   (candidates (H := scripted) None None blind_script)
                   (since_dt_of (H := scripted) 90)
                   (at_stage BlindPage (trace blind_run)) in
     blind_frame
     = (if bool_decide (kept ≠ []) then pd.concat kept else pd.empty_frame)
     ∧ pd.rows blind_frame = mjoin (pd.rows <$> kept)
     ∧ pd.rows blind_frame
       `sublist_of` parsed_rows (H := scripted)
                      (candidates (H := scripted) None None blind_script)
                      (at_stage BlindPage (trace blind_run))
     ∧ (pd.len blind_frame
        ≤ length (received (at_stage BlindPage (trace blind_run))))%nat).
Proof.
  assert (uses BlindPage (trace blind_run)) as Hu
    by (apply (bool_decide_unpack _); vm_compute; exact I).
  assert (result blind_run = Ok blind_frame) as Hres by (vm_compute; reflexivity).
  split; [exact Hu|]. split; [exact Hres|].
  exact (fallback_result_rows (H := scripted) 10 90 2 None None 30 blind_script
           blind_frame Hu Hres).
Defined.

Lemma empty_result_has_no_columns_witness :
  result unparseable_run = Ok pd.empty_frame
  ∧ pd.rows pd.empty_frame = []
  ∧ pd.empty_frame = pd.empty_frame.
Proof.
  assert (result unparseable_run = Ok pd.empty_frame) as Hres
    by (vm_compute; reflexivity).
  split; [exact Hres|]. split; [reflexivity|].
  exact (empty_result_has_no_columns (H := scripted) 10 90 50000 None None 30
           unparseable_script pd.empty_frame Hres eq_refl).
Defined.

Lemma result_dtypes_witness :
  result blind_run = Ok blind_frame
  ∧ (uses FilteredPage (trace blind_run) →
     ∀ c, pd.dtypes blind_frame !! c ≠ Some pd.kind_M)
  ∧ (uses BlindPage (trace blind_run) →
     ∀ c, c ∈ candidates (H := scripted) None None blind_script →
          c ∈ pd.columns blind_frame →
          pd.dtypes blind_frame !! c = Some pd.kind_M).
Proof.
  assert (result blind_run = Ok blind_frame) as Hres by (vm_compute; reflexivity).
  split; [exact Hres|].
  exact (result_dtypes (H := scripted) 10 90 2 None None 30 blind_script
           blind_frame Hres).
Defined.

Lemma stale_page_is_last_witness :
  trace stale_run = stale_prefix ++ stale_event :: []
  ∧ ev_stage stale_event = BlindPage
  ∧ (process_page (H := scripted)
       (candidates (H := scripted) None None stale_script)
       (since_dt_of (H := scripted) 90) (json (ev_response stale_event))).2 = false
  ∧ (∃ ev', ev' ∈ stale_prefix ++ [stale_event] ∧ ev_stage ev' = BlindPage
            ∧ pd.empty (kept_of (H := scripted)
                          (candidates (H := scripted) None None stale_script)
                          (since_dt_of (H := scripted) 90) ev') = false)
  ∧ [] = ([] : list event).
Proof.
  assert (trace stale_run = stale_prefix ++ stale_event :: []) as Htr
    by (vm_compute; reflexivity).
  assert ((process_page (H := scripted)
             (candidates (H := scripted) None None stale_script)
             (since_dt_of (H := scripted) 90) (json (ev_response stale_event))).2
          = false) as Hstale by (vm_compute; reflexivity).
  assert (∃ ev', ev' ∈ stale_prefix ++ [stale_event] ∧ ev_stage ev' = BlindPage
                 ∧ pd.empty (kept_of (H := scripted)
                               (candidates (H := scripted) None None stale_script)
                               (since_dt_of (H := scripted) 90) ev') = false)
    as Hkept.
  { exists fresh_event. split; [|split; [reflexivity|vm_compute; reflexivity]].
    unfold stale_prefix. simpl. do 2 right. left. }
  split; [exact Htr|]. split; [reflexivity|]. split; [exact Hstale|].
  split; [exact Hkept|].
  exact (stale_page_is_last (H := scripted) 10 90 1 None None 30 stale_script
           stale_prefix stale_event [] Htr eq_refl Hstale Hkept).
Defined.

Lemma max_pages_only_matters_to_fallback_witness :
  ¬ uses BlindPage (trace filtered_run)
  ∧ fetch_api (H := scripted) 10 90 2 None None 0 filtered_script = filtered_run.
Proof.
  assert (¬ uses BlindPage (trace filtered_run)) as Hno
    by (apply (bool_decide_unpack _); vm_compute; exact I).
  split; [exact Hno|].
  exact (max_pages_only_matters_to_fallback (H := scripted) 10 90 2 None None 30 0
           filtered_script Hno).
Defined.

Lemma filtered_fetch_never_stops_witness :
  always_full (H := endless) 1
  ∧ date_cols_error (H := endless) None (observed_schema (H := endless) None ())
    = None
  ∧ cutoff_overflows (H := endless) 90 = false
  ∧ result (fetch_api (H := endless) 7 90 1 None None 30 ()) = OutOfFuel
  ∧ length (trace (fetch_api (H := endless) 7 90 1 None None 30 ())) = 9%nat
  ∧ length (at_stage FilteredPage
              (trace (fetch_api (H := endless) 7 90 1 None None 30 ()))) = 7%nat.
Proof.
  assert (always_full (H := endless) 1) as Hfull.
  { intros s q. split; [reflexivity|]. split; [discriminate|]. simpl. lia. }
  assert (date_cols_error (H := endless) None
            (observed_schema (H := endless) None ()) = None) as Herr
    by (vm_compute; reflexivity).
  assert (cutoff_overflows (H := endless) 90 = false) as Hov
    by (vm_compute; reflexivity).
  split; [exact Hfull|]. split; [exact Herr|]. split; [exact Hov|].
  exact (filtered_fetch_never_stops (H := endless) 7 90 1 None None 30 ()
           Hfull Herr Hov).
Defined.

(** Without a window that line 92 can compute the same source is never
    paged: a million days back is before the year 1. *)
Example filtered_fetch_overflow :
  always_full (H := endless) 1
  ∧ date_cols_error (H := endless) None (observed_schema (H := endless) None ())
    = None
  ∧ cutoff_overflows (H := endless) 1000000 = true
  ∧ result (fetch_api (H := endless) 7 1000000 1 None None 30 ())
    = Raise OverflowError.
Proof.
  split.
  { intros s q. split; [reflexivity|]. split; [discriminate|]. simpl. lia. }
  repeat split; vm_compute; reflexivity.
Qed.

Lemma any_newer_agrees_with_kept_witness :
  NoDup ["created_date"]
  ∧ present ["created_date"]
      (pd.of_records [ticket "SR1" (VNum day11); ticket "SR2" (VNum day9)]) ≠ []
  ∧ (process_page (H := scripted) ["created_date"] (10 * 86400000000000)
       [ticket "SR1" (VNum day11); ticket "SR2" (VNum day9)]).2
    = bool_decide
        (pd.rows (process_page (H := scripted) ["created_date"]
                    (10 * 86400000000000)
                    [ticket "SR1" (VNum day11); ticket "SR2" (VNum day9)]).1 ≠ []).
Proof.
  assert (NoDup ["created_date"]) as Hnd
    by (apply (bool_decide_unpack _); vm_compute; exact I).
  assert (present ["created_date"]
            (pd.of_records [ticket "SR1" (VNum day11); ticket "SR2" (VNum day9)])
          ≠ []) as Hp
    by (apply (bool_decide_unpack _); vm_compute; exact I).
  split; [exact Hnd|]. split; [exact Hp|].
  exact (any_newer_agrees_with_kept (H := scripted) ["created_date"]
           (10 * 86400000000000)
           [ticket "SR1" (VNum day11); ticket "SR2" (VNum day9)] Hnd Hp).
Defined.

Lemma wider_window_keeps_more_witness :
  NoDup ["created_date"]
  ∧ 90 ≤ 91
  ∧ pd.rows (process_page (H := scripted) ["created_date"]
               (since_dt_of (H := scripted) 90)
               [ticket "SR1" (VNum day11); ticket "SR2" (VNum day9)]).1
    `sublist_of`
    pd.rows (process_page (H := scripted) ["created_date"]
               (since_dt_of (H := scripted) 91)
               [ticket "SR1" (VNum day11); ticket "SR2" (VNum day9)]).1
  ∧ ((process_page (H := scripted) ["created_date"]
        (since_dt_of (H := scripted) 90)
        [ticket "SR1" (VNum day11); ticket "SR2" (VNum day9)]).2 = true →
     (process_page (H := scripted) ["created_date"]
        (since_dt_of (H := scripted) 91)
        [ticket "SR1" (VNum day11); ticket "SR2" (VNum day9)]).2 = true).
Proof.
  assert (NoDup ["created_date"]) as Hnd
    by (apply (bool_decide_unpack _); vm_compute; exact I).
  assert (90 ≤ 91) as Hle by lia.
  split; [exact Hnd|]. split; [exact Hle|].
  exact (wider_window_keeps_more (H := scripted) ["created_date"] 90 91
           [ticket "SR1" (VNum day11); ticket "SR2" (VNum day9)] Hnd Hle).
Defined.

Lemma csv_mode_witness :
  let r := main (H := scripted) (H0 := desk) 10
             (csv_args (Some "data/chi311.csv")) [] in
  args_source (csv_args (Some "data/chi311.csv")) = csv
  ∧ Forall (λ a, is_request a = false) (actions r)
  ∧ final r = []
  ∧ take 2 (actions r) = [MakeDirs "data"; MakeDirs "notes"]
  ∧ exit r = Ok ()
  ∧ actions r !! 2%nat
    = Some (ToParquet "data/raw_311.parquet"
              (normalize_dates (H := scripted)
                 (read_csv (System := desk) "data/chi311.csv"))).
Proof.
  cbv zeta. split; [reflexivity|].
  exact (csv_mode (H := scripted) (H0 := desk) 10
           (csv_args (Some "data/chi311.csv")) [] eq_refl).
Defined.


(** The run above ends normally, and writes the frame of the one row in
    the window. *)
Example main_api_run :
  let r := main (H := scripted) (H0 := desk) 10 api_args blind_script in
  exit r = Ok ()
  ∧ length (actions r) = 11%nat
  ∧ actions r !! 6%nat = Some (ToParquet "data/raw_311.parquet" blind_frame)
  ∧ last (actions r) = Some (Print "DATA_READY_TO_PROCEED").
Proof. cbv zeta. repeat split; vm_compute; reflexivity. Qed.

(** ** Refusals and negotiation on the scripted runs *)

(** C6 on two runs: the refused page of [broken_run] ends the fetch with
    its [HTTPError]; the refused probe of [filtered_run] is followed by
    the cast probe, and no exit leaves the fetch. *)
Lemma transport_error_is_fatal_witness :
  (trace broken_run = undated_prefix ++ broken_event :: []
   ∧ http_error (ev_response broken_event) = true
   ∧ ev_stage broken_event ≠ FilterProbe
   ∧ ([] = ([] : list event)
      ∧ result broken_run = Raise (HTTPError (ev_response broken_event))
      ∧ occurs_in (pretty (status_code (ev_response broken_event)))
          (http_error_msg (ev_response broken_event))
      ∧ occurs_in (url (ev_response broken_event))
          (http_error_msg (ev_response broken_event))
      ∧ ∀ r', status_code r' = status_code (ev_response broken_event) →
              reason r' = reason (ev_response broken_event) →
              url r' = url (ev_response broken_event) →
              http_error_msg r' = http_error_msg (ev_response broken_event)))
  ∧ (trace filtered_run
     = [mkEvent SchemaProbe (schema_request None)
          (ok [ticket "SR1" (VStr "01/11/1970")])]
       ++ raw_refusal "Type mismatch for op$>=" 400 :: drop 2 (trace filtered_run)
     ∧ http_error (ev_response (raw_refusal "Type mismatch for op$>=" 400)) = true
     ∧ ev_stage (raw_refusal "Type mismatch for op$>=" 400) = FilterProbe
     ∧ ((10%nat ≠ 0%nat → drop 2 (trace filtered_run) ≠ [])
        ∧ (∀ ev', head (drop 2 (trace filtered_run)) = Some ev' →
                  ev_stage ev' = FilterProbe ∨ ev_stage ev' = BlindPage)
        ∧ (∀ msg, result filtered_run ≠ Raise (SystemExit msg)))).
Proof.
  assert (trace broken_run = undated_prefix ++ broken_event :: []) as Htr
    by (vm_compute; reflexivity).
  assert (ev_stage broken_event ≠ FilterProbe) as Hst by discriminate.
  assert (http_error (ev_response broken_event) = true) as Hbad
    by (vm_compute; reflexivity).
  assert (trace filtered_run
          = [mkEvent SchemaProbe (schema_request None)
               (ok [ticket "SR1" (VStr "01/11/1970")])]
            ++ raw_refusal "Type mismatch for op$>=" 400
               :: drop 2 (trace filtered_run)) as Htr'
    by (vm_compute; reflexivity).
  assert (http_error (ev_response (raw_refusal "Type mismatch for op$>=" 400))
          = true) as Hbad' by (vm_compute; reflexivity).
  split.
  - split; [exact Htr|]. split; [exact Hbad|]. split; [exact Hst|].
    exact (proj1 (proj2 (transport_error_is_fatal (H := scripted) 10 90 2 None
                           None 30 broken_script)
                    undated_prefix broken_event [] Htr Hbad) Hst).
  - split; [exact Htr'|]. split; [exact Hbad'|]. split; [reflexivity|].
    exact (proj2 (proj2 (transport_error_is_fatal (H := scripted) 10 90 2 None
                           None 30 filtered_script)
                    _ _ _ Htr' Hbad') eq_refl).
Defined.

(** What [_try_page] reports of a refusal, on an example. *)
Example try_page_diagnostic :
  result (_try_page (H := scripted) "created_date >= 'x'" "created_date" 5 None
            [refused 400 "Type mismatch for op$>="])
  = Raise (SystemExit
             ("HTTP 400 from Socrata." +:+ nl
              +:+ "URL: https://data.cityofchicago.org/resource/v6vf-nfxy.json"
              +:+ nl +:+ "Message: Type mismatch for op$>=")).
Proof. vm_compute. reflexivity. Qed.

(** The body is cut by characters: of 500 accented letters and a marker
    the report keeps everything, of 900 accented letters the first 800. *)
Example diagnostic_truncation :
  str_take 800 accented_body = accented_body
  ∧ str_take 800 (String.concat EmptyString (replicate 900 e_acute))
    = String.concat EmptyString (replicate 800 e_acute)
  ∧ String.length (str_take 800 (String.concat EmptyString (replicate 900 e_acute)))
    = 1600%nat.
Proof. repeat split; vm_compute; reflexivity. Qed.

(** C7 on a run: the raw probe is refused with a body that tells the type
    mismatch past its byte 800 and within its first 800 characters; the
    cast probe is sent, and accepted. *)
Lemma negotiation_walks_candidates_witness :
  (∃ o, result (negotiate (H := scripted) ["created_date"]
                  (pretty (10 * 86400000000000)) 2 None (drop 1 accented_script))
        = Ok o
        ∧ negotiation None (pretty (10 * 86400000000000)) 2 ["created_date"]
            (trace (negotiate (H := scripted) ["created_date"]
                      (pretty (10 * 86400000000000)) 2 None
                      (drop 1 accented_script))) o)
  ∧ trace (negotiate (H := scripted) ["created_date"]
             (pretty (10 * 86400000000000)) 2 None (drop 1 accented_script))
    = [ accented_refusal;
        cast_probe None (pretty (10 * 86400000000000)) 2 "created_date"
          (ok [ticket "SR1" (VStr "01/11/1970")]) ]
  ∧ indicates_type_mismatch (refused 400 accented_body)
  ∧ ¬ indicates_type_mismatch (refused 500 "internal error").
Proof.
  split.
  { exact (negotiation_walks_candidates (H := scripted) ["created_date"]
             (pretty (10 * 86400000000000)) 2 None (drop 1 accented_script)). }
  split; [vm_compute; reflexivity|].
  split.
  - apply type_mismatch_indicates. vm_compute. reflexivity.
  - intros Hi. apply type_mismatch_indicates in Hi.
    vm_compute in Hi. discriminate.
Defined.

(** ** Where the specification and the code part, continued *)


(** C6: a negotiation probe is refused with status 400, and the fetch goes
    on to return a result; and the [HTTPError] that ends [broken_run] says
    nothing of the body of the refusal. *)
Lemma transport_error_counterexample :
  (raw_refusal "Type mismatch for op$>=" 400 ∈ trace filtered_run
   ∧ http_error (ev_response (raw_refusal "Type mismatch for op$>=" 400)) = true
   ∧ result filtered_run = Ok filtered_frame)
  ∧ (result broken_run = Raise (HTTPError (refused 503 "service unavailable"))
     ∧ http_error_msg (refused 503 "service unavailable")
       = "503 Server Error:  for url: "
         +:+ "https://data.cityofchicago.org/resource/v6vf-nfxy.json"
     ∧ ¬ occurs_in "service unavailable"
           (http_error_msg (refused 503 "service unavailable"))).
Proof.
  split.
  - split; [|split; vm_compute; reflexivity].
    assert (trace filtered_run !! 1%nat
            = Some (raw_refusal "Type mismatch for op$>=" 400)) as Hl
      by (vm_compute; reflexivity).
    by apply list_elem_of_lookup_2 in Hl.
  - split; [vm_compute; reflexivity|]. split; [vm_compute; reflexivity|].
    intros Ho. apply str_in_occurs_in in Ho; [|done].
    vm_compute in Ho. discriminate.
Qed.
